(** * medicaltorch: slice indexing, subvolume tiling and the crop/undo contract

    A shallow embedding of [medicaltorch/datasets.py] and
    [medicaltorch/transforms.py].

    - Python integers are [Z]; pixel and voxel intensities are rationals
      ([Q]), the exact-arithmetic reading of the finite [float32] values
      (non-finite values are outside the model).
    - Code that can raise returns a [result]; the exception kinds are the
      Python ones.
    - Arrays and images are functional: a shape (or size) and a total lookup
      function.  Python dictionaries are [gmap]s over string keys.
    - The external collaborators (nibabel, the geometric warps of
      torchvision and scipy) are interfaces; the theorems hold for every
      implementation of them. *)

From Stdlib Require Import ZArith QArith Qabs Qround String List Lia.
From Stdlib Require Import DecimalString.
From stdpp Require Import base option list gmap strings.

Local Open Scope Z_scope.

(* ===================================================================== *)
(** * Python base semantics *)
(* ===================================================================== *)

Module Py.

Inductive error :=
| RuntimeError (msg : string)
| AttributeError
| IndexError
| KeyError
| TypeError
| ValueError
| ZeroDivisionError
| OSError.

Inductive result (A : Type) :=
| Ok (a : A)
| Raise (e : error).
Arguments Ok {A} a.
Arguments Raise {A} e.

Definition bind {A B} (r : result A) (k : A → result B) : result B :=
  match r with
  | Ok a => k a
  | Raise e => Raise e
  end.

Definition raises {A} (r : result A) : Prop :=
  match r with
  | Ok _ => False
  | Raise _ => True
  end.

Definition returns {A} (r : result A) : Prop :=
  match r with
  | Ok _ => True
  | Raise _ => False
  end.

(** [for x in l: acc.extend(f x)], stopping at the first exception. *)
Fixpoint for_each {A B} (l : list A) (f : A → result (list B)) : result (list B) :=
  match l with
  | [] => Ok []
  | x :: l' =>
      bind (f x) (λ ys, bind (for_each l' f) (λ rest, Ok (ys ++ rest)))
  end.

(** [[f x for x in l]] where [f] may raise. *)
Fixpoint map_each {A B} (l : list A) (f : A → result B) : result (list B) :=
  match l with
  | [] => Ok []
  | x :: l' => bind (f x) (λ y, bind (map_each l' f) (λ rest, Ok (y :: rest)))
  end.

(** [enumerate(l)] *)
Definition enumerate {A} (l : list A) : list (Z * A) :=
  imap (λ i x, (Z.of_nat i, x)) l.

(** [l[i]] on a list or tuple: negative indexes count from the end. *)
Definition index {A} (l : list A) (i : Z) : result A :=
  let n := Z.of_nat (length l) in
  let j := if i <? 0 then i + n else i in
  if (0 <=? j) && (j <? n) then
    match l !! Z.to_nat j with
    | Some x => Ok x
    | None => Raise IndexError
    end
  else Raise IndexError.

Fixpoint range_from (start step : Z) (n : nat) : list Z :=
  match n with
  | O => []
  | S n' => start :: range_from (start + step) step n'
  end.

(** The length CPython computes for [range(lo, hi, step)]. *)
Definition range_len (lo hi step : Z) : Z :=
  if 0 <? step then
    if lo <? hi then 1 + (hi - 1 - lo) / step else 0
  else
    if hi <? lo then 1 + (lo - 1 - hi) / (- step) else 0.

(** [range(lo, hi, step)] *)
Definition range3 (lo hi step : Z) : result (list Z) :=
  if step =? 0 then Raise ValueError
  else Ok (range_from lo step (Z.to_nat (range_len lo hi step))).

(** [range(n)] *)
Definition range (n : Z) : list Z :=
  range_from 0 1 (Z.to_nat n).

(** [int(round(d / 2.))] for an integer [d]: Python 3 rounds halves to
    the even neighbour. *)
Definition round_half (d : Z) : Z :=
  let q := d / 2 in
  if d mod 2 =? 0 then q
  else if Z.even q then q else q + 1.

(** [needle in haystack] on strings. *)
Definition contains (needle haystack : string) : bool :=
  match String.index 0 needle haystack with
  | Some _ => true
  | None => false
  end.

End Py.

Import Py.

Notation "'let?' x ':=' r 'in' k" := (Py.bind r (λ x, k))
  (at level 10, x name, r at level 100, k at level 200,
   format "'[v' 'let?'  x  ':='  r  'in' '/' k ']'").
Notation "'let?' ' p ':=' r 'in' k" := (Py.bind r (λ p, k))
  (at level 10, p pattern, r at level 100, k at level 200,
   format "'[v' 'let?'  ' p  ':='  r  'in' '/' k ']'").

(* ===================================================================== *)
(** * Shared data model *)
(* ===================================================================== *)

(** A numpy array or a torch tensor: shape and element lookup. *)
Record ndarray := {
  nd_shape : list Z;
  nd_at : list Z → Q
}.

(** Values stored in a metadata dictionary. *)
Inductive metaval :=
| MInt (z : Z)
| MInts (t : list Z)
| MFloats (t : list Q)
| MStr (s : string)
| MFiles (fs : option (list (option string))).

(** A [SampleMetadata] object, or the plain [dict] it wraps. *)
Abbreviation metadict := (gmap string metaval).

(** [PIL.Image]: mode ['F'] (float32) or ['L'] (8 bit), [size = (width,
    height)], pixel lookup by [(x, y)]. *)
Inductive mode := ModeF | ModeL.

Record image := {
  im_mode : mode;
  im_size : Z * Z;
  im_px : Z → Z → Q
}.

Definition width (im : image) : Z := fst (im_size im).
Definition height (im : image) : Z := snd (im_size im).

(** One datum of a sample: a PIL image, or an array/tensor. *)
Inductive item :=
| Img (im : image)
| Arr (a : ndarray).

(** The value under ['input'], ['gt'] or ['roi']: [None], one datum, or a
    list with one datum per channel. *)
Inductive field :=
| FNone
| FOne (x : item)
| FMany (l : list item).

(** The value under ['input_metadata'], ['gt_metadata'], ['roi_metadata']. *)
Inductive metafield :=
| MetaNone
| MetaOne (m : metadict)
| MetaMany (l : list metadict).

(** The sample dictionary with its reserved keys. *)
Record sample := {
  input : field;
  gt : field;
  roi : field;
  input_metadata : metafield;
  gt_metadata : metafield;
  roi_metadata : metafield
}.

Definition set_input (v : field) (s : sample) : sample :=
  {| input := v; gt := gt s; roi := roi s;
     input_metadata := input_metadata s; gt_metadata := gt_metadata s;
     roi_metadata := roi_metadata s |}.

Definition set_gt (v : field) (s : sample) : sample :=
  {| input := input s; gt := v; roi := roi s;
     input_metadata := input_metadata s; gt_metadata := gt_metadata s;
     roi_metadata := roi_metadata s |}.

Definition set_input_metadata (v : metafield) (s : sample) : sample :=
  {| input := input s; gt := gt s; roi := roi s;
     input_metadata := v; gt_metadata := gt_metadata s;
     roi_metadata := roi_metadata s |}.

Definition set_gt_metadata (v : metafield) (s : sample) : sample :=
  {| input := input s; gt := gt s; roi := roi s;
     input_metadata := input_metadata s; gt_metadata := v;
     roi_metadata := roi_metadata s |}.

(* ===================================================================== *)
(** * transforms.py *)
(* ===================================================================== *)

(** The geometric warps are library calls (torchvision's [F.affine];
    scipy's [gaussian_filter] and [map_coordinates] over [np.random]
    noise).  Nothing is assumed about the values they produce. *)
Class Warps := {
  affine_params : Type;
  (** [F.affine(img, *params, resample=..., fillcolor=...)] *)
  F_affine : image → affine_params → Z → Q → image;
  (** the random state one call of [elastic_transform] consumes *)
  noise : Type;
  (** [map_coordinates(image, indices, order=1)], read at a grid position *)
  map_coordinates : noise → ndarray → Q → Q → list Z → Q
}.

Module Transforms.

(** ** PIL / numpy / torchvision primitives *)

Definition inside (im : image) (x y : Z) : bool :=
  (0 <=? x) && (x <? width im) && (0 <=? y) && (y <? height im).

(** [Image.crop((x0, y0, x1, y1))]: the part of the box outside the
    source reads 0. *)
Definition Image_crop (im : image) (x0 y0 x1 y1 : Z) : image :=
  {| im_mode := im_mode im;
     im_size := (x1 - x0, y1 - y0);
     im_px := λ x y,
       if inside im (x0 + x) (y0 + y) then im_px im (x0 + x) (y0 + y) else 0%Q |}.

(** [F.crop(img, i, j, h, w) = img.crop((j, i, j + w, i + h))] *)
Definition F_crop (im : image) (i j h w : Z) : image :=
  Image_crop im j i (j + w) (i + h).

(** [F.center_crop(img, (th, tw))] *)
Definition F_center_crop (im : image) (size : Z * Z) : image :=
  let '(w, h) := im_size im in
  let '(th, tw) := size in
  let i := round_half (h - th) in
  let j := round_half (w - tw) in
  F_crop im i j th tw.

(** [F.pad(img, (left, top, right, bottom))] with the default [fill=0]:
    [ImageOps.expand] makes a new image filled with 0 and pastes [img] at
    [(left, top)]. *)
Definition F_pad (im : image) (padding : Z * Z * Z * Z) : image :=
  let '(p_left, p_top, p_right, p_bottom) := padding in
  {| im_mode := im_mode im;
     im_size := (p_left + width im + p_right, p_top + height im + p_bottom);
     im_px := λ x y,
       if inside im (x - p_left) (y - p_top)
       then im_px im (x - p_left) (y - p_top)
       else 0%Q |}.

(** [np.array(img)]: shape [(height, width)]. *)
Definition np_array (im : image) : ndarray :=
  {| nd_shape := [height im; width im];
     nd_at := λ idx, match idx with
                     | [y; x] => im_px im x y
                     | _ => 0%Q
                     end |}.

(** [np.array(data)] on a datum of the sample. *)
Definition item_array (x : item) : ndarray :=
  match x with
  | Img im => np_array im
  | Arr a => a
  end.

(** [Image.fromarray(a, mode=m)] for a two-dimensional array. *)
Definition Image_fromarray (a : ndarray) (m : mode) : result image :=
  match nd_shape a with
  | [h; w] => Ok {| im_mode := m; im_size := (w, h);
                    im_px := λ x y, nd_at a [y; x] |}
  | _ => Raise ValueError
  end.

(** [a[cond(a)] = v] *)
Definition assign_where (cond : Q → bool) (v : Q) (a : ndarray) : ndarray :=
  {| nd_shape := nd_shape a;
     nd_at := λ idx, if cond (nd_at a idx) then v else nd_at a idx |}.

(** [a += c] *)
Definition add_scalar (c : Q) (a : ndarray) : ndarray :=
  {| nd_shape := nd_shape a; nd_at := λ idx, (nd_at a idx + c)%Q |}.

Definition ge_half (v : Q) : bool := Qle_bool (1 # 2) v.
Definition lt_half (v : Q) : bool := negb (Qle_bool (1 # 2) v).

(** [F.to_tensor(pic)]: a PIL image becomes a [1 x H x W] tensor (8-bit
    images are scaled by [1/255]); an [H x W x C] array becomes
    [C x H x W]. *)
Definition F_to_tensor (x : item) : result item :=
  match x with
  | Img im =>
      Ok (Arr {| nd_shape := [1; height im; width im];
                 nd_at := λ idx,
                   match idx with
                   | [_; y; x] =>
                       match im_mode im with
                       | ModeF => im_px im x y
                       | ModeL => (im_px im x y / 255)%Q
                       end
                   | _ => 0%Q
                   end |})
  | Arr a =>
      match nd_shape a with
      | [h; w; c] =>
          Ok (Arr {| nd_shape := [c; h; w];
                     nd_at := λ idx,
                       match idx with
                       | [k; y; x] => nd_at a [y; x; k]
                       | _ => 0%Q
                       end |})
      | _ => Raise ValueError
      end
  end.

(** ** ToTensor *)

Module ToTensor.

Definition call (labeled : bool) (s : sample) : result sample :=
  let? ret_input :=
    match input s with
    | FMany l => let? l' := map_each l F_to_tensor in Ok (FMany l')
    | FOne x => let? x' := F_to_tensor x in Ok (FOne x')
    | FNone => Raise TypeError
    end in
  let s1 := set_input ret_input s in
  if labeled then
    match gt s with
    | FNone => Ok s1
    | FMany l => let? l' := map_each l F_to_tensor in Ok (set_gt (FMany l') s1)
    | FOne x => let? x' := F_to_tensor x in Ok (set_gt (FOne x') s1)
    end
  else Ok s1.

End ToTensor.

(** ** Crop2D and CenterCrop2D *)

Definition centercrop_key : string := "__centercrop".

(** [metadata[key] = value] on the object under a metadata key of the
    sample. *)
Definition meta_setitem (mf : metafield) (key : string) (v : metaval)
  : result metafield :=
  match mf with
  | MetaOne m => Ok (MetaOne (<[key := v]> m))
  | MetaNone => Raise TypeError
  | MetaMany _ => Raise TypeError
  end.

(** [metadata[key]] *)
Definition meta_getitem (mf : metafield) (key : string) : result metaval :=
  match mf with
  | MetaOne m =>
      match m !! key with
      | Some v => Ok v
      | None => Raise KeyError
      end
  | MetaNone => Raise TypeError
  | MetaMany _ => Raise TypeError
  end.

(** The attribute [.size] of the datum, unpacked as [w, h]. *)
Definition pil_size (f : field) : result (Z * Z) :=
  match f with
  | FOne (Img im) => Ok (im_size im)
  | FOne (Arr _) => Raise TypeError
  | FMany _ => Raise AttributeError
  | FNone => Raise AttributeError
  end.

(** The datum as the PIL image a torchvision function requires. *)
Definition pil_image (f : field) : result image :=
  match f with
  | FOne (Img im) => Ok im
  | _ => Raise TypeError
  end.

Module Crop2D.

Definition propagate_params (s : sample) (params : Z * Z * Z * Z)
  : result sample :=
  let '(fh, fw, w, h) := params in
  let? im' := meta_setitem (input_metadata s) centercrop_key
                (MInts [fh; fw; w; h]) in
  Ok (set_input_metadata im' s).

Definition get_params (s : sample) : result (Z * Z * Z * Z) :=
  let? v := meta_getitem (input_metadata s) centercrop_key in
  match v with
  | MInts [fh; fw; w; h] => Ok (fh, fw, w, h)
  | MInts _ => Raise ValueError
  | MFloats _ => Raise ValueError
  | MStr _ => Raise ValueError
  | MInt _ => Raise TypeError
  | MFiles _ => Raise TypeError
  end.

Definition undo_transform (size : Z * Z) (s : sample) : result sample :=
  let input_data := input s in
  let? '(fh, fw, w, h) := get_params s in
  let '(th, tw) := size in
  let pad_left := fw in
  let pad_right := w - pad_left - tw in
  let pad_top := fh in
  let pad_bottom := h - pad_top - th in
  let padding := (pad_left, pad_top, pad_right, pad_bottom) in
  let? im := pil_image input_data in
  Ok (set_input (FOne (Img (F_pad im padding))) s).

End Crop2D.

(** [F.center_crop(data, size)] on a value of the sample: it reads
    [data.size] and then requires a PIL image. *)
Definition center_crop_field (f : field) (size : Z * Z) : result image :=
  let? _size := pil_size f in
  let? im := pil_image f in
  Ok (F_center_crop im size).

Module CenterCrop2D.

Definition call (size : Z * Z) (labeled : bool) (s : sample) : result sample :=
  let input_data := input s in
  let? '(w, h) := pil_size input_data in
  let '(th, tw) := size in
  let fh := round_half (h - th) in
  let fw := round_half (w - tw) in
  let params := (fh, fw, w, h) in
  let? s := Crop2D.propagate_params s params in
  let? input_data := center_crop_field input_data size in
  if labeled then
    let? gt_data := center_crop_field (gt s) size in
    let? gm := meta_setitem (gt_metadata s) centercrop_key
                 (MInts [fh; fw; w; h]) in
    Ok (set_gt (FOne (Img gt_data))
          (set_input (FOne (Img input_data)) (set_gt_metadata gm s)))
  else
    Ok (set_input (FOne (Img input_data)) s).

End CenterCrop2D.

(** ** RandomAffine *)

(** The random draws of a call ([get_params]) are an argument. *)

Module RandomAffine.

Definition sample_augment `{Warps} (resample : Z) (fillcolor : Q)
    (x : item) (params : affine_params) : result image :=
  match x with
  | Img im => Ok (F_affine im params resample fillcolor)
  | Arr _ => Raise TypeError
  end.

Definition label_augment `{Warps} (resample : Z) (fillcolor : Q)
    (x : item) (params : affine_params) : result image :=
  let? gt_data := sample_augment resample fillcolor x params in
  let np_gt_data := np_array gt_data in
  let np_gt_data := assign_where ge_half 1%Q np_gt_data in
  let np_gt_data := assign_where lt_half 0%Q np_gt_data in
  Image_fromarray np_gt_data ModeF.

Definition call `{Warps} (resample : Z) (fillcolor : Q) (labeled : bool)
    (params : affine_params) (s : sample) : result sample :=
  let input_data := input s in
  let? _input_data_size :=
    match input_data with
    | FMany l => let? x := index l 0 in pil_size (FOne x)
    | _ => pil_size input_data
    end in
  let? ret_input :=
    match input_data with
    | FMany l =>
        let? l' := map_each l (λ x,
          let? r := sample_augment resample fillcolor x params in
          Ok (Img r)) in
        Ok (FMany l')
    | FOne x =>
        let? r := sample_augment resample fillcolor x params in
        Ok (FOne (Img r))
    | FNone => Raise TypeError
    end in
  let s1 := set_input ret_input s in
  if labeled then
    let? ret_gt :=
      match gt s with
      | FMany l =>
          let? l' := map_each l (λ x,
            let? r := label_augment resample fillcolor x params in
            Ok (Img r)) in
          Ok (FMany l')
      | FOne x =>
          let? r := label_augment resample fillcolor x params in
          Ok (FOne (Img r))
      | FNone => Raise TypeError
      end in
    Ok (set_gt ret_gt s1)
  else Ok s1.

End RandomAffine.

(** ** ElasticTransform *)

Module ElasticTransform.

(** [elastic_transform(image, alpha, sigma)]: the values
    [map_coordinates] reads, reshaped to the shape of [image]. *)
Definition elastic_transform `{Warps} (nz : noise) (a : ndarray) (alpha sigma : Q)
  : ndarray :=
  {| nd_shape := nd_shape a; nd_at := map_coordinates nz a alpha sigma |}.

Definition sample_augment `{Warps} (nz : noise) (x : item) (params : Q * Q)
  : result image :=
  let '(param_alpha, param_sigma) := params in
  let np_input_data := item_array x in
  let np_input_data :=
    elastic_transform nz np_input_data param_alpha param_sigma in
  Image_fromarray np_input_data ModeF.

Definition label_augment `{Warps} (nz : noise) (x : item) (params : Q * Q)
  : result image :=
  let '(param_alpha, param_sigma) := params in
  let np_gt_data := item_array x in
  let np_gt_data := elastic_transform nz np_gt_data param_alpha param_sigma in
  let np_gt_data := assign_where ge_half 1%Q np_gt_data in
  let np_gt_data := assign_where lt_half 0%Q np_gt_data in
  Image_fromarray np_gt_data ModeF.

(** [draw] is the value of [np.random.random()], [params] the sampled
    [(alpha, sigma)], and [nz k] the noise consumed by the [k]-th call
    of [elastic_transform]. *)
Definition call `{Warps} (p : Q) (labeled : bool) (draw : Q) (params : Q * Q)
    (nz : nat → noise) (s : sample) : result sample :=
  if negb (Qle_bool p draw) then
    let input_data := input s in
    let? '(ret_input, used) :=
      match input_data with
      | FMany l =>
          let? l' := map_each (imap (λ k x, (k, x)) l) (λ kx,
            let? r := sample_augment (nz (fst kx)) (snd kx) params in
            Ok (Img r)) in
          Ok (FMany l', length l)
      | FOne x =>
          let? r := sample_augment (nz O) x params in
          Ok (FOne (Img r), 1%nat)
      | FNone => Raise ValueError
      end in
    let s1 := set_input ret_input s in
    if labeled then
      let? ret_gt :=
        match gt s with
        | FMany l =>
            let? l' := map_each (imap (λ k x, (k, x)) l) (λ kx,
              let? r := label_augment (nz (used + fst kx)%nat)
                          (snd kx) params in
              Ok (Img r)) in
            Ok (FMany l')
        | FOne x =>
            let? r := label_augment (nz used) x params in
            Ok (FOne (Img r))
        | FNone => Raise ValueError
        end in
      Ok (set_gt ret_gt s1)
    else Ok s1
  else Ok s.

End ElasticTransform.

(** ** RandomTensorChannelShift *)

(** The sampled shift ([get_params]) is an argument. *)

Module RandomTensorChannelShift.

Definition sample_augment (x : item) (params : Q) : result image :=
  let np_input_data := item_array x in
  let np_input_data := add_scalar params np_input_data in
  Image_fromarray np_input_data ModeF.

Definition call (params : Q) (s : sample) : result sample :=
  let input_data := input s in
  let? ret_input :=
    match input_data with
    | FMany l =>
        let? x0 := index l 0 in
        let? r0 := sample_augment x0 params in
        let? x1 := index l 1 in
        Ok (FMany [Img r0; x1])
    | FOne x =>
        let? r := sample_augment x params in
        Ok (FOne (Img r))
    | FNone => Raise TypeError
    end in
  Ok (set_input ret_input s).

End RandomTensorChannelShift.

(** ** ToPIL *)

(** [np.transpose(a, (1, 2, 0))] *)
Definition np_transpose_120 (a : ndarray) : result ndarray :=
  match nd_shape a with
  | [c; h; w] =>
      Ok {| nd_shape := [h; w; c];
            nd_at := λ idx,
              match idx with
              | [y; x; k] => nd_at a [k; y; x]
              | _ => 0%Q
              end |}
  | _ => Raise ValueError
  end.

(** [np.squeeze(a, axis=2)]: the axis must be there and have length 1. *)
Definition np_squeeze_2 (a : ndarray) : result ndarray :=
  match nd_shape a !! 2%nat with
  | Some n =>
      if n =? 1 then
        Ok {| nd_shape := delete 2%nat (nd_shape a);
              nd_at := λ idx, nd_at a (take 2 idx ++ 0 :: drop 2 idx) |}
      else Raise ValueError
  | None => Raise ValueError
  end.

Module ToPIL.

(** A PIL image is no [np.ndarray] and has no [numpy()] method. *)
Definition sample_transform (sample_data : item) : result image :=
  match sample_data with
  | Img _ => Raise AttributeError
  | Arr input_data_npy =>
      let? input_data_npy := np_transpose_120 input_data_npy in
      let? input_data_npy := np_squeeze_2 input_data_npy in
      Image_fromarray input_data_npy ModeF
  end.

(** The value stored under a key: [sample_transform] of the datum, or of
    every datum of a list. *)
Definition transform_field (f : field) : result field :=
  match f with
  | FMany l =>
      let? l' := map_each l (λ x, let? r := sample_transform x in Ok (Img r)) in
      Ok (FMany l')
  | FOne x => let? r := sample_transform x in Ok (FOne (Img r))
  | FNone => Raise AttributeError
  end.

Definition call (labeled : bool) (s : sample) : result sample :=
  let? ret_input := transform_field (input s) in
  let s1 := set_input ret_input s in
  if labeled then
    let? ret_gt := transform_field (gt s) in
    Ok (set_gt ret_gt s1)
  else Ok s1.

End ToPIL.

(** ** UnCenterCrop2D *)

Module UnCenterCrop2D.

(** [(fh, fw, w, h) = value]: the value must be a sequence of four
    elements. *)
Definition unpack4 (v : metaval) : result unit :=
  let four (n : nat) : result unit :=
    if (n =? 4)%nat then Ok tt else Raise ValueError in
  match v with
  | MInt _ => Raise TypeError
  | MInts t => four (length t)
  | MFloats t => four (length t)
  | MStr s => four (String.length s)
  | MFiles (Some fs) => four (length fs)
  | MFiles None => Raise TypeError
  end.

Definition call (s : sample) : result sample :=
  let? v := meta_getitem (input_metadata s) centercrop_key in
  let? _u := unpack4 v in
  let? v := meta_getitem (gt_metadata s) centercrop_key in
  let? _u := unpack4 v in
  Ok s.

End UnCenterCrop2D.

(** ** HistogramClipping *)

(** [np.percentile(array, q)] is numpy's; nothing is assumed about the
    value it returns. *)
Class Percentile := {
  np_percentile : ndarray → Q → Q
}.

Module HistogramClipping.

(** The transform is called on an array, and works on a copy of it. *)
Definition call `{Percentile} (min_percentile max_percentile : Q)
    (data : ndarray) : ndarray :=
  let array := data in
  let percentile1 := np_percentile array min_percentile in
  let percentile2 := np_percentile array max_percentile in
  let array := assign_where (λ v, Qle_bool v percentile1) percentile1 array in
  let array := assign_where (λ v, Qle_bool percentile2 v) percentile2 array in
  array.

End HistogramClipping.

(** ** RandomReverse3D *)

(** [np.asarray] of a list of arrays that do not all have the same shape:
    what numpy makes of it depends on its version, so it is left open. *)
Class Stacking := {
  asarray_ragged : list ndarray → result ndarray
}.

(** [np.asarray(l)] for arrays of one shape: they are stacked along a new
    first axis (the empty list gives an array of shape [(0,)]). *)
Definition np_stack (l : list ndarray) : ndarray :=
  {| nd_shape := Z.of_nat (length l) :: default [] (nd_shape <$> head l);
     nd_at := λ idx,
       match idx with
       | [] => 0%Q
       | c :: rest =>
           match l !! Z.to_nat c with
           | Some a => nd_at a rest
           | None => 0%Q
           end
       end |}.

(** [len(set(shapes)) <= 1] *)
Definition one_shape (l : list ndarray) : bool :=
  match l with
  | [] => true
  | a :: rest =>
      forallb (λ b, bool_decide (nd_shape b = nd_shape a)) rest
  end.

(** [np.asarray(data)] on a value of the sample; the arrays here are
    numpy arrays, as the 3D datasets hand them to the transforms.  [None]
    becomes an array without axes. *)
Definition np_asarray `{Stacking} (f : field) : result ndarray :=
  match f with
  | FNone => Ok {| nd_shape := []; nd_at := λ _, 0%Q |}
  | FOne x => Ok (item_array x)
  | FMany l =>
      let arrays := item_array <$> l in
      if one_shape arrays then Ok (np_stack arrays) else asarray_ragged arrays
  end.

(** [np.flip(a, axis)]: an axis the array does not have is a
    [ValueError]. *)
Definition np_flip (a : ndarray) (axis : nat) : result ndarray :=
  match nd_shape a !! axis with
  | Some n =>
      Ok {| nd_shape := nd_shape a;
            nd_at := λ idx, nd_at a (alter (λ i, n - 1 - i) axis idx) |}
  | None => Raise ValueError
  end.

Module RandomReverse3D.

(** [np.flip(data, axis=axis).copy()] on a value of the sample. *)
Definition flip `{Stacking} (data : field) (axis : nat) : result field :=
  let? a := np_asarray data in
  let? r := np_flip a axis in
  Ok (FOne (Arr r)).

(** One of the three [if np.random.randint(2) == 1:] blocks; [draw] is
    the value drawn. *)
Definition step `{Stacking} (labeled : bool) (draw : Z) (axis : nat)
    (data : field * field) : result (field * field) :=
  let '(input_data, gt_data) := data in
  if draw =? 1 then
    let? input_data := flip input_data axis in
    let? gt_data := if labeled then flip gt_data axis else Ok gt_data in
    Ok (input_data, gt_data)
  else Ok (input_data, gt_data).

Definition call `{Stacking} (labeled : bool) (draw0 draw1 draw2 : Z)
    (s : sample) : result sample :=
  let input_data := input s in
  let gt_data := if labeled then gt s else FNone in
  let? data := step labeled draw0 0 (input_data, gt_data) in
  let? data := step labeled draw1 1 data in
  let? '(input_data, gt_data) := step labeled draw2 2 data in
  let s1 := set_input input_data s in
  Ok (if labeled then set_gt gt_data s1 else s1).

End RandomReverse3D.

(** ** AdditiveGaussianNoise *)

(** [a += b] for two two-dimensional arrays: [b] is stretched along an
    axis on which it has length 1, [a] is never stretched. *)
Definition np_iadd2 (a b : ndarray) : result ndarray :=
  match nd_shape a, nd_shape b with
  | [h; w], [n0; n1] =>
      if ((n0 =? h) || (n0 =? 1)) && ((n1 =? w) || (n1 =? 1)) then
        Ok {| nd_shape := [h; w];
              nd_at := λ idx,
                match idx with
                | [y; x] =>
                    let y' := if n0 =? h then y else 0 in
                    let x' := if n1 =? w then x else 0 in
                    (nd_at a [y; x] + nd_at b [y'; x'])%Q
                | _ => 0%Q
                end |}
      else Raise ValueError
  | _, _ => Raise ValueError
  end.

Module AdditiveGaussianNoise.

(** [noise] is the table [np.random.normal(mean, std, size)] draws, read
    at an index of the array of shape [size].  For a PIL image [size] is
    the pair [(width, height)].  An 8-bit image gives an integer array,
    to which the float noise cannot be added in place.  What the call
    does with an array or a tensor under ['input'] depends on which of
    the two it is, and is left open ([on_array]). *)
Definition call (on_array : ndarray → result sample) (noise : list Z → Q)
    (s : sample) : result sample :=
  match input s with
  | FOne (Img im) =>
      let '(w, h) := im_size im in
      if (w <? 0) || (h <? 0) then Raise ValueError
      else
        let noise := {| nd_shape := [w; h]; nd_at := noise |} in
        match im_mode im with
        | ModeL => Raise TypeError
        | ModeF =>
            let np_input_data := np_array im in
            let? np_input_data := np_iadd2 np_input_data noise in
            let? input_data := Image_fromarray np_input_data ModeF in
            Ok (set_input (FOne (Img input_data)) s)
        end
  | FOne (Arr a) => on_array a
  | FMany _ => Raise AttributeError
  | FNone => Raise AttributeError
  end.

End AdditiveGaussianNoise.

End Transforms.


(* ===================================================================== *)
(** * datasets.py *)
(* ===================================================================== *)

(** A loaded volume ([nibabel] image): the header's data shape and zooms,
    the voxel data [get_fdata] decodes, and the orientation the affine
    gives: the world axis each array axis runs along. *)
Record nifti := {
  nii_shape : list Z;
  nii_zooms : list Q;
  nii_data : list Z → Q;
  nii_axes : list nat
}.

(** The volumetric-image loader. *)
Class Nibabel := {
  (** [nib.load(filename)] *)
  nib_load : string → result nifti;
  (** [nib.as_closest_canonical(img)] *)
  as_closest_canonical : nifti → nifti
}.

Class Numpy := {
  np_sqrt : Q → Q
}.

(** A transform object: what [str(type(t))] prints, its [size] attribute
    when it has one, and its [__call__].  A randomized stage stands here
    with its draws fixed. *)
Record stage := {
  stage_type : string;
  stage_size : option (list Z);
  stage_call : sample → result sample
}.

(** The dataset's [transform]: a single stage, or a
    [torchvision.transforms.Compose], the only one with a [transforms]
    attribute. *)
Inductive transform_obj :=
| Stage (t : stage)
| Compose (ts : list stage).

Fixpoint run_stages (ts : list stage) (s : sample) : result sample :=
  match ts with
  | [] => Ok s
  | t :: ts' => let? s' := stage_call t s in run_stages ts' s'
  end.

Definition apply_transform (t : transform_obj) (s : sample) : result sample :=
  match t with
  | Stage t => stage_call t s
  | Compose ts => run_stages ts s
  end.

Definition ToTensor (labeled : bool) : stage :=
  {| stage_type := "<class 'medicaltorch.transforms.ToTensor'>";
     stage_size := None;
     stage_call := Transforms.ToTensor.call labeled |}.

(** [CenterCrop2D(size, labeled)] as a stage; its [size] attribute is the
    pair [(th, tw)]. *)
Definition CenterCrop2D (size : Z * Z) (labeled : bool) : stage :=
  {| stage_type := "<class 'medicaltorch.transforms.CenterCrop2D'>";
     stage_size := Some [fst size; snd size];
     stage_call := Transforms.CenterCrop2D.call size labeled |}.

(** ** numpy helpers *)

(** [handle.get_fdata(cache_mode, dtype=np.float32)] (and [handle.dataobj]) *)
Definition get_fdata (h : nifti) : ndarray :=
  {| nd_shape := nii_shape h; nd_at := nii_data h |}.

(** [np.zeros(shape)] *)
Definition np_zeros (shape : list Z) : ndarray :=
  {| nd_shape := shape; nd_at := λ _, 0%Q |}.

(** [a[..., k]] with the index [k] placed on axis [axis]. *)
Definition take_index (a : ndarray) (axis : nat) (k : Z) : result ndarray :=
  match nd_shape a !! axis with
  | None => Raise IndexError
  | Some n =>
      let j := if k <? 0 then k + n else k in
      if (0 <=? j) && (j <? n) then
        Ok {| nd_shape := delete axis (nd_shape a);
              nd_at := λ idx, nd_at a (take axis idx ++ j :: drop axis idx) |}
      else Raise IndexError
  end.

(** [isclose] on two shape entries with numpy's default tolerances:
    [|a - b| <= atol + rtol * |b|], [rtol = 1e-05], [atol = 1e-08]. *)
Definition isclose (a b : Z) : bool :=
  Qle_bool (Qabs (inject_Z a - inject_Z b))
           ((1 # 100000000) + (1 # 100000) * Qabs (inject_Z b)).

(** [np.allclose(a, b)] on a shape tuple and a shape tuple or [None]:
    one-dimensional broadcasting, then every pair close. *)
Definition np_allclose (a : list Z) (b : option (list Z)) : result bool :=
  match b with
  | None => Raise TypeError
  | Some b =>
      if (length a =? length b)%nat then
        Ok (forallb (λ ab, isclose (fst ab) (snd ab)) (zip a b))
      else
        match a, b with
        | _, [b0] => Ok (forallb (λ x, isclose x b0) a)
        | [a0], _ => Ok (forallb (λ y, isclose a0 y) b)
        | _, _ => Raise ValueError
        end
  end.

(** All index tuples of an array of the given shape, in C order. *)
Fixpoint indices (shape : list Z) : list (list Z) :=
  match shape with
  | [] => [[]]
  | n :: shape' => i ← Py.range n; (λ idx, i :: idx) <$> indices shape'
  end.

(** [t.sum()] *)
Definition nd_sum (a : ndarray) : Q :=
  foldr (λ idx acc, (nd_at a idx + acc)%Q) 0%Q (indices (nd_shape a)).

(** [t.numel()] *)
Definition numel (a : ndarray) : Z :=
  foldr Z.mul 1 (nd_shape a).

(** [(a * 255).astype(np.uint8)]: scale, truncate toward zero, keep the
    low 8 bits. *)
Definition to_uint8 (v : Q) : Q :=
  let s := (v * 255)%Q in
  let t := if Qle_bool 0 s then Qfloor s else Qceiling s in
  inject_Z (t mod 256).

Definition scale_uint8 (a : ndarray) : ndarray :=
  {| nd_shape := nd_shape a; nd_at := λ idx, to_uint8 (nd_at a idx) |}.

(** ** SampleMetadata *)

Module SampleMetadata.

(** The attribute [metadata]: the dictionary, or [None]. *)
Record t := {
  metadata : option metadict
}.

(** [bool(d)] for a dictionary or [None]: [None] and the empty dictionary
    are false. *)
Definition dict_truthy (d : option metadict) : bool :=
  match d with
  | Some m => negb (size m =? 0)%nat
  | None => false
  end.

(** [a or b] *)
Definition py_or (a b : option metadict) : option metadict :=
  if dict_truthy a then a else b.

(** [self.metadata = {} or d] *)
Definition __init__ (d : option metadict) : t :=
  {| metadata := py_or (Some ∅) d |}.

Definition __setitem__ (self : t) (key : string) (value : metaval) : result t :=
  match metadata self with
  | Some m => Ok {| metadata := Some (<[key := value]> m) |}
  | None => Raise TypeError
  end.

Definition __getitem__ (self : t) (key : string) : result metaval :=
  match metadata self with
  | Some m =>
      match m !! key with
      | Some v => Ok v
      | None => Raise KeyError
      end
  | None => Raise TypeError
  end.

Definition __contains__ (self : t) (key : string) : result bool :=
  match metadata self with
  | Some m => Ok (bool_decide (is_Some (m !! key)))
  | None => Raise TypeError
  end.

(** The keys, as a set. *)
Definition keys (self : t) : result (gset string) :=
  match metadata self with
  | Some m => Ok (dom m)
  | None => Raise AttributeError
  end.

End SampleMetadata.

(** ** SegmentationPair2D *)

(** The dictionary [get_pair_slice] returns. *)
Record pair_slice := {
  ps_input : list ndarray;
  ps_gt : list ndarray;
  ps_input_metadata : list metadict;
  ps_gt_metadata : option (list metadict)
}.

Module SegmentationPair2D.

Record t := {
  input_filenames : list string;
  gt_filenames : option (list (option string));
  metadata : option (list metadict);
  canonical : bool;
  cache : bool;
  input_handle : list nifti;
  gt_handle : list (option nifti)
}.

Definition with_handles (self : t) (ih : list nifti) (gh : list (option nifti)) : t :=
  {| input_filenames := input_filenames self; gt_filenames := gt_filenames self;
     metadata := metadata self; canonical := canonical self; cache := cache self;
     input_handle := ih; gt_handle := gh |}.

Definition with_metadata (self : t) (md : option (list metadict)) : t :=
  {| input_filenames := input_filenames self; gt_filenames := gt_filenames self;
     metadata := md; canonical := canonical self; cache := cache self;
     input_handle := input_handle self; gt_handle := gt_handle self |}.

(** [len(set(shapes))] *)
Definition distinct (shapes : list (list Z)) : nat :=
  size (list_to_set shapes : gset (list Z)).

(** The loop over the input handles, [input_shape] being the list built
    so far. *)
Fixpoint input_shapes (hs : list nifti) (input_shape : list (list Z))
  : result (list (list Z)) :=
  match hs with
  | [] => Ok input_shape
  | handle :: hs' =>
      let input_shape := input_shape ++ [nii_shape handle] in
      if (distinct input_shape =? 0)%nat then
        Raise (RuntimeError "Inputs have different dimensions.")
      else input_shapes hs' input_shape
  end.

(** The loop over the ground-truth handles. *)
Fixpoint gt_shapes (gs : list (option nifti)) (gt_shape : list (list Z))
  : result (list (list Z)) :=
  match gs with
  | [] => Ok gt_shape
  | Some g :: gs' =>
      let gt_shape := gt_shape ++ [nii_shape g] in
      if (distinct gt_shape =? 0)%nat then
        Raise (RuntimeError "Labels have different dimensions.")
      else gt_shapes gs' gt_shape
  | None :: gs' => gt_shapes gs' gt_shape
  end.

Definition get_pair_shapes (self : t) : result (list Z * option (list Z)) :=
  let? input_shape := input_shapes (input_handle self) [] in
  let? gt_shape := gt_shapes (gt_handle self) [] in
  let? first := index input_shape 0 in
  Ok (first,
      if (length gt_shape =? 0)%nat then None else head gt_shape).

(** [bool(self.metadata)]: neither [None] nor an empty list. *)
Definition metadata_truthy (md : option (list metadict)) : bool :=
  match md with
  | Some (_ :: _) => true
  | _ => false
  end.

(** The first part of [__init__]: the two loops that load the handles. *)
Definition load_handles `{Nibabel} (input_filenames : list string)
    (gt_filenames : option (list (option string)))
  : result (list nifti * list (option nifti)) :=
  let? input_handle :=
    map_each input_filenames (λ input_file,
      let? input_img := nib_load input_file in
      if 3 <? Z.of_nat (length (nii_shape input_img)) then
        Raise (RuntimeError "4-dimensional volumes not supported.")
      else Ok input_img) in
  let? gt_handle :=
    match gt_filenames with
    | Some gts =>
        map_each gts (λ gt,
          match gt with
          | Some f => let? h := nib_load f in Ok (Some h)
          | None => Ok None
          end)
    | None => Ok []
    end in
  Ok (input_handle, gt_handle).

(** "Sanity check for dimensions, should be the same": [get_pair_shapes]
    and the comparison of the two shapes. *)
Definition sanity_check (self : t) : result unit :=
  let? '(input_shape, gt_shape) := get_pair_shapes self in
  match gt_filenames self with
  | Some _ =>
      let? close := np_allclose input_shape gt_shape in
      if close then Ok tt
      else Raise (RuntimeError "Input and ground truth with different dimensions.")
  | None => Ok tt
  end.

(** [if self.canonical: ...]: every input handle, and every ground-truth
    handle that is not [None], is replaced by its reorientation. *)
Definition canonicalize `{Nibabel} (self : t) : t :=
  if canonical self then
    with_handles self
      (as_closest_canonical <$> input_handle self)
      (match gt_filenames self with
       | Some _ => fmap (M := option) as_closest_canonical <$> gt_handle self
       | None => gt_handle self
       end)
  else self.

(** [if self.metadata: ...]: each record gets the file names of its
    channel. *)
Definition attach_filenames (self : t) : t :=
  if metadata_truthy (metadata self) then
    with_metadata self
      (Some ((λ di, <["gt_filenames" := MFiles (gt_filenames self)]>
                      (<["input_filenames" := MStr (snd di)]> (fst di)))
             <$> zip (default [] (metadata self)) (input_filenames self)))
  else self.

Definition __init__ `{Nibabel} (input_filenames : list string)
    (gt_filenames : option (list (option string)))
    (metadata : option (list metadict)) (cache canonical : bool) : result t :=
  let? '(input_handle, gt_handle) := load_handles input_filenames gt_filenames in
  let self :=
    {| input_filenames := input_filenames; gt_filenames := gt_filenames;
       metadata := metadata; canonical := canonical; cache := cache;
       input_handle := input_handle; gt_handle := gt_handle |} in
  let? _checked := sanity_check self in
  let self := canonicalize self in
  let self := attach_filenames self in
  Ok self.

Definition get_pair_data (self : t) : result (list ndarray * list ndarray) :=
  let input_data := get_fdata <$> input_handle self in
  let? gt_data :=
    map_each (gt_handle self) (λ gt,
      match gt with
      | Some g => Ok (get_fdata g)
      | None =>
          let? h0 := index (input_handle self) 0 in
          Ok (np_zeros (nii_shape h0))
      end) in
  Ok (input_data, gt_data).

(** One branch of the [if slice_axis == 2 / elif 1 / elif 0] chain: the
    slices appended for one data object. *)
Definition slice_of (data_object : ndarray) (slice_index slice_axis : Z)
  : result (list ndarray) :=
  if slice_axis =? 2 then
    let? a := take_index data_object (length (nd_shape data_object) - 1) slice_index in
    Ok [a]
  else if slice_axis =? 1 then
    let? a := take_index data_object 1 slice_index in Ok [a]
  else if slice_axis =? 0 then
    let? a := take_index data_object 0 slice_index in Ok [a]
  else Ok [].

(** [self.metadata[0]["gt_filenames"]] *)
Definition first_gt_filenames (self : t) : result metaval :=
  match metadata self with
  | None => Raise TypeError
  | Some md =>
      let? m0 := index md 0 in
      match m0 !! "gt_filenames" with
      | Some v => Ok v
      | None => Raise KeyError
      end
  end.

(** Returns the slice dictionary and the object with its metadata
    records updated ([slice_index] is written into each of them). *)
Definition get_pair_slice (self : t) (slice_index slice_axis : Z)
  : result (pair_slice * t) :=
  let? '(input_dataobj, gt_dataobj) :=
    if cache self then get_pair_data self
    else
      let? gts := map_each (gt_handle self) (λ gt,
        match gt with
        | Some g => Ok (get_fdata g)
        | None => Raise AttributeError
        end) in
      Ok (get_fdata <$> input_handle self, gts) in
  if negb ((slice_axis =? 0) || (slice_axis =? 1) || (slice_axis =? 2)) then
    Raise (RuntimeError "Invalid axis, must be between 0 and 2.")
  else
  let? input_slices :=
    for_each input_dataobj (λ d, slice_of d slice_index slice_axis) in
  let? gt_slices :=
    for_each gt_dataobj (λ d, slice_of d slice_index slice_axis) in
  let? gt_meta_dict :=
    map_each (gt_handle self) (λ gt,
      match gt with
      | Some g =>
          let? files := first_gt_filenames self in
          Ok (<["gt_filenames" := files]>
                (<["data_shape" := MInts (take 2 (nii_shape g))]>
                   (<["zooms" := MFloats (take 2 (nii_zooms g))]> ∅)))
      | None => Ok ∅
      end) in
  let input_meta_dict :=
    (λ handle, <["data_shape" := MInts (take 2 (nii_shape handle))]>
                 (<["zooms" := MFloats (take 2 (nii_zooms handle))]>
                    (∅ : metadict)))
    <$> input_handle self in
  if metadata_truthy (metadata self) then
    let md := (λ m, <["slice_index" := MInt slice_index]> m)
              <$> default [] (metadata self) in
    (* each record's keys are copied over the input metadata of its channel *)
    if (length input_meta_dict <? length md)%nat then Raise IndexError
    else
      let merged :=
        imap (λ idx im,
                match md !! idx with
                | Some m => m ∪ im
                | None => im
                end) input_meta_dict in
      Ok ({| ps_input := input_slices; ps_gt := gt_slices;
             ps_input_metadata := merged;
             ps_gt_metadata := Some gt_meta_dict |},
          with_metadata self (Some md))
  else
    Ok ({| ps_input := input_slices; ps_gt := gt_slices;
           ps_input_metadata := input_meta_dict;
           ps_gt_metadata := Some gt_meta_dict |},
        self).

End SegmentationPair2D.

(** One entry of [filename_pairs]:
    [(input_filenames, gt_filenames, roi_filename, metadata)]. *)
Record group := {
  g_input : list string;
  g_gt : option (list (option string));
  g_roi : option (list (option string));
  g_metadata : option (list metadict)
}.

(** ** DatasetManager *)

(** What [DatasetManager] needs of a dataset: the attribute [transform]. *)
Class HasTransform (D : Type) := {
  get_transform : D → option transform_obj;
  put_transform : option transform_obj → D → D
}.

(** [bool(t)] for a transform or [None]: transform objects define neither
    [__bool__] nor [__len__], so only [None] is false. *)
Definition truthy (t : option transform_obj) : bool :=
  match t with
  | Some _ => true
  | None => false
  end.

Module DatasetManager.

(** The manager holds a reference to the dataset; here the dataset is
    passed alongside. *)
Record t := {
  override_transform : option transform_obj;
  _transform_state : option transform_obj
}.

Definition __init__ (override_transform : option transform_obj) : t :=
  {| override_transform := override_transform; _transform_state := None |}.

Definition __enter__ `{HasTransform D} (self : t) (dataset : D) : t * D :=
  if truthy (override_transform self) then
    ({| override_transform := override_transform self;
        _transform_state := get_transform dataset |},
     put_transform (override_transform self) dataset)
  else (self, dataset).

Definition __exit__ `{HasTransform D} (self : t) (dataset : D) : D :=
  if truthy (_transform_state self) then
    put_transform (_transform_state self) dataset
  else dataset.

(** [with DatasetManager(dataset, override_transform=o) as dset: body]:
    [__exit__] runs whether [body] returns or raises, and does not
    swallow the exception. *)
Definition with_override `{HasTransform D} {A} (dataset : D)
    (o : option transform_obj) (body : D → D * result A) : D * result A :=
  let '(mgr, dset) := __enter__ (__init__ o) dataset in
  let '(dset, r) := body dset in
  (__exit__ mgr dset, r).

End DatasetManager.

(** ** MRI2DSegmentationDataset *)

Module MRI2DSegmentationDataset.

Record t := {
  indexes : list (pair_slice * pair_slice);
  filename_pairs : list group;
  transform : option transform_obj;
  cache : bool;
  slice_axis : Z;
  slice_filter_fn : option (pair_slice → bool);
  canonical : bool;
  n_contrasts : Z
}.

Definition with_indexes (self : t) (ix : list (pair_slice * pair_slice)) : t :=
  {| indexes := ix; filename_pairs := filename_pairs self;
     transform := transform self; cache := cache self;
     slice_axis := slice_axis self; slice_filter_fn := slice_filter_fn self;
     canonical := canonical self; n_contrasts := n_contrasts self |}.

Definition set_transform (self : t) (transform : option transform_obj) : t :=
  {| indexes := indexes self; filename_pairs := filename_pairs self;
     transform := transform; cache := cache self;
     slice_axis := slice_axis self; slice_filter_fn := slice_filter_fn self;
     canonical := canonical self; n_contrasts := n_contrasts self |}.

(** [if self.slice_filter_fn and not filter_fn_ret_seg: continue] *)
Definition skipped (filter : option (pair_slice → bool)) (sl : pair_slice) : bool :=
  match filter with
  | Some fn => negb (fn sl)
  | None => false
  end.

(** The loop over the slice positions of one group.  The two pairs were
    built over the same metadata records, so what one call of
    [get_pair_slice] writes there is seen by the other pair. *)
Fixpoint load_slices (filter : option (pair_slice → bool)) (slice_axis : Z)
    (seg_pair roi_pair : SegmentationPair2D.t) (positions : list Z)
  : result (list (pair_slice * pair_slice)) :=
  match positions with
  | [] => Ok []
  | idx_pair_slice :: rest =>
      let? '(slice_seg_pair, seg_pair) :=
        SegmentationPair2D.get_pair_slice seg_pair idx_pair_slice slice_axis in
      let roi_pair :=
        SegmentationPair2D.with_metadata roi_pair
          (SegmentationPair2D.metadata seg_pair) in
      if skipped filter slice_seg_pair then
        load_slices filter slice_axis seg_pair roi_pair rest
      else
        let? '(slice_roi_pair, roi_pair) :=
          SegmentationPair2D.get_pair_slice roi_pair idx_pair_slice slice_axis in
        let seg_pair :=
          SegmentationPair2D.with_metadata seg_pair
            (SegmentationPair2D.metadata roi_pair) in
        let? items := load_slices filter slice_axis seg_pair roi_pair rest in
        Ok ((slice_seg_pair, slice_roi_pair) :: items)
  end.

(** The body of the loop of [_load_filenames] for one group. *)
Definition load_group `{Nibabel} (cache canonical : bool) (slice_axis : Z)
    (filter : option (pair_slice → bool)) (g : group)
  : result (list (pair_slice * pair_slice)) :=
  let? roi_pair :=
    SegmentationPair2D.__init__ (g_input g) (g_roi g) (g_metadata g)
      cache canonical in
  let? seg_pair :=
    SegmentationPair2D.__init__ (g_input g) (g_gt g) (g_metadata g)
      cache canonical in
  let roi_pair :=
    SegmentationPair2D.with_metadata roi_pair
      (SegmentationPair2D.metadata seg_pair) in
  let? '(input_data_shape, _) := SegmentationPair2D.get_pair_shapes seg_pair in
  let? extent := index input_data_shape slice_axis in
  load_slices filter slice_axis seg_pair roi_pair (Py.range extent).

Definition _load_filenames `{Nibabel} (self : t) : result t :=
  let? items :=
    for_each (filename_pairs self)
      (load_group (cache self) (canonical self) (slice_axis self)
         (slice_filter_fn self)) in
  Ok (with_indexes self (indexes self ++ items)).

Definition __init__ `{Nibabel} (filename_pairs : list group) (slice_axis : Z)
    (cache : bool) (transform : option transform_obj)
    (slice_filter_fn : option (pair_slice → bool)) (canonical : bool)
  : result t :=
  let? g0 := index filename_pairs 0 in
  let self :=
    {| indexes := []; filename_pairs := filename_pairs;
       transform := transform; cache := cache; slice_axis := slice_axis;
       slice_filter_fn := slice_filter_fn; canonical := canonical;
       n_contrasts := Z.of_nat (length (g_input g0)) |} in
  _load_filenames self.

Definition __len__ (self : t) : Z := Z.of_nat (length (indexes self)).

(** The position [self.indexes[index]] reads. *)
Definition position (self : t) (index : Z) : nat :=
  Z.to_nat (if index <? 0 then index + __len__ self else index).

(** Returns the dataset as well: an entry without region-of-interest
    planes has its [gt_metadata] overwritten with [None] in the index. *)
Definition __getitem__ (self : t) (index : Z) : t * result sample :=
  match Py.index (indexes self) index with
  | Raise e => (self, Raise e)
  | Ok (seg_pair_slice, roi_pair_slice) =>
      let converted :=
        let? input_tensors :=
          map_each (ps_input seg_pair_slice) (λ input_slice,
            let? input_img := Transforms.Image_fromarray input_slice ModeF in
            Ok (Img input_img)) in
        let? gt_img :=
          map_each (ps_gt seg_pair_slice) (λ gt_slice,
            let gt_scaled := scale_uint8 gt_slice in
            let? im := Transforms.Image_fromarray gt_scaled ModeL in
            Ok (Img im)) in
        Ok (input_tensors, gt_img) in
      match converted with
      | Raise e => (self, Raise e)
      | Ok (input_tensors, gt_img) =>
          let no_roi := (length (ps_gt roi_pair_slice) =? 0)%nat in
          let roi_pair_slice :=
            if no_roi then
              {| ps_input := ps_input roi_pair_slice;
                 ps_gt := ps_gt roi_pair_slice;
                 ps_input_metadata := ps_input_metadata roi_pair_slice;
                 ps_gt_metadata := None |}
            else roi_pair_slice in
          let self :=
            with_indexes self
              (<[position self index := (seg_pair_slice, roi_pair_slice)]>
                 (indexes self)) in
          (self,
           let? roi_img :=
             map_each (ps_gt roi_pair_slice) (λ roi_slice,
               let roi_scaled := scale_uint8 roi_slice in
               let? im := Transforms.Image_fromarray roi_scaled ModeL in
               Ok (Img im)) in
           let meta_of (m : option (list metadict)) :=
             match m with
             | Some l => MetaMany l
             | None => MetaNone
             end in
           let data_dict :=
             {| input := FMany input_tensors;
                gt := FMany gt_img;
                roi := if no_roi then FNone else FMany roi_img;
                input_metadata := MetaMany (ps_input_metadata seg_pair_slice);
                gt_metadata := meta_of (ps_gt_metadata seg_pair_slice);
                roi_metadata := meta_of (ps_gt_metadata roi_pair_slice) |} in
           match transform self with
           | Some tr => apply_transform tr data_dict
           | None => Ok data_dict
           end)
      end
  end.

#[export] Instance has_transform : HasTransform t :=
  {| get_transform := transform; put_transform v self := set_transform self v |}.

(** [for sample in tqdm(dset)]: the dataset has no [__iter__], so the
    loop calls [__getitem__] at 0, 1, 2, ... and ends at the first
    [IndexError]; [fuel] bounds the number of calls. *)
Fixpoint iterate {S : Type} (fuel : nat) (i : Z) (dset : t) (acc : S)
    (body : sample → S → result S) : t * result S :=
  match fuel with
  | O => (dset, Ok acc)
  | Datatypes.S fuel' =>
      match __getitem__ dset i with
      | (dset, Raise IndexError) => (dset, Ok acc)
      | (dset, Raise e) => (dset, Raise e)
      | (dset, Ok sample) =>
          match body sample acc with
          | Raise e => (dset, Raise e)
          | Ok acc' => iterate fuel' (i + 1) dset acc' body
          end
      end
  end.

(** [sample['input'][i]], as the tensor [sum] and [numel] are called on. *)
Definition input_channel (s : sample) (i : Z) : result ndarray :=
  match input s with
  | FMany l =>
      let? x := index l i in
      match x with
      | Arr a => Ok a
      | Img _ => Raise AttributeError
      end
  | FOne (Arr a) => take_index a 0 i
  | FOne (Img _) => Raise TypeError
  | FNone => Raise TypeError
  end.

(** [acc[i] += f(sample['input'][i]); numel[i] += numel(...)] for every
    channel. *)
Fixpoint accumulate (f : Z → ndarray → Q) (channels : list Z) (s : sample)
    (acc : list Q * list Z) : result (list Q * list Z) :=
  match channels with
  | [] => Ok acc
  | i :: rest =>
      let? input_data := input_channel s i in
      let '(sums, counts) := acc in
      accumulate f rest s
        (alter (λ v, (v + f i input_data)%Q) (Z.to_nat i) sums,
         alter (λ n, n + numel input_data) (Z.to_nat i) counts)
  end.

Definition divide (sums : list Q) (counts : list Z) : list Q :=
  zip_with (λ v n, (v / inject_Z n)%Q) sums counts.

Definition squared_deviation (mean : Q) (a : ndarray) : Q :=
  nd_sum {| nd_shape := nd_shape a;
            nd_at := λ idx, ((nd_at a idx - mean) * (nd_at a idx - mean))%Q |}.

Definition compute_mean_std `{Numpy} (self : t)
  : t * result (list Q * list Q) :=
  let n := Z.to_nat (n_contrasts self) in
  let channels := Py.range (n_contrasts self) in
  let zero := (replicate n 0%Q, replicate n 0) in
  DatasetManager.with_override self (Some (Stage (ToTensor true))) (λ dset,
    let fuel := S (length (indexes dset)) in
    match iterate fuel 0 dset zero
            (accumulate (λ _ a, nd_sum a) channels) with
    | (dset, Raise e) => (dset, Raise e)
    | (dset, Ok (sum_intensities, numel)) =>
        let training_mean := divide sum_intensities numel in
        match iterate fuel 0 dset zero
                (accumulate
                   (λ i a, squared_deviation (default 0%Q (training_mean !! Z.to_nat i)) a)
                   channels) with
        | (dset, Raise e) => (dset, Raise e)
        | (dset, Ok (sum_var, numel)) =>
            let training_std := np_sqrt <$> divide sum_var numel in
            (dset, Ok (training_mean, training_std))
        end
    end).

End MRI2DSegmentationDataset.

(** ** MRI3DSegmentationDataset *)

(** One entry of the index of subvolumes. *)
Record subvolume := {
  x_min : Z; x_max : Z;
  y_min : Z; y_max : Z;
  z_min : Z; z_max : Z;
  handler_index : Z
}.

Module MRI3DSegmentationDataset.

Record t := {
  filename_pairs : list group;
  handlers : list SegmentationPair2D.t;
  indexes : list subvolume;
  transform : option transform_obj;
  cache : bool;
  canonical : bool
}.

Definition _load_filenames `{Nibabel} (self : t) : result t :=
  let? segpairs :=
    map_each (filename_pairs self) (λ g,
      SegmentationPair2D.__init__ (g_input g) (g_gt g) (g_metadata g)
        (cache self) (canonical self)) in
  Ok {| filename_pairs := filename_pairs self;
        handlers := handlers self ++ segpairs;
        indexes := indexes self; transform := transform self;
        cache := cache self; canonical := canonical self |}.

Definition __init__ `{Nibabel} (filename_pairs : list group) (cache : bool)
    (transform : option transform_obj) (canonical : bool) : result t :=
  _load_filenames
    {| filename_pairs := filename_pairs; handlers := []; indexes := [];
       transform := transform; cache := cache; canonical := canonical |}.

Definition __len__ (self : t) : Z := Z.of_nat (length (handlers self)).

(** The dictionary built here has the keys ['input'] and ['gt'] only; the
    other fields of the record stand for keys that are absent. *)
Definition __getitem__ (self : t) (index : Z) : result sample :=
  let? handler := Py.index (handlers self) index in
  let? '(input_img, gt_img) := SegmentationPair2D.get_pair_data handler in
  let data_dict :=
    {| input := FMany (Arr <$> input_img); gt := FMany (Arr <$> gt_img);
       roi := FNone; input_metadata := MetaNone; gt_metadata := MetaNone;
       roi_metadata := MetaNone |} in
  match transform self with
  | Some tr => apply_transform tr data_dict
  | None => Ok data_dict
  end.

End MRI3DSegmentationDataset.

(** ** MRI3DSubVolumeSegmentationDataset *)

Module MRI3DSubVolumeSegmentationDataset.

(** The subclass: the fields of [MRI3DSegmentationDataset] and its own. *)
Record t := {
  base : MRI3DSegmentationDataset.t;
  length : list Z;
  padding : Z
}.

Definition handlers (self : t) := MRI3DSegmentationDataset.handlers (base self).
Definition indexes (self : t) := MRI3DSegmentationDataset.indexes (base self).
Definition transform (self : t) := MRI3DSegmentationDataset.transform (base self).

(** [self.transform.transforms] *)
Definition transforms_of (tr : option transform_obj) : result (list stage) :=
  match tr with
  | Some (Compose ts) => Ok ts
  | Some (Stage _) => Raise AttributeError
  | None => Raise AttributeError
  end.

(** The crop-detection loop: [Some shape_crop] when a stage whose type
    name contains "CenterCrop3D" is found ([crop = True]), else [None]. *)
Fixpoint find_crop (ts : list stage) : result (option (list Z)) :=
  match ts with
  | [] => Ok None
  | transfo :: rest =>
      if contains "CenterCrop3D" (stage_type transfo) then
        match stage_size transfo with
        | Some shape_crop => Ok (Some shape_crop)
        | None => Raise AttributeError
        end
      else find_crop rest
  end.

(** [(shape[k] - 2 * padding) % length[k] != 0 or shape[k] % 16 != 0] *)
Definition axis_violation (shape length : list Z) (padding k : Z) : result bool :=
  let? s := index shape k in
  let? l := index length k in
  if l =? 0 then Raise ZeroDivisionError
  else if negb ((s - 2 * padding) mod l =? 0) then Ok true
  else
    let? s := index shape k in
    Ok (negb (s mod 16 =? 0)).

(** The [or] chain over the axes, left to right. *)
Fixpoint any_violation (shape length : list Z) (padding : Z) (axes : list Z)
  : result bool :=
  match axes with
  | [] => Ok false
  | k :: rest =>
      let? bad := axis_violation shape length padding k in
      if bad then Ok true else any_violation shape length padding rest
  end.

(** The body of the loop over the handlers, once [shape] is known. *)
Definition volume_indexes (shape length : list Z) (padding i : Z)
  : result (list subvolume) :=
  let? bad := any_violation shape length padding [0; 1; 2] in
  if bad then
    Raise (RuntimeError
      "Input shape of each dimension should be a multiple of length plus 2 * padding and a multiple of 16.")
  else
    let? l0 := index length 0 in
    let? s0 := index shape 0 in
    let? xs := range3 (l0 + padding) (s0 - padding + 1) l0 in
    for_each xs (λ x,
      let? l1 := index length 1 in
      let? s1 := index shape 1 in
      let? ys := range3 (l1 + padding) (s1 - padding + 1) l1 in
      for_each ys (λ y,
        let? l2 := index length 2 in
        let? s2 := index shape 2 in
        let? zs := range3 (l2 + padding) (s2 - padding + 1) l2 in
        for_each zs (λ z,
          Ok [ {| x_min := x - l0 - padding; x_max := x + padding;
                  y_min := y - l1 - padding; y_max := y + padding;
                  z_min := z - l2 - padding; z_max := z + padding;
                  handler_index := i |} ]))).

(** The shape the check and the tiling use for one handler. *)
Definition volume_shape (shape_crop : option (list Z))
    (handler : SegmentationPair2D.t) : result (list Z) :=
  match shape_crop with
  | None =>
      let? '(input_img, _) := SegmentationPair2D.get_pair_data handler in
      let? first := index input_img 0 in
      Ok (nd_shape first)
  | Some shape_crop => Ok shape_crop
  end.

(** The entries [_prepare_indexes] appends to [self.indexes]. *)
Definition prepare (handlers : list SegmentationPair2D.t)
    (transform : option transform_obj) (length : list Z) (padding : Z)
  : result (list subvolume) :=
  let? transforms := transforms_of transform in
  let? shape_crop := find_crop transforms in
  for_each (enumerate handlers) (λ ih,
    let? shape := volume_shape shape_crop (snd ih) in
    volume_indexes shape length padding (fst ih)).

Definition _prepare_indexes (self : t) : result t :=
  let? items := prepare (handlers self) (transform self) (length self)
                  (padding self) in
  let b := base self in
  Ok {| base :=
          {| MRI3DSegmentationDataset.filename_pairs :=
               MRI3DSegmentationDataset.filename_pairs b;
             MRI3DSegmentationDataset.handlers :=
               MRI3DSegmentationDataset.handlers b;
             MRI3DSegmentationDataset.indexes :=
               MRI3DSegmentationDataset.indexes b ++ items;
             MRI3DSegmentationDataset.transform :=
               MRI3DSegmentationDataset.transform b;
             MRI3DSegmentationDataset.cache := MRI3DSegmentationDataset.cache b;
             MRI3DSegmentationDataset.canonical :=
               MRI3DSegmentationDataset.canonical b |};
        length := length self; padding := padding self |}.

Definition __init__ `{Nibabel} (filename_pairs : list group) (cache : bool)
    (transform : option transform_obj) (canonical : bool)
    (length : list Z) (padding : Z) : result t :=
  let? b := MRI3DSegmentationDataset.__init__ filename_pairs cache transform
              canonical in
  _prepare_indexes {| base := b; length := length; padding := padding |}.

Definition __len__ (self : t) : Z := Z.of_nat (Datatypes.length (indexes self)).

(** [slice(start, stop).indices(n)]: negative bounds count from the end,
    and both are clamped to [0, n]. *)
Definition slice_bounds (n start stop : Z) : Z * Z :=
  let clamp (v : Z) := if v <? 0 then Z.max 0 (v + n) else Z.min v n in
  (clamp start, clamp stop).

(** [a[x0:x1, y0:y1, z0:z1]] *)
Definition slice3 (a : ndarray) (x0 x1 y0 y1 z0 z1 : Z) : result ndarray :=
  match nd_shape a with
  | n0 :: n1 :: n2 :: rest =>
      let '(sx, ex) := slice_bounds n0 x0 x1 in
      let '(sy, ey) := slice_bounds n1 y0 y1 in
      let '(sz, ez) := slice_bounds n2 z0 z1 in
      Ok {| nd_shape :=
              Z.max 0 (ex - sx) :: Z.max 0 (ey - sy) :: Z.max 0 (ez - sz) :: rest;
            nd_at := λ idx,
              match idx with
              | i :: j :: k :: r => nd_at a (sx + i :: sy + j :: sz + k :: r)
              | _ => 0%Q
              end |}
  | _ => Raise IndexError
  end.

(** The window of a volume that an entry of the index names. *)
Definition crop_to (coord : subvolume) (a : ndarray) : result ndarray :=
  slice3 a (x_min coord) (x_max coord) (y_min coord) (y_max coord)
    (z_min coord) (z_max coord).

Definition with_handlers (self : t) (hs : list SegmentationPair2D.t) : t :=
  let b := base self in
  {| base :=
       {| MRI3DSegmentationDataset.filename_pairs :=
            MRI3DSegmentationDataset.filename_pairs b;
          MRI3DSegmentationDataset.handlers := hs;
          MRI3DSegmentationDataset.indexes := MRI3DSegmentationDataset.indexes b;
          MRI3DSegmentationDataset.transform :=
            MRI3DSegmentationDataset.transform b;
          MRI3DSegmentationDataset.cache := MRI3DSegmentationDataset.cache b;
          MRI3DSegmentationDataset.canonical :=
            MRI3DSegmentationDataset.canonical b |};
     length := length self; padding := padding self |}.

(** The position [l[i]] reads in a list of [n] elements. *)
Definition position (n : nat) (i : Z) : nat :=
  Z.to_nat (if i <? 0 then i + Z.of_nat n else i).

(** [data_dict['input_metadata'][idx]['data_shape'] = data_shape] for
    every [idx] in [range(len(data_dict['input']))]. *)
Definition stamp_data_shape (channels : nat) (data_shape : list Z)
    (metas : list metadict) : result (list metadict) :=
  if (Datatypes.length metas <? channels)%nat then Raise IndexError
  else
    Ok (imap (λ idx m,
                if (idx <? channels)%nat
                then <["data_shape" := MInts data_shape]> m
                else m) metas).

(** The dictionary [__getitem__] builds, before the transform is applied.
    It has no ['roi'] and no ['roi_metadata'] key: those fields of the
    record stand for absent keys.  The call of [get_pair_slice] writes
    [slice_index] into the metadata records of the handler, so the
    dataset is returned as well. *)
Definition data_dict (self : t) (index : Z) : t * result sample :=
  match Py.index (indexes self) index with
  | Raise e => (self, Raise e)
  | Ok coord =>
      match
        (let? handler := Py.index (handlers self) (handler_index coord) in
         let? '(input_img, gt_img) := SegmentationPair2D.get_pair_data handler in
         let? gt0 := Py.index gt_img 0 in
         let data_shape := nd_shape gt0 in
         let? '(seg_pair_slice, handler) :=
           SegmentationPair2D.get_pair_slice handler (handler_index coord) 2 in
         Ok (input_img, gt_img, data_shape, seg_pair_slice, handler))
      with
      | Raise e => (self, Raise e)
      | Ok (input_img, gt_img, data_shape, seg_pair_slice, handler) =>
          (with_handlers self
             (<[position (Datatypes.length (handlers self)) (handler_index coord)
                := handler]> (handlers self)),
           let? inputs := map_each input_img (crop_to coord) in
           let? gts := map_each gt_img (crop_to coord) in
           let? input_metadata :=
             stamp_data_shape (Datatypes.length inputs) data_shape
               (ps_input_metadata seg_pair_slice) in
           Ok {| input := FMany (Arr <$> inputs);
                 gt := FMany (Arr <$> gts);
                 roi := FNone;
                 input_metadata := MetaMany input_metadata;
                 gt_metadata :=
                   match ps_gt_metadata seg_pair_slice with
                   | Some l => MetaMany l
                   | None => MetaNone
                   end;
                 roi_metadata := MetaNone |})
      end
  end.

Definition __getitem__ (self : t) (index : Z) : t * result sample :=
  let '(self', r) := data_dict self index in
  (self',
   let? data_dict := r in
   match transform self with
   | Some tr => apply_transform tr data_dict
   | None => Ok data_dict
   end).

End MRI3DSubVolumeSegmentationDataset.

(** ** BatchSplit *)

Module BatchSplit.

(** A value of a single sample: the component of a batch value, or the
    position the generator adds under ['index']. *)
Inductive cell (V : Type) :=
| Component (v : V)
| Position (i : Z).
Arguments Component {V} v.
Arguments Position {V} i.

(** How the generator body ends: at its last statement,
    [raise StopIteration], or earlier with an exception. *)
Inductive ending :=
| RaisedStopIteration
| Failed (e : error).

Section Iter.
Context {V : Type}.

(** [{k: v[i] for k, v in self.batch.items()}] *)
Definition row (batch : gmap string (list V)) (i : nat)
  : result (gmap string V) :=
  if bool_decide (map_Forall (λ _ v, (i < length v)%nat) batch)
  then Ok (omap (λ v, v !! i) batch)
  else Raise IndexError.

(** The iterations of the loop for the positions [is]: the samples
    yielded, and how the body ends. *)
Fixpoint yields (batch : gmap string (list V)) (positions : list nat)
  : list (gmap string (cell V)) * ending :=
  match positions with
  | [] => ([], RaisedStopIteration)
  | i :: rest =>
      match row batch i with
      | Raise e => ([], Failed e)
      | Ok r =>
          let single_sample :=
            <["index" := Position (Z.of_nat i)]> (Component <$> r) in
          let '(later, e) := yields batch rest in
          (single_sample :: later, e)
      end
  end.

Definition __iter__ (batch : gmap string (list V))
  : list (gmap string (cell V)) * ending :=
  match batch !! "input" with
  | None => ([], Failed KeyError)
  | Some v => yields batch (seq 0 (length v))
  end.

End Iter.

End BatchSplit.

(** ** SCGMChallenge2DTrain and SCGMChallenge2DTest *)

(** [os.path.exists] *)
Class Filesystem := {
  path_exists : string → bool
}.

(** ["{:d}".format(n)] *)
Definition format_d (n : Z) : string :=
  NilZero.string_of_int (Z.to_int n).

(** ["{:02d}".format(n)]: at least two characters, zeros after the
    sign. *)
Definition format_02d (n : Z) : string :=
  if (0 <=? n) && (n <? 10) then String.append "0" (format_d n) else format_d n.

(** [s.endswith("/")] *)
Definition ends_with_sep (s : string) : bool :=
  match String.length s with
  | O => false
  | S n => String.eqb (String.substring n 1 s) "/"
  end.

(** [os.path.join(a, p)] on a POSIX system. *)
Definition path_join (a p : string) : string :=
  if String.prefix "/" p then p
  else if (String.length a =? 0)%nat || ends_with_sep a then String.append a p
  else String.append a (String.append "/" p).

(** [ids or range(lo, hi)]: [None] and the empty list give the range. *)
Definition ids_or (ids : option (list Z)) (lo hi : Z) : list Z :=
  match ids with
  | Some (i :: rest) => i :: rest
  | _ => range_from lo 1 (Z.to_nat (range_len lo hi 1))
  end.

(** [a, b, c, d = entry] *)
Definition unpack4 {A} (entry : list A) : result (A * A * A * A) :=
  match entry with
  | [a; b; c; d] => Ok (a, b, c, d)
  | _ => Raise ValueError
  end.

(** [MRI2DSegmentationDataset.__init__] as the two challenge classes call
    it: on a list of pairs [(input_filename, gt_filename)].  The result
    is the index the constructor builds.  The body of the loop of
    [_load_filenames] comes after the unpacking of an entry into four
    names; what it does with values of these types is left open
    ([loop_body]). *)
Definition init_on_pairs
    (loop_body : option string → option string → option string →
                 option string → result (list (pair_slice * pair_slice)))
    (filename_pairs : list (string * option string))
  : result (list (pair_slice * pair_slice)) :=
  let? first := index filename_pairs 0 in
  let _n_contrasts := Z.of_nat (String.length (fst first)) in
  for_each filename_pairs (λ entry,
    let? '(input_filenames, gt_filenames, roi_filename, metadata) :=
      unpack4 [Some (fst entry); snd entry] in
    loop_body input_filenames gt_filenames roi_filename metadata).

Module SCGMChallenge2DTrain.

Definition NUM_SITES : Z := 4.
Definition NUM_SUBJECTS : Z := 10.
Definition NUM_RATERS : Z := 4.

Definition _build_train_input_filename (site_id subj_id : Z)
    (rater_id : option Z) : string :=
  match rater_id with
  | None =>
      String.append "site" (String.append (format_d site_id)
        (String.append "-sc" (String.append (format_02d subj_id)
           "-image.nii.gz")))
  | Some rater_id =>
      String.append "site" (String.append (format_d site_id)
        (String.append "-sc" (String.append (format_02d subj_id)
           (String.append "-mask-r" (String.append (format_d rater_id)
              ".nii.gz")))))
  end.

(** The list [self.filename_pairs] the constructor builds. *)
Definition filename_pairs (root_dir : string)
    (site_ids subj_ids rater_ids : list Z) (labeled : bool)
  : list (string * option string) :=
  site_id ← site_ids;
  subj_id ← subj_ids;
  if 0 <? Z.of_nat (length rater_ids) then
    rater_id ← rater_ids;
    let input_filename := _build_train_input_filename site_id subj_id None in
    let gt_filename :=
      _build_train_input_filename site_id subj_id (Some rater_id) in
    let input_filename := path_join root_dir input_filename in
    let gt_filename := path_join root_dir gt_filename in
    [(input_filename, if labeled then Some gt_filename else None)]
  else
    let input_filename := _build_train_input_filename site_id subj_id None in
    let input_filename := path_join root_dir input_filename in
    [(input_filename, None)].

Definition __init__
    (loop_body : option string → option string → option string →
                 option string → result (list (pair_slice * pair_slice)))
    (root_dir : string) (site_ids subj_ids rater_ids : option (list Z))
    (labeled : bool) : result (list (pair_slice * pair_slice)) :=
  let site_ids := ids_or site_ids 1 (NUM_SITES + 1) in
  let subj_ids := ids_or subj_ids 1 (NUM_SUBJECTS + 1) in
  let rater_ids := ids_or rater_ids 1 (NUM_RATERS + 1) in
  init_on_pairs loop_body
    (filename_pairs root_dir site_ids subj_ids rater_ids labeled).

End SCGMChallenge2DTrain.

Module SCGMChallenge2DTest.

Definition NUM_SITES : Z := 4.
Definition NUM_SUBJECTS : Z := 10.

(** The method is the one of the training class, word for word. *)
Definition _build_train_input_filename :=
  SCGMChallenge2DTrain._build_train_input_filename.

(** The list [self.filename_pairs]; the loops stop at the first input
    file that does not exist. *)
Definition filename_pairs `{Filesystem} (root_dir : string)
    (site_ids subj_ids : list Z) : result (list (string * option string)) :=
  for_each site_ids (λ site_id,
    for_each subj_ids (λ subj_id,
      let input_filename := _build_train_input_filename site_id subj_id None in
      let input_filename := path_join root_dir input_filename in
      if path_exists input_filename then Ok [(input_filename, None)]
      else
        Raise (RuntimeError
                 (String.append "Path '"
                    (String.append input_filename "' doesn't exist !"))))).

Definition __init__ `{Filesystem}
    (loop_body : option string → option string → option string →
                 option string → result (list (pair_slice * pair_slice)))
    (root_dir : string) (site_ids subj_ids : option (list Z))
  : result (list (pair_slice * pair_slice)) :=
  let site_ids := ids_or site_ids 1 (NUM_SITES + 1) in
  let subj_ids := ids_or subj_ids 11 (10 + NUM_SUBJECTS + 1) in
  let? filename_pairs := filename_pairs root_dir site_ids subj_ids in
  init_on_pairs loop_body filename_pairs.

End SCGMChallenge2DTest.

(* ===================================================================== *)
(** * Vocabulary of the properties *)
(* ===================================================================== *)

Module Sub := MRI3DSubVolumeSegmentationDataset.
Module Pair := SegmentationPair2D.
Module Slices := MRI2DSegmentationDataset.

(** Number of elements of a list that satisfy a boolean test. *)
Definition count_where {A} (f : A → bool) (l : list A) : nat :=
  length (List.filter f l).

(** ** Subvolume tiling *)

(** The shape [_prepare_indexes] checks and tiles for a handler: the crop
    size when a [CenterCrop3D] stage is configured, else the shape of the
    first input volume. *)
Definition effective_shape (transform : option transform_obj)
    (h : SegmentationPair2D.t) : result (list Z) :=
  let? ts := Sub.transforms_of transform in
  let? shape_crop := Sub.find_crop ts in
  Sub.volume_shape shape_crop h.

(** The [k]-th entry of a shape or length tuple, 0 when there is none. *)
Definition entry (l : list Z) (k : nat) : Z := default 0 (l !! k).



(** The product the specification gives. *)
Definition claimed_windows (shape length : list Z) (p : Z) : Z :=
  ((entry shape 0 - 2 * p) / entry length 0)
  * ((entry shape 1 - 2 * p) / entry length 1)
  * ((entry shape 2 - 2 * p) / entry length 2).

(** The bounds of a window have span [l + 2 p] on every axis. *)
Definition has_span (length : list Z) (p : Z) (w : subvolume) : Prop :=
  x_max w - x_min w = entry length 0 + 2 * p
  ∧ y_max w - y_min w = entry length 1 + 2 * p
  ∧ z_max w - z_min w = entry length 2 + 2 * p.







(** The entry the innermost loop appends at position [(x, y, z)]. *)
Definition window (l0 l1 l2 p i x y z : Z) : subvolume :=
  {| x_min := x - l0 - p; x_max := x + p;
     y_min := y - l1 - p; y_max := y + p;
     z_min := z - l2 - p; z_max := z + p;
     handler_index := i |}.

(** The entries of one volume, in loop order. *)
Definition grid (l0 l1 l2 p i : Z) (xs ys zs : list Z) : list subvolume :=
  flat_map (λ x, flat_map (λ y, flat_map (λ z, [window l0 l1 l2 p i x y z]) zs) ys) xs.

(** The positions of the windows along one axis. *)
Definition axis_positions (s l p : Z) : list Z :=
  range_from (l + p) l (Z.to_nat (range_len (l + p) (s - p + 1) l)).

(** What the check establishes for one axis. *)
Definition axis_ok (shape length : list Z) (p : Z) (k : nat) (s l : Z) : Prop :=
  shape !! k = Some s ∧ length !! k = Some l
  ∧ l ≠ 0 ∧ (s - 2 * p) mod l = 0 ∧ s mod 16 = 0.

(** The shape used for a handler, [[]] when it cannot be read. *)
Definition shape_of (transform : option transform_obj)
    (h : SegmentationPair2D.t) : list Z :=
  match effective_shape transform h with
  | Ok shape => shape
  | Raise _ => []
  end.

(** The sum of a list of integers. *)
Definition total (l : list Z) : Z := foldr Z.add 0 l.

(** ** Centre crop *)

(** When the crop applies: the metadata under the sample keys must be
    single records, and the ground truth an image when [labeled]. *)
Definition croppable (labeled : bool) (s : sample) : Prop :=
  (∃ m, input_metadata s = MetaOne m)
  ∧ (labeled = true →
     (∃ g, gt s = FOne (Img g)) ∧ (∃ gm, gt_metadata s = MetaOne gm)).

(** ** Masks after a warp *)





(** ** Channel shift *)


(** ** Volume pairs *)

(** The shapes of the ground-truth handles that are present. *)
Definition present_shapes (gs : list (option nifti)) : list (list Z) :=
  nii_shape <$> omap id gs.

(** The order the specification states: with the canonical flag set, the
    shape-agreement check is the check of the reoriented volumes, so a
    pair is accepted exactly when its reoriented volumes pass the check. *)
Definition reorientation_precedes_shape_check : Prop :=
  ∀ (N : Nibabel) ins gts md cache ih gh,
    Pair.load_handles ins gts = Ok (ih, gh) →
    (returns (Pair.__init__ ins gts md cache true)
     ↔ returns (Pair.sanity_check
                  {| Pair.input_filenames := ins; Pair.gt_filenames := gts;
                     Pair.metadata := md; Pair.canonical := true;
                     Pair.cache := cache;
                     Pair.input_handle := as_closest_canonical <$> ih;
                     Pair.gt_handle :=
                       fmap (M := option) as_closest_canonical <$> gh |})).

(** ** Slice index *)

(** The pair [_load_filenames] builds against the ground truth of a
    group. *)
Definition seg_pair_of `{Nibabel} (cache canonical : bool) (g : group)
  : result SegmentationPair2D.t :=
  Pair.__init__ (g_input g) (g_gt g) (g_metadata g) cache canonical.

(** The number of slice positions of a group along the slicing axis: the
    entry of the shape [get_pair_shapes] returns (0 when there is none). *)
Definition group_extent `{Nibabel} (cache canonical : bool) (slice_axis : Z)
    (g : group) : Z :=
  match seg_pair_of cache canonical g with
  | Ok seg_pair =>
      match Pair.get_pair_shapes seg_pair with
      | Ok (shape, _) =>
          match index shape slice_axis with
          | Ok n => Z.max 0 n
          | Raise _ => 0
          end
      | Raise _ => 0
      end
  | Raise _ => 0
  end.

(** The predicate rejects the slice of the pair at a position. *)
Definition rejected (filter : option (pair_slice → bool)) (slice_axis : Z)
    (seg_pair : SegmentationPair2D.t) (position : Z) : bool :=
  match Pair.get_pair_slice seg_pair position slice_axis with
  | Ok (slice_seg_pair, _) => Slices.skipped filter slice_seg_pair
  | Raise _ => false
  end.

(** The number of slice positions of a group whose slice the predicate
    rejects. *)
Definition group_excluded `{Nibabel} (cache canonical : bool) (slice_axis : Z)
    (filter : option (pair_slice → bool)) (g : group) : Z :=
  match seg_pair_of cache canonical g with
  | Ok seg_pair =>
      Z.of_nat (count_where (rejected filter slice_axis seg_pair)
                  (Py.range (group_extent cache canonical slice_axis g)))
  | Raise _ => 0
  end.

(** The metadata records with the [slice_index] stamps removed. *)
Definition unstamp (md : option (list metadict)) : option (list metadict) :=
  fmap (M := option) (fmap (M := list) (delete "slice_index"%string)) md.

(** ** Concrete volumes and a concrete loader *)

Module Fixtures.

(** A volume of the given shape stored along the given axes; the voxel at
    [idx] holds the sum of its coordinates. *)
Definition volume (shape : list Z) (axes : list nat) : nifti :=
  {| nii_shape := shape;
     nii_zooms := (λ _, 1%Q) <$> shape;
     nii_data := λ idx, inject_Z (foldr Z.add 0 idx);
     nii_axes := axes |}.

(** The array axis that runs along world axis [k]. *)
Definition axis_along (axes : list nat) (k : nat) : nat :=
  default 0%nat (fst <$> list_find (λ a, a = k) axes).

(** Reorientation to the canonical axis order: array axis [k] of the
    result is the array axis of the source that runs along world axis
    [k]. *)
Definition reorient (h : nifti) : nifti :=
  let n := length (nii_shape h) in
  {| nii_shape := (λ k, entry (nii_shape h) (axis_along (nii_axes h) k)) <$> seq 0 n;
     nii_zooms := (λ k, default 1%Q (nii_zooms h !! axis_along (nii_axes h) k))
                  <$> seq 0 n;
     nii_data := λ idx, nii_data h ((λ a, entry idx a) <$> nii_axes h);
     nii_axes := seq 0 n |}.

Definition files : list (string * nifti) :=
  [ ("vol96.nii", volume [96; 96; 96] [0; 1; 2]%nat);
    ("t1.nii", volume [64; 64; 20] [0; 1; 2]%nat);
    ("t2.nii", volume [64; 64; 20] [0; 1; 2]%nat);
    ("gt.nii", volume [64; 64; 20] [0; 1; 2]%nat);
    ("small.nii", volume [32; 32; 10] [0; 1; 2]%nat);
    ("wide.nii", volume [64; 32; 20] [0; 1; 2]%nat);
    ("wide_gt.nii", volume [64; 32; 20] [1; 0; 2]%nat);
    ("tall_gt.nii", volume [32; 64; 20] [1; 0; 2]%nat) ]%string.

Fixpoint find_file (name : string) (fs : list (string * nifti)) : result nifti :=
  match fs with
  | [] => Raise OSError
  | (n, v) :: fs' => if String.eqb n name then Ok v else find_file name fs'
  end.

#[export] Instance disk : Nibabel :=
  {| nib_load name := find_file name files; as_closest_canonical := reorient |}.

(** The pair built from the single volume [vol96.nii], without ground
    truth. *)
Definition pair96 : SegmentationPair2D.t :=
  {| SegmentationPair2D.input_filenames := ["vol96.nii"%string];
     SegmentationPair2D.gt_filenames := None;
     SegmentationPair2D.metadata := None;
     SegmentationPair2D.canonical := false;
     SegmentationPair2D.cache := true;
     SegmentationPair2D.input_handle := [volume [96; 96; 96] [0; 1; 2]%nat];
     SegmentationPair2D.gt_handle := [] |}.

(** A [w x h] float image whose pixel at [(x, y)] holds [x + 10 y]. *)
Definition ramp (w h : Z) : image :=
  {| im_mode := ModeF; im_size := (w, h);
     im_px := λ x y, inject_Z (x + 10 * y) |}.


(** The pixels of an image, row by row. *)
Definition rows (im : image) : list (list Q) :=
  (λ y, (λ x, im_px im x y) <$> Py.range (width im)) <$> Py.range (height im).

Definition unlabeled (im : image) : sample :=
  {| input := FOne (Img im); gt := FNone; roi := FNone;
     input_metadata := MetaOne ∅; gt_metadata := MetaNone;
     roi_metadata := MetaNone |}.

Definition channels (ins gts : list image) : sample :=
  {| input := FMany (Img <$> ins); gt := FMany (Img <$> gts); roi := FNone;
     input_metadata := MetaMany ((λ _, ∅) <$> ins);
     gt_metadata := MetaMany ((λ _, ∅) <$> gts);
     roi_metadata := MetaNone |}.


(** Two input channels and their ground truths, all of shape (64,64,20). *)
Definition two_channels : group :=
  {| g_input := ["t1.nii"; "t2.nii"]%string;
     g_gt := Some [Some "gt.nii"; Some "gt.nii"]%string;
     g_roi := None;
     g_metadata := Some [∅; ∅] |}.

(** Keeps the slices at even positions. *)
Definition even_slices (sl : pair_slice) : bool :=
  match ps_input_metadata sl with
  | m :: _ =>
      match m !! "slice_index"%string with
      | Some (MInt k) => Z.even k
      | _ => false
      end
  | [] => false
  end.

Definition group96 : group :=
  {| g_input := ["vol96.nii"%string]; g_gt := None; g_roi := None;
     g_metadata := None |}.

End Fixtures.

(** The sizes of the planes of a list input, when they are all images. *)
Fixpoint image_sizes (l : list item) : option (list (Z * Z)) :=
  match l with
  | [] => Some []
  | Img im :: l' =>
      match image_sizes l' with
      | Some sizes => Some (im_size im :: sizes)
      | None => None
      end
  | Arr _ :: _ => None
  end.

Definition plane_sizes (s : sample) : option (list (Z * Z)) :=
  match input s with
  | FMany l => image_sizes l
  | _ => None
  end.

(** The example of the specification: the dataset over the two-channel
    group, sliced along axis 2 without predicate or transform; its length
    and the plane sizes of item 10. *)
Definition two_channel_example : result (Z * option (list (Z * Z))) :=
  let? ds := Slices.__init__ (H := Fixtures.disk) [Fixtures.two_channels] 2 true
               None None false in
  let? smp := snd (Slices.__getitem__ ds 10) in
  Ok (Slices.__len__ ds, plane_sizes smp).

(** ** Items of the 2D dataset *)

(** The dictionary [__getitem__] builds from an entry of the index,
    before the transform is applied. *)
Definition entry_dict (e : pair_slice * pair_slice) : result sample :=
  let '(seg_pair_slice, roi_pair_slice) := e in
  let? input_tensors :=
    map_each (ps_input seg_pair_slice) (λ input_slice,
      let? input_img := Transforms.Image_fromarray input_slice ModeF in Ok (Img input_img)) in
  let? gt_img :=
    map_each (ps_gt seg_pair_slice) (λ gt_slice,
      let? im := Transforms.Image_fromarray (scale_uint8 gt_slice) ModeL in Ok (Img im)) in
  let? roi_img :=
    map_each (ps_gt roi_pair_slice) (λ roi_slice,
      let? im := Transforms.Image_fromarray (scale_uint8 roi_slice) ModeL in Ok (Img im)) in
  let no_roi := (length (ps_gt roi_pair_slice) =? 0)%nat in
  Ok {| input := FMany input_tensors;
        gt := FMany gt_img;
        roi := if no_roi then FNone else FMany roi_img;
        input_metadata := MetaMany (ps_input_metadata seg_pair_slice);
        gt_metadata :=
          match ps_gt_metadata seg_pair_slice with
          | Some l => MetaMany l
          | None => MetaNone
          end;
        roi_metadata :=
          if no_roi then MetaNone
          else match ps_gt_metadata roi_pair_slice with
               | Some l => MetaMany l
               | None => MetaNone
               end |}.

(** The entry as [__getitem__] leaves it in the index: without
    region-of-interest planes its [gt_metadata] is [None]. *)
Definition settled (e : pair_slice * pair_slice) : pair_slice * pair_slice :=
  let '(seg_pair_slice, roi_pair_slice) := e in
  (seg_pair_slice,
   if (length (ps_gt roi_pair_slice) =? 0)%nat then
     {| ps_input := ps_input roi_pair_slice;
        ps_gt := ps_gt roi_pair_slice;
        ps_input_metadata := ps_input_metadata roi_pair_slice;
        ps_gt_metadata := None |}
   else roi_pair_slice).

(** The sample of an entry under a transform. *)
Definition entry_sample (tr : option transform_obj) (e : pair_slice * pair_slice)
  : result sample :=
  let? data_dict := entry_dict e in
  match tr with
  | Some tr => apply_transform tr data_dict
  | None => Ok data_dict
  end.

(** Two states of a dataset that yield the same items. *)
Definition same_items (ds ds' : Slices.t) : Prop :=
  Slices.transform ds = Slices.transform ds'
  ∧ settled <$> Slices.indexes ds = settled <$> Slices.indexes ds'.

(** ** Means and deviations *)

(** [for sample in samples: acc = body(sample, acc)] *)
Fixpoint fold_samples {S : Type} (body : sample → S → result S)
    (smps : list sample) (acc : S) : result S :=
  match smps with
  | [] => Ok acc
  | smp :: rest => let? acc' := body smp acc in fold_samples body rest acc'
  end.

(** Channel [c] of the tensors of an item. *)
Definition channel (c : nat) (row : list ndarray) : ndarray :=
  default (np_zeros []) (row !! c).

(** The sum over the items of [f] of channel [c]. *)
Definition sum_over (f : ndarray → Q) (c : nat) (rows : list (list ndarray)) : Q :=
  fold_left (λ acc row, (acc + f (channel c row))%Q) rows 0%Q.

(** The number of elements of channel [c] over the items. *)
Definition count_over (c : nat) (rows : list (list ndarray)) : Z :=
  fold_left (λ acc row, acc + numel (channel c row)) rows 0.

(** ** Tensors and images *)

(** The image [ToPIL] makes of the tensor [ToTensor] made of an image. *)
Definition restored (im : image) : image :=
  {| im_mode := ModeF; im_size := (width im, height im);
     im_px := λ x y,
       match im_mode im with
       | ModeF => im_px im x y
       | ModeL => (im_px im x y / 255)%Q
       end |}.

(** Same mode, same size, same pixels. *)
Definition same_image (a b : image) : Prop :=
  im_mode a = im_mode b ∧ im_size a = im_size b
  ∧ ∀ x y, im_px a x y = im_px b x y.

(** ** Entries of the slice index *)

(** The slice dictionary of a pair at a position. *)
Definition slice_at (p : Pair.t) (axis idx : Z) : result pair_slice :=
  let? '(sl, _) := Pair.get_pair_slice p idx axis in Ok sl.

(** The pair [_load_filenames] builds against the region of interest of a
    group. *)
Definition roi_pair_of `{Nibabel} (cache canonical : bool) (g : group)
  : result SegmentationPair2D.t :=
  Pair.__init__ (g_input g) (g_roi g) (g_metadata g) cache canonical.

(** The slice positions of a group that the predicate keeps. *)
Definition kept_positions `{Nibabel} (cache canonical : bool) (axis : Z)
    (filter : option (pair_slice → bool)) (seg : Pair.t) (g : group) : list Z :=
  List.filter (λ idx, negb (rejected filter axis seg idx))
    (Py.range (group_extent cache canonical axis g)).

(** ** Reversed axes *)

(** The position read along an axis of extent [n]: mirrored when the draw
    for the axis is 1. *)
Definition mirrored (draw n v : Z) : Z := if draw =? 1 then n - 1 - v else v.

(** ** More concrete data *)

Module Samples.

(** A volume in canonical orientation that holds 1 where the sum of the
    coordinates is odd, and 0 elsewhere. *)
Definition mask (shape : list Z) : nifti :=
  {| nii_shape := shape;
     nii_zooms := (λ _, 1%Q) <$> shape;
     nii_data := λ idx, if Z.odd (foldr Z.add 0 idx) then 1%Q else 0%Q;
     nii_axes := seq 0 (length shape) |}.

Definition files : list (string * nifti) :=
  [ ("bold.nii", Fixtures.volume [4; 4; 3; 2] [0; 1; 2; 3]%nat);
    ("cube.nii", Fixtures.volume [16; 16; 16] [0; 1; 2]%nat);
    ("cube_mask.nii", mask [16; 16; 16]);
    ("tiny.nii", Fixtures.volume [2; 2; 2] [0; 1; 2]%nat);
    ("tiny_mask.nii", mask [2; 2; 2]) ]%string.

Definition disk : Nibabel :=
  {| nib_load name := Fixtures.find_file name files;
     as_closest_canonical := Fixtures.reorient |}.

(** A volume of shape (2,2,2) with its mask. *)
Definition tiny : group :=
  {| g_input := ["tiny.nii"]%string;
     g_gt := Some [Some "tiny_mask.nii"]%string;
     g_roi := None;
     g_metadata := Some [∅] |}.

(** A volume of shape (16,16,16) with its mask. *)
Definition cube : group :=
  {| g_input := ["cube.nii"]%string;
     g_gt := Some [Some "cube_mask.nii"]%string;
     g_roi := None;
     g_metadata := Some [∅] |}.

(** The same volume without ground truth. *)
Definition bare_cube : group :=
  {| g_input := ["cube.nii"]%string; g_gt := None; g_roi := None;
     g_metadata := None |}.

(** The same volume with a ground truth and no metadata. *)
Definition undocumented_cube : group :=
  {| g_input := ["cube.nii"]%string;
     g_gt := Some [Some "cube_mask.nii"]%string;
     g_roi := None;
     g_metadata := None |}.

(** A pair over the small volume with two ground-truth entries, the
    second of them [None]. *)
Definition half_labelled (cache : bool) : SegmentationPair2D.t :=
  {| SegmentationPair2D.input_filenames := ["tiny.nii"]%string;
     SegmentationPair2D.gt_filenames := Some [Some "tiny_mask.nii"; None]%string;
     SegmentationPair2D.metadata := None;
     SegmentationPair2D.canonical := false;
     SegmentationPair2D.cache := cache;
     SegmentationPair2D.input_handle := [Fixtures.volume [2; 2; 2] [0; 1; 2]%nat];
     SegmentationPair2D.gt_handle := [Some (mask [2; 2; 2]); None] |}.

(** An array of shape (2,3,4) whose element at [(i, j, k)] holds the
    digits [i j k]. *)
Definition block : ndarray :=
  {| nd_shape := [2; 3; 4];
     nd_at := λ idx, inject_Z (foldl (λ acc i, 10 * acc + i) 0 idx) |}.

(** A plane of shape (2,2) that holds [offset] plus the digits [y x] at
    [(y, x)]. *)
Definition plane (offset : Z) : ndarray :=
  {| nd_shape := [2; 2];
     nd_at := λ idx, inject_Z (offset + foldl (λ acc i, 10 * acc + i) 0 idx) |}.

(** A binary plane of shape (2,2): 1 where [y + x] is odd. *)
Definition checker : ndarray :=
  {| nd_shape := [2; 2];
     nd_at := λ idx, if Z.odd (foldr Z.add 0 idx) then 1%Q else 0%Q |}.

(** An entry of a slice index: one input plane, its mask, no region of
    interest. *)
Definition picture (offset : Z) : pair_slice * pair_slice :=
  ({| ps_input := [plane offset]; ps_gt := [checker];
      ps_input_metadata := [∅]; ps_gt_metadata := Some [∅] |},
   {| ps_input := [plane offset]; ps_gt := [];
      ps_input_metadata := [∅]; ps_gt_metadata := Some [] |}).

(** A 2D dataset of two such entries. *)
Definition pictures (transform : option transform_obj)
  : MRI2DSegmentationDataset.t :=
  {| MRI2DSegmentationDataset.indexes := [picture 0; picture 10];
     MRI2DSegmentationDataset.filename_pairs := [];
     MRI2DSegmentationDataset.transform := transform;
     MRI2DSegmentationDataset.cache := true;
     MRI2DSegmentationDataset.slice_axis := 2;
     MRI2DSegmentationDataset.slice_filter_fn := None;
     MRI2DSegmentationDataset.canonical := false;
     MRI2DSegmentationDataset.n_contrasts := 1 |}.

(** The tensor [ToTensor] makes of a plane that [__getitem__] has turned
    into a float image. *)
Definition tensor_of (a : ndarray) : ndarray :=
  match Transforms.Image_fromarray a ModeF with
  | Ok im =>
      match Transforms.F_to_tensor (Img im) with
      | Ok (Arr t) => t
      | _ => a
      end
  | Raise _ => a
  end.

(** The integer part of the square root of the integer part: a stand-in
    for [np.sqrt]. *)
Definition numpy : Numpy :=
  {| np_sqrt q := inject_Z (Z.sqrt (Qfloor q)) |}.

Fixpoint insert_sorted (v : Q) (l : list Q) : list Q :=
  match l with
  | [] => [v]
  | x :: rest => if Qle_bool v x then v :: x :: rest else x :: insert_sorted v rest
  end.

(** The values of an array in increasing order. *)
Definition sorted_values (a : ndarray) : list Q :=
  foldr insert_sorted [] (nd_at a <$> indices (nd_shape a)).

(** A percentile by the lower neighbour: the value at position
    [floor (q / 100 * (n - 1))] of the sorted values. *)
Definition lower_percentile : Transforms.Percentile :=
  {| Transforms.np_percentile a q :=
       let values := sorted_values a in
       let position := Qfloor (q / 100 * inject_Z (Z.of_nat (length values) - 1)) in
       nth (Z.to_nat position) values 0%Q |}.

(** Lists of arrays of different shapes are refused. *)
Definition refuse : Transforms.Stacking :=
  {| Transforms.asarray_ragged _ := Raise ValueError |}.

(** A file system on which every path exists. *)
Definition every_path : Filesystem :=
  {| path_exists _ := true |}.

End Samples.


(* ===================================================================== *)
(** * Properties *)
(* ===================================================================== *)

(** ** Exceptions and loops *)

Lemma bind_ok {A B} (r : result A) (k : A → result B) b :
  Py.bind r k = Ok b → ∃ a, r = Ok a ∧ k a = Ok b.
Proof. destruct r as [a|e]; simpl; [eauto | discriminate]. Qed.

Lemma raises_bind_l {A B} (r : result A) (k : A → result B) :
  raises r → raises (Py.bind r k).
Proof. destruct r; simpl; tauto. Qed.

Section PyFacts.
Context {A B : Type}.

Lemma for_each_ok (l : list A) (f : A → result (list B)) ys :
  for_each l f = Ok ys →
  ∃ yss, Forall2 (λ x y, f x = Ok y) l yss ∧ ys = concat yss.
Proof.
  revert ys. induction l as [|x l IH]; simpl; intros ys Hys.
  - inversion Hys. exists []. split; [constructor | reflexivity].
  - apply bind_ok in Hys as (y & Hy & Hys).
    apply bind_ok in Hys as (rest & Hrest & Hys).
    inversion Hys; subst. destruct (IH _ Hrest) as (yss & HF & ->).
    exists (y :: yss). split; [by constructor | reflexivity].
Qed.

Lemma for_each_raises_at (l : list A) (f : A → result (list B)) i x :
  l !! i = Some x → raises (f x) → raises (for_each l f).
Proof.
  revert i. induction l as [|x' l IH]; intros [|i] Hi Hx; simpl in *; try done.
  - inversion Hi; subst. by apply raises_bind_l.
  - destruct (f x') as [y|e]; simpl; [|done].
    specialize (IH _ Hi Hx). destruct (for_each l f); simpl in *; done.
Qed.

Lemma map_each_ok (l : list A) (f : A → result B) ys :
  map_each l f = Ok ys → Forall2 (λ x y, f x = Ok y) l ys.
Proof.
  revert ys. induction l as [|x l IH]; simpl; intros ys Hys.
  - inversion Hys. constructor.
  - apply bind_ok in Hys as (y & Hy & Hys).
    apply bind_ok in Hys as (rest & Hrest & Hys).
    inversion Hys; subst. constructor; auto.
Qed.

Lemma index_lookup (l : list A) (k : nat) x :
  l !! k = Some x → index l (Z.of_nat k) = Ok x.
Proof.
  intros Hk. pose proof (lookup_lt_Some _ _ _ Hk) as Hlt. unfold index.
  destruct (Z.ltb_spec (Z.of_nat k) 0); [lia|].
  destruct (Z.leb_spec 0 (Z.of_nat k)); [|lia].
  destruct (Z.ltb_spec (Z.of_nat k) (Z.of_nat (length l))); [|lia].
  simpl. by rewrite Nat2Z.id, Hk.
Qed.

Lemma index_ok_nonneg (l : list A) (k : Z) x :
  0 ≤ k → index l k = Ok x → l !! Z.to_nat k = Some x.
Proof.
  intros Hk. unfold index. destruct (Z.ltb_spec k 0); [lia|].
  destruct (_ && _); [|discriminate].
  destruct (l !! Z.to_nat k); [|discriminate]. congruence.
Qed.

End PyFacts.

(** Rewrites [index l k] for a literal position [k] from a lookup fact. *)
Ltac index_at H :=
  let E := fresh "E" in
  pose proof (index_lookup _ _ _ H) as E; change (Z.of_nat 0) with 0 in E;
  change (Z.of_nat 1) with 1 in E; change (Z.of_nat 2) with 2 in E;
  rewrite E; clear E.

Ltac index_at_in H Hin :=
  let E := fresh "E" in
  pose proof (index_lookup _ _ _ H) as E; change (Z.of_nat 0) with 0 in E;
  change (Z.of_nat 1) with 1 in E; change (Z.of_nat 2) with 2 in E;
  rewrite E in Hin; clear E.

Lemma length_range_from a s n : length (range_from a s n) = n.
Proof. revert a. induction n; simpl; intros; [done | by rewrite IHn]. Qed.

Lemma length_range n : Z.of_nat (length (Py.range n)) = Z.max 0 n.
Proof. unfold Py.range. rewrite length_range_from. lia. Qed.

(** ** Subvolume index *)

Lemma for_each_pure {A B} (l : list A) (f : A → result (list B)) (g : A → list B) :
  (∀ x, x ∈ l → f x = Ok (g x)) → for_each l f = Ok (flat_map g l).
Proof.
  induction l as [|x l IH]; simpl; intros Hf; [done|].
  rewrite Hf by left. simpl. rewrite IH; [done|].
  intros y Hy. apply Hf. by right.
Qed.






Lemma axis_violation_false shape length p (k : nat) :
  Sub.axis_violation shape length p (Z.of_nat k) = Ok false →
  ∃ s l, axis_ok shape length p k s l.
Proof.
  unfold Sub.axis_violation. intros Hv.
  apply bind_ok in Hv as (s & Hs & Hv). apply bind_ok in Hv as (l & Hl & Hv).
  apply index_ok_nonneg in Hs; [|lia]. apply index_ok_nonneg in Hl; [|lia].
  rewrite Nat2Z.id in Hs, Hl.
  destruct (Z.eqb_spec l 0); [discriminate|].
  destruct (Z.eqb_spec ((s - 2 * p) mod l) 0); simpl in Hv; [|discriminate].
  rewrite (index_lookup _ _ _ Hs) in Hv. simpl in Hv.
  destruct (Z.eqb_spec (s mod 16) 0); simpl in Hv; [|discriminate].
  exists s, l. by repeat split.
Qed.

Lemma any_violation_false shape length p :
  Sub.any_violation shape length p [0; 1; 2] = Ok false →
  ∃ s0 l0 s1 l1 s2 l2,
    axis_ok shape length p 0 s0 l0 ∧ axis_ok shape length p 1 s1 l1
    ∧ axis_ok shape length p 2 s2 l2.
Proof.
  cbn [Sub.any_violation]. intros Hv.
  apply bind_ok in Hv as ([|] & H0 & Hv); [discriminate|].
  apply bind_ok in Hv as ([|] & H1 & Hv); [discriminate|].
  apply bind_ok in Hv as ([|] & H2 & Hv); [discriminate|].
  apply (axis_violation_false _ _ _ 0) in H0 as (s0 & l0 & H0).
  apply (axis_violation_false _ _ _ 1) in H1 as (s1 & l1 & H1).
  apply (axis_violation_false _ _ _ 2) in H2 as (s2 & l2 & H2).
  by exists s0, l0, s1, l1, s2, l2.
Qed.

(** A successful pass over one volume: the invariant holds on the three
    axes and the entries are the grid of windows, in loop order. *)
Lemma volume_indexes_grid shape length p i ws :
  Sub.volume_indexes shape length p i = Ok ws →
  ∃ s0 l0 s1 l1 s2 l2,
    axis_ok shape length p 0 s0 l0 ∧ axis_ok shape length p 1 s1 l1
    ∧ axis_ok shape length p 2 s2 l2
    ∧ ws = grid l0 l1 l2 p i (axis_positions s0 l0 p) (axis_positions s1 l1 p)
             (axis_positions s2 l2 p).
Proof.
  unfold Sub.volume_indexes. intros Hws.
  apply bind_ok in Hws as ([|] & Hv & Hws); [discriminate|].
  destruct (any_violation_false _ _ _ Hv)
    as (s0 & l0 & s1 & l1 & s2 & l2 & H0 & H1 & H2).
  exists s0, l0, s1, l1, s2, l2.
  split; [exact H0|]. split; [exact H1|]. split; [exact H2|].
  destruct H0 as (Hs0 & Hl0 & Hn0 & _), H1 as (Hs1 & Hl1 & Hn1 & _),
    H2 as (Hs2 & Hl2 & Hn2 & _).
  index_at_in Hl0 Hws. index_at_in Hs0 Hws.
  cbn [Py.bind] in Hws. unfold range3 in Hws.
  destruct (Z.eqb_spec l0 0); [done|]. cbn [Py.bind] in Hws.
  rewrite (for_each_pure _ _
             (λ x, flat_map (λ y, flat_map (λ z, [window l0 l1 l2 p i x y z])
                                    (axis_positions s2 l2 p))
                     (axis_positions s1 l1 p))) in Hws.
  { inversion Hws. reflexivity. }
  intros x _. cbn beta.
  index_at Hl1. index_at Hs1. cbn [Py.bind].
  destruct (Z.eqb_spec l1 0); [done|]. cbn [Py.bind].
  apply for_each_pure. intros y _. cbn beta.
  index_at Hl2. index_at Hs2. cbn [Py.bind].
  destruct (Z.eqb_spec l2 0); [done|]. cbn [Py.bind].
  apply for_each_pure. intros z _. reflexivity.
Qed.






Lemma lookup_enumerate {A} (l : list A) i :
  enumerate l !! i = (λ x, (Z.of_nat i, x)) <$> l !! i.
Proof. exact (list_lookup_imap (λ i x, (Z.of_nat i, x)) l i). Qed.


Lemma count_where_none {A} (f : A → bool) (l : list A) :
  Forall (λ x, f x = false) l → count_where f l = 0%nat.
Proof.
  unfold count_where. induction 1 as [|x l Hx _ IH]; simpl; [done|].
  by rewrite Hx.
Qed.



(** A successful [prepare]: every handler has a shape, its pass succeeded,
    and the index is the concatenation of the passes. *)
Lemma prepare_ok handlers transform length p idx :
  Sub.prepare handlers transform length p = Ok idx →
  ∃ wss,
    idx = concat wss
    ∧ Datatypes.length wss = Datatypes.length handlers
    ∧ ∀ i h, handlers !! i = Some h →
        ∃ shape ws, effective_shape transform h = Ok shape
                    ∧ wss !! i = Some ws
                    ∧ Sub.volume_indexes shape length p (Z.of_nat i) = Ok ws.
Proof.
  unfold Sub.prepare. intros Hp.
  apply bind_ok in Hp as (ts & Hts & Hp). apply bind_ok in Hp as (sc & Hsc & Hp).
  apply for_each_ok in Hp as (wss & HF & ->).
  exists wss. split; [done|]. split.
  { apply Forall2_length in HF. rewrite <- HF. unfold enumerate.
    by rewrite length_imap. }
  intros i h Hi.
  assert (enumerate handlers !! i = Some (Z.of_nat i, h)) as He
      by (by rewrite lookup_enumerate, Hi).
  destruct (Forall2_lookup_l _ _ _ _ _ HF He) as (ws & Hws & Hv).
  simpl in Hv. apply bind_ok in Hv as (shape & Hshape & Hv).
  exists shape, ws. split; [|done].
  unfold effective_shape. rewrite Hts. cbn [Py.bind]. rewrite Hsc. exact Hshape.
Qed.


(** A dataset that was built holds the index [prepare] computes from its
    handlers. *)
Lemma sub_init_prepare `{Nibabel} fp cache transform canonical length p ds :
  Sub.__init__ fp cache transform canonical length p = Ok ds →
  Sub.prepare (Sub.handlers ds) transform length p = Ok (Sub.indexes ds).
Proof.
  unfold Sub.__init__. intros Hds. apply bind_ok in Hds as (b & Hb & Hds).
  unfold Sub._prepare_indexes in Hds.
  apply bind_ok in Hds as (items & Hitems & [= <-]).
  unfold MRI3DSegmentationDataset.__init__,
    MRI3DSegmentationDataset._load_filenames in Hb.
  apply bind_ok in Hb as (ps & _ & [= <-]).
  exact Hitems.
Qed.




(** With padding larger than half the extent the check still passes, no
    window is produced, and the product of the quotients is not the count. *)
Example oversized_padding :
  Sub.volume_indexes [16; 16; 16] [32; 32; 32] 24 0 = Ok []
  ∧ claimed_windows [16; 16; 16] [32; 32; 32] 24 = -1.
Proof. split; vm_compute; reflexivity. Qed.

(** ** The divisibility invariant *)

Lemma any_violation_detects shape length p (k : nat) s l :
  (k < 3)%nat → shape !! k = Some s → length !! k = Some l →
  (s - 2 * p) mod l ≠ 0 ∨ s mod 16 ≠ 0 →
  Sub.any_violation shape length p [0; 1; 2] ≠ Ok false.
Proof.
  intros Hk Hs Hl Hbad Hv.
  destruct (any_violation_false _ _ _ Hv)
    as (s0 & l0 & s1 & l1 & s2 & l2 & H0 & H1 & H2).
  destruct H0 as (Hs0 & Hl0 & _ & Hm0 & Hx0), H1 as (Hs1 & Hl1 & _ & Hm1 & Hx1),
    H2 as (Hs2 & Hl2 & _ & Hm2 & Hx2).
  destruct k as [|[|[|k]]]; [| | |lia]; simplify_eq; tauto.
Qed.

Lemma volume_indexes_raises shape length p i (k : nat) s l :
  (k < 3)%nat → shape !! k = Some s → length !! k = Some l →
  (s - 2 * p) mod l ≠ 0 ∨ s mod 16 ≠ 0 →
  raises (Sub.volume_indexes shape length p i).
Proof.
  intros Hk Hs Hl Hbad. unfold Sub.volume_indexes.
  pose proof (any_violation_detects _ _ p _ _ _ Hk Hs Hl Hbad) as Hv.
  destruct (Sub.any_violation shape length p [0; 1; 2]) as [[|]|e]; simpl; done.
Qed.

Lemma prepare_raises_on_violation handlers transform length p i h shape
    (k : nat) s l :
  handlers !! i = Some h →
  effective_shape transform h = Ok shape →
  (k < 3)%nat → shape !! k = Some s → length !! k = Some l →
  (s - 2 * p) mod l ≠ 0 ∨ s mod 16 ≠ 0 →
  raises (Sub.prepare handlers transform length p).
Proof.
  intros Hi Hshape Hk Hs Hl Hbad. unfold Sub.prepare.
  unfold effective_shape in Hshape.
  apply bind_ok in Hshape as (ts & Hts & Hshape).
  apply bind_ok in Hshape as (sc & Hsc & Hshape).
  rewrite Hts. cbn [Py.bind]. rewrite Hsc. cbn [Py.bind].
  apply (for_each_raises_at _ _ i (Z.of_nat i, h)).
  - by rewrite lookup_enumerate, Hi.
  - cbn [fst snd]. rewrite Hshape. cbn [Py.bind].
    by eapply volume_indexes_raises.
Qed.

Lemma base_init_fields `{Nibabel} fp cache transform canonical b :
  MRI3DSegmentationDataset.__init__ fp cache transform canonical = Ok b →
  MRI3DSegmentationDataset.transform b = transform
  ∧ MRI3DSegmentationDataset.indexes b = [].
Proof.
  unfold MRI3DSegmentationDataset.__init__, MRI3DSegmentationDataset._load_filenames.
  intros Hb. apply bind_ok in Hb as (ps & _ & Hb). by inversion Hb.
Qed.

(** C4.  If some volume of the collection violates the divisibility
    invariant on some axis (for the shape that is checked: the crop size
    when a CenterCrop3D stage is configured, else the raw shape of the
    volume), the construction of the subvolume dataset raises: no dataset,
    hence no partial index, is produced. *)
Theorem divisibility_violation_is_fatal `{Nibabel} fp cache transform canonical
    length p b i h shape (k : nat) s l :
  MRI3DSegmentationDataset.__init__ fp cache transform canonical = Ok b →
  MRI3DSegmentationDataset.handlers b !! i = Some h →
  effective_shape transform h = Ok shape →
  (k < 3)%nat → shape !! k = Some s → length !! k = Some l →
  (s - 2 * p) mod l ≠ 0 ∨ s mod 16 ≠ 0 →
  raises (Sub.__init__ fp cache transform canonical length p).
Proof.
  intros Hb Hi Hshape Hk Hs Hl Hbad. unfold Sub.__init__. rewrite Hb.
  cbn [Py.bind]. unfold Sub._prepare_indexes. apply raises_bind_l.
  unfold Sub.handlers, Sub.transform. cbn [Sub.base Sub.length Sub.padding].
  destruct (base_init_fields _ _ _ _ _ Hb) as [-> _].
  by eapply prepare_raises_on_violation.
Qed.

Lemma divisibility_violation_is_fatal_witness :
  raises (Sub.__init__ (H := Fixtures.disk) [Fixtures.group96] true
            (Some (Compose [])) false [40; 32; 32] 16).
Proof.
  eapply (divisibility_violation_is_fatal (H := Fixtures.disk)
            [Fixtures.group96] true
            (Some (Compose [])) false [40; 32; 32] 16 _ 0 Fixtures.pair96
            [96; 96; 96] 0 96 40).
  - vm_compute. reflexivity.
  - reflexivity.
  - reflexivity.
  - lia.
  - reflexivity.
  - reflexivity.
  - left. vm_compute. discriminate.
Defined.

(** ** No transform, no subvolume dataset *)

(** C10.  With [transform=None] index preparation raises whatever the
    handlers are (the crop-detection loop reads [self.transform.transforms]),
    so the construction of the subvolume dataset raises for every list of
    filename pairs: with the error of the loading step when that fails,
    with this [AttributeError] otherwise. *)
Theorem subvolume_dataset_requires_transform :
  (∀ handlers length p, Sub.prepare handlers None length p = Raise AttributeError)
  ∧ (∀ b length p,
       MRI3DSegmentationDataset.transform b = None →
       Sub._prepare_indexes {| Sub.base := b; Sub.length := length; Sub.padding := p |}
       = Raise AttributeError)
  ∧ (∀ (N : Nibabel) fp cache canonical length p,
       raises (Sub.__init__ fp cache None canonical length p)
       ∧ match MRI3DSegmentationDataset.__init__ fp cache None canonical with
         | Ok _ => Sub.__init__ fp cache None canonical length p
                   = Raise AttributeError
         | Raise e => Sub.__init__ fp cache None canonical length p = Raise e
         end).
Proof.
  split; [reflexivity|]. split.
  - intros b length p Hb. unfold Sub._prepare_indexes, Sub.transform.
    cbn [Sub.base]. rewrite Hb. reflexivity.
  - intros N fp cache canonical length p. unfold Sub.__init__.
    destruct (MRI3DSegmentationDataset.__init__ fp cache None canonical)
      as [b|e] eqn:Hb; cbn [Py.bind]; [|done].
    destruct (base_init_fields _ _ _ _ _ Hb) as [Ht _].
    unfold Sub._prepare_indexes, Sub.transform. cbn [Sub.base]. rewrite Ht.
    done.
Qed.

Lemma subvolume_dataset_requires_transform_witness :
  Sub.__init__ (H := Fixtures.disk) [Fixtures.group96] true None false
    [32; 32; 32] 16
  = Raise AttributeError.
Proof.
  destruct subvolume_dataset_requires_transform as (_ & _ & H).
  destruct (H Fixtures.disk [Fixtures.group96] true false [32; 32; 32] 16)
    as [_ Hm].
  exact Hm.
Defined.

(** ** Centre crop and its inverse *)

Import Transforms.

Lemma round_half_bounds d : 0 ≤ d → 0 ≤ round_half d ≤ d.
Proof.
  intros Hd. unfold round_half. cbv zeta.
  destruct (Z.eqb_spec (d mod 2) 0); [Z.div_mod_to_equations; lia|].
  destruct (Z.even (d / 2)) eqn:He; Z.div_mod_to_equations; lia.
Qed.

Lemma F_pad_size im l t r b :
  im_size (F_pad im (l, t, r, b)) = (l + width im + r, t + height im + b).
Proof. reflexivity. Qed.

Lemma F_pad_inside im l t r b x y :
  inside im x y = true →
  im_px (F_pad im (l, t, r, b)) (l + x) (t + y) = im_px im x y.
Proof.
  intros Hin. cbn. replace (l + x - l) with x by lia.
  replace (t + y - t) with y by lia. by rewrite Hin.
Qed.

Lemma F_pad_outside im l t r b x y :
  inside im (x - l) (y - t) = false → im_px (F_pad im (l, t, r, b)) x y = 0%Q.
Proof. intros Hout. cbn. by rewrite Hout. Qed.

Lemma inside_spec im x y :
  inside im x y = true ↔ 0 ≤ x < width im ∧ 0 ≤ y < height im.
Proof.
  unfold inside. rewrite !andb_true_iff, !Z.leb_le, !Z.ltb_lt. lia.
Qed.

Lemma F_center_crop_size im th tw : im_size (F_center_crop im (th, tw)) = (tw, th).
Proof.
  unfold F_center_crop. destruct (im_size im) as [w h]. cbn. f_equal; lia.
Qed.

Lemma F_center_crop_px im W H th tw x y :
  im_size im = (W, H) → tw ≤ W → th ≤ H → 0 ≤ x < tw → 0 ≤ y < th →
  im_px (F_center_crop im (th, tw)) x y
  = im_px im (round_half (W - tw) + x) (round_half (H - th) + y).
Proof.
  intros Hsz Hw Hh Hx Hy. unfold F_center_crop. rewrite Hsz. cbn.
  pose proof (round_half_bounds (W - tw) ltac:(lia)).
  pose proof (round_half_bounds (H - th) ltac:(lia)).
  replace (inside im _ _) with true; [done|].
  symmetry. apply inside_spec. unfold width, height. rewrite Hsz. simpl. lia.
Qed.

(** The inverse applied to a sample that holds the centre crop of [im] and
    the parameters the crop recorded. *)
Lemma undo_of_center_crop th tw s1 im W H m :
  input s1 = FOne (Img (F_center_crop im (th, tw))) →
  input_metadata s1
  = MetaOne (<[centercrop_key :=
                 MInts [round_half (H - th); round_half (W - tw); W; H]]> m) →
  im_size im = (W, H) → tw ≤ W → th ≤ H →
  let top := round_half (H - th) in
  let left := round_half (W - tw) in
  let cropped := F_center_crop im (th, tw) in
  ∃ s2 out,
    input s1 = FOne (Img cropped)
    ∧ im_size cropped = (tw, th)
    ∧ Crop2D.get_params s1 = Ok (top, left, W, H)
    ∧ Crop2D.undo_transform (th, tw) s1 = Ok s2
    ∧ input s2 = FOne (Img out)
    ∧ out = F_pad cropped (left, top, W - left - tw, H - top - th)
    ∧ (0 ≤ left ∧ 0 ≤ top ∧ 0 ≤ W - left - tw ∧ 0 ≤ H - top - th)
    ∧ im_size out = (W, H)
    ∧ (∀ x y, 0 ≤ x < tw → 0 ≤ y < th →
         im_px out (left + x) (top + y) = im_px cropped x y
         ∧ im_px cropped x y = im_px im (left + x) (top + y))
    ∧ (∀ x y, ¬ (left ≤ x < left + tw ∧ top ≤ y < top + th) →
         im_px out x y = 0%Q).
Proof.
  intros Hin Hmeta Hsz Hw Hh. cbv zeta.
  pose proof (round_half_bounds (W - tw) ltac:(lia)) as Hleft.
  pose proof (round_half_bounds (H - th) ltac:(lia)) as Htop.
  set (top := round_half (H - th)) in *.
  set (left := round_half (W - tw)) in *.
  set (cropped := F_center_crop im (th, tw)) in *.
  assert (Hparams : Crop2D.get_params s1 = Ok (top, left, W, H)).
  { unfold Crop2D.get_params, meta_getitem. rewrite Hmeta.
    by rewrite lookup_insert_eq. }
  assert (Hcs : im_size cropped = (tw, th)) by apply F_center_crop_size.
  eexists _, _. split; [exact Hin|]. split; [exact Hcs|].
  split; [exact Hparams|]. split.
  { unfold Crop2D.undo_transform. rewrite Hparams. cbn [Py.bind].
    rewrite Hin. cbn [pil_image Py.bind]. reflexivity. }
  split; [reflexivity|]. split; [reflexivity|].
  split; [lia|]. split.
  { rewrite F_pad_size. unfold width, height. rewrite Hcs. cbn [fst snd].
    f_equal; lia. }
  split.
  - intros x y Hx Hy. split.
    + apply F_pad_inside. apply inside_spec. unfold width, height.
      rewrite Hcs. cbn [fst snd]. lia.
    + by apply (F_center_crop_px im W H).
  - intros x y Hout. apply F_pad_outside.
    destruct (inside cropped (x - left) (y - top)) eqn:E; [|done].
    apply inside_spec in E. unfold width, height in E. rewrite Hcs in E.
    cbn [fst snd] in E. lia.
Qed.

(** C1.  For a sample whose input is a [W x H] image and a crop size
    [(th, tw)] with [tw <= W] and [th <= H]: the crop applies exactly when
    the metadata records can take the parameters (and, when labeled, the
    ground truth is an image); it leaves the centre crop as input and
    records [(top, left, W, H)]; the inverse then returns, pads with
    [pad_left = left], [pad_top = top], [pad_right = W - left - tw],
    [pad_bottom = H - top - th] (all non-negative), and its input has size
    exactly [W x H], equals the cropped content (the original pixels) on
    the central region and is 0 everywhere else. *)
Theorem crop_then_undo th tw labeled s im W H :
  input s = FOne (Img im) → im_size im = (W, H) → tw ≤ W → th ≤ H →
  (croppable labeled s ↔ returns (CenterCrop2D.call (th, tw) labeled s))
  ∧ ∀ s1, CenterCrop2D.call (th, tw) labeled s = Ok s1 →
     let top := round_half (H - th) in
     let left := round_half (W - tw) in
     let cropped := F_center_crop im (th, tw) in
     ∃ s2 out,
       input s1 = FOne (Img cropped)
       ∧ im_size cropped = (tw, th)
       ∧ Crop2D.get_params s1 = Ok (top, left, W, H)
       ∧ Crop2D.undo_transform (th, tw) s1 = Ok s2
       ∧ input s2 = FOne (Img out)
       ∧ out = F_pad cropped (left, top, W - left - tw, H - top - th)
       ∧ (0 ≤ left ∧ 0 ≤ top ∧ 0 ≤ W - left - tw ∧ 0 ≤ H - top - th)
       ∧ im_size out = (W, H)
       ∧ (∀ x y, 0 ≤ x < tw → 0 ≤ y < th →
            im_px out (left + x) (top + y) = im_px cropped x y
            ∧ im_px cropped x y = im_px im (left + x) (top + y))
       ∧ (∀ x y, ¬ (left ≤ x < left + tw ∧ top ≤ y < top + th) →
            im_px out x y = 0%Q).
Proof.
  intros Hin Hsz Hw Hh.
  destruct s as [i g r imd gmd rmd]. simpl in Hin. subst i.
  unfold croppable, CenterCrop2D.call, Crop2D.propagate_params, meta_setitem,
    center_crop_field, pil_size, pil_image.
  cbn [input gt roi input_metadata gt_metadata roi_metadata Py.bind].
  rewrite Hsz. cbn [Py.bind].
  destruct imd as [|m|ml]; cbn [Py.bind].
  1, 3: by (split; [split; [intros [[? [=]] _] | intros []] | intros ? [=]]).
  destruct labeled.
  - cbn [set_input_metadata input gt roi input_metadata gt_metadata roi_metadata].
    destruct g as [|[g|a]|gl]; cbn [Py.bind].
    1, 3, 4: by (split; [split; [intros [_ Hl]; destruct (Hl eq_refl) as [[? [=]] _]
                                | intros []] | intros ? [=]]).
    destruct gmd as [|gm|gml]; cbn [Py.bind].
    1, 3: by (split; [split; [intros [_ Hl]; destruct (Hl eq_refl) as [_ [? [=]]]
                             | intros []] | intros ? [=]]).
    split; [split; [done | eauto 10] |].
    intros s1 [= <-]. by eapply undo_of_center_crop.
  - split; [split; [done | intros _; split; [eauto | done]] |].
    intros s1 [= <-]. by eapply undo_of_center_crop.
Qed.

Lemma crop_then_undo_witness :
  ∃ s1 s2 out,
    CenterCrop2D.call (2, 3) false (Fixtures.unlabeled (Fixtures.ramp 5 4)) = Ok s1
    ∧ Crop2D.undo_transform (2, 3) s1 = Ok s2
    ∧ input s2 = FOne (Img out)
    ∧ im_size out = (5, 4)
    ∧ Fixtures.rows out
      = [ [0; 0; 0; 0; 0]; [0; 11; 12; 13; 0]; [0; 21; 22; 23; 0];
          [0; 0; 0; 0; 0] ]%Q.
Proof.
  destruct (CenterCrop2D.call (2, 3) false (Fixtures.unlabeled (Fixtures.ramp 5 4)))
    as [s1|e] eqn:E; [|vm_compute in E; discriminate].
  destruct (proj2 (crop_then_undo 2 3 false (Fixtures.unlabeled (Fixtures.ramp 5 4))
                     (Fixtures.ramp 5 4) 5 4 eq_refl eq_refl
                     ltac:(lia) ltac:(lia)) s1 E)
    as (s2 & out & _ & _ & _ & Hundo & Hout & Hpad & _ & Hsize & _).
  exists s1, s2, out. split; [reflexivity|]. split; [exact Hundo|].
  split; [exact Hout|]. split; [exact Hsize|].
  rewrite Hpad. vm_compute. reflexivity.
Defined.

(** ** Binarized ground truth *)




Section Warped.
Context `{Warps}.





End Warped.


(** ** Channel shift *)



Lemma channel_shift_short_list c s l :
  input s = FMany l → (length l < 2)%nat →
  raises (RandomTensorChannelShift.call c s).
Proof.
  intros Hin Hlen. unfold RandomTensorChannelShift.call. rewrite Hin.
  destruct l as [|x0 [|x1 rest]]; [done| |simpl in Hlen; lia].
  index_at (eq_refl : [x0] !! 0%nat = Some x0). cbn [Py.bind].
  destruct (RandomTensorChannelShift.sample_augment x0 c); done.
Qed.




(** ** Shapes of a volume pair *)

Lemma distinct_snoc (l : list (list Z)) x : Pair.distinct (l ++ [x]) ≠ 0%nat.
Proof.
  unfold Pair.distinct. intros Hz. apply size_empty_iff in Hz.
  assert (x ∈ (list_to_set (l ++ [x]) : gset (list Z))) as Hx
    by (apply elem_of_list_to_set; set_solver).
  rewrite Hz in Hx. set_solver.
Qed.

(** The guard of the loop over the inputs never fires. *)
Lemma input_shapes_total hs acc :
  Pair.input_shapes hs acc = Ok (acc ++ (nii_shape <$> hs)).
Proof.
  revert acc. induction hs as [|h hs IH]; intros acc; simpl.
  - by rewrite app_nil_r.
  - destruct (Nat.eqb_spec (Pair.distinct (acc ++ [nii_shape h])) 0) as [E|_].
    + by apply distinct_snoc in E.
    + rewrite IH. by rewrite <- app_assoc.
Qed.

(** Nor does the guard of the loop over the ground truths. *)
Lemma gt_shapes_total gs acc :
  Pair.gt_shapes gs acc = Ok (acc ++ present_shapes gs).
Proof.
  revert acc. induction gs as [|[g|] gs IH]; intros acc; simpl.
  - by rewrite app_nil_r.
  - destruct (Nat.eqb_spec (Pair.distinct (acc ++ [nii_shape g])) 0) as [E|_].
    + by apply distinct_snoc in E.
    + rewrite IH. unfold present_shapes. simpl. by rewrite <- app_assoc.
  - apply IH.
Qed.

Lemma get_pair_shapes_first self h hs :
  Pair.input_handle self = h :: hs →
  Pair.get_pair_shapes self
  = Ok (nii_shape h, head (present_shapes (Pair.gt_handle self))).
Proof.
  intros Hh. unfold Pair.get_pair_shapes.
  rewrite input_shapes_total, gt_shapes_total, Hh, fmap_cons. cbn [Py.bind app].
  assert ((nii_shape h :: (nii_shape <$> hs)) !! 0%nat = Some (nii_shape h))
    as Hfirst by reflexivity.
  index_at Hfirst. cbn [Py.bind]. by destruct (present_shapes (Pair.gt_handle self)).
Qed.

(** C5 (the code does not do what is claimed).  [get_pair_shapes] returns
    the shape of the first input and the shape of the first ground truth
    that is present, whatever the shapes of the other channels: two input
    channels of shapes (64,64,20) and (32,32,10), and two ground truths of
    those shapes, are accepted, by [get_pair_shapes] and by the
    constructor. *)
Theorem get_pair_shapes_accepts_mismatch :
  (∀ self h hs gs,
     Pair.get_pair_shapes (Pair.with_handles self (h :: hs) gs)
     = Ok (nii_shape h, head (present_shapes gs)))
  ∧ Pair.get_pair_shapes
      (Pair.with_handles Fixtures.pair96
         [Fixtures.volume [64; 64; 20] [0; 1; 2]%nat;
          Fixtures.volume [32; 32; 10] [0; 1; 2]%nat]
         [Some (Fixtures.volume [64; 64; 20] [0; 1; 2]%nat);
          Some (Fixtures.volume [32; 32; 10] [0; 1; 2]%nat)])
    = Ok ([64; 64; 20], Some [64; 64; 20])
  ∧ returns (Pair.__init__ (H := Fixtures.disk) ["t1.nii"; "small.nii"]%string
               None None true false)
  ∧ returns (Pair.__init__ (H := Fixtures.disk) ["t1.nii"; "t2.nii"]%string
               (Some [Some "gt.nii"; Some "small.nii"]%string) None true false).
Proof.
  split; [|split; [|split]].
  - intros self h hs gs.
    exact (get_pair_shapes_first (Pair.with_handles self (h :: hs) gs) h hs eq_refl).
  - exact (get_pair_shapes_first
             (Pair.with_handles Fixtures.pair96
                [Fixtures.volume [64; 64; 20] [0; 1; 2]%nat;
                 Fixtures.volume [32; 32; 10] [0; 1; 2]%nat]
                [Some (Fixtures.volume [64; 64; 20] [0; 1; 2]%nat);
                 Some (Fixtures.volume [32; 32; 10] [0; 1; 2]%nat)])
             _ _ eq_refl).
  - vm_compute. exact I.
  - vm_compute. exact I.
Qed.

(** ** Canonical reorientation *)

Section Reorientation.
Context `{Nibabel}.

Lemma init_steps ins gts md cache canon p :
  Pair.__init__ ins gts md cache canon = Ok p →
  ∃ ih gh,
    Pair.load_handles ins gts = Ok (ih, gh)
    ∧ Pair.sanity_check
        {| Pair.input_filenames := ins; Pair.gt_filenames := gts;
           Pair.metadata := md; Pair.canonical := canon; Pair.cache := cache;
           Pair.input_handle := ih; Pair.gt_handle := gh |} = Ok tt
    ∧ p = Pair.attach_filenames
            (Pair.canonicalize
               {| Pair.input_filenames := ins; Pair.gt_filenames := gts;
                  Pair.metadata := md; Pair.canonical := canon;
                  Pair.cache := cache;
                  Pair.input_handle := ih; Pair.gt_handle := gh |}).
Proof.
  unfold Pair.__init__. intros Hp.
  apply bind_ok in Hp as ([ih gh] & Hload & Hp).
  apply bind_ok in Hp as ([] & Hcheck & [= <-]).
  by exists ih, gh.
Qed.

(** The check reads the handles and [gt_filenames] only. *)
Lemma sanity_check_flag ins gts md cache canon canon' ih gh :
  Pair.sanity_check
    {| Pair.input_filenames := ins; Pair.gt_filenames := gts;
       Pair.metadata := md; Pair.canonical := canon; Pair.cache := cache;
       Pair.input_handle := ih; Pair.gt_handle := gh |}
  = Pair.sanity_check
      {| Pair.input_filenames := ins; Pair.gt_filenames := gts;
         Pair.metadata := md; Pair.canonical := canon'; Pair.cache := cache;
         Pair.input_handle := ih; Pair.gt_handle := gh |}.
Proof. reflexivity. Qed.

Lemma load_gt_without_filenames ins ih gh :
  Pair.load_handles ins None = Ok (ih, gh) → gh = [].
Proof.
  unfold Pair.load_handles. intros Hl.
  apply bind_ok in Hl as (ih' & _ & Hl). by inversion Hl.
Qed.

(** C6 (as amended).  The shape checks of the constructor are made on the
    volumes as loaded: whether the construction succeeds does not depend
    on the canonical flag.  With the flag set, once the checks have passed,
    every input handle and every ground-truth handle that is present is
    replaced by its reorientation. *)
Theorem canonical_after_shape_check ins gts md cache :
  (returns (Pair.__init__ ins gts md cache true)
   ↔ returns (Pair.__init__ ins gts md cache false))
  ∧ ∀ p, Pair.__init__ ins gts md cache true = Ok p →
      ∃ ih gh,
        Pair.load_handles ins gts = Ok (ih, gh)
        ∧ Pair.sanity_check
            {| Pair.input_filenames := ins; Pair.gt_filenames := gts;
               Pair.metadata := md; Pair.canonical := true; Pair.cache := cache;
               Pair.input_handle := ih; Pair.gt_handle := gh |} = Ok tt
        ∧ Pair.input_handle p = as_closest_canonical <$> ih
        ∧ Pair.gt_handle p = fmap (M := option) as_closest_canonical <$> gh.
Proof.
  split.
  - unfold Pair.__init__.
    destruct (Pair.load_handles ins gts) as [[ih gh]|e]; cbn [Py.bind]; [|done].
    rewrite (sanity_check_flag ins gts md cache true false).
    by destruct (Pair.sanity_check _).
  - intros p Hp. destruct (init_steps _ _ _ _ _ _ Hp) as (ih & gh & Hl & Hc & ->).
    exists ih, gh. split; [done|]. split; [done|].
    unfold Pair.attach_filenames, Pair.canonicalize.
    cbn [Pair.canonical Pair.metadata Pair.with_handles Pair.gt_filenames
         Pair.input_handle Pair.gt_handle].
    assert (match gts with
            | Some _ => fmap (M := option) as_closest_canonical <$> gh
            | None => gh
            end = fmap (M := option) as_closest_canonical <$> gh) as ->.
    { destruct gts; [done|]. by rewrite (load_gt_without_filenames _ _ _ Hl). }
    by destruct (Pair.metadata_truthy md).
Qed.

End Reorientation.

Lemma canonical_after_shape_check_witness :
  ∃ p, Pair.__init__ (H := Fixtures.disk) ["wide.nii"]%string
         (Some [Some "wide_gt.nii"%string]) None true true = Ok p
    ∧ fmap (M := list) nii_shape (Pair.input_handle p) = [[64; 32; 20]]
    ∧ fmap (M := list) (fmap (M := option) nii_shape) (Pair.gt_handle p)
      = [Some [32; 64; 20]].
Proof.
  destruct (Pair.__init__ (H := Fixtures.disk) ["wide.nii"]%string
              (Some [Some "wide_gt.nii"%string]) None true true)
    as [p|e] eqn:E; [|vm_compute in E; discriminate].
  exists p. split; [reflexivity|].
  destruct (proj2 (canonical_after_shape_check (H := Fixtures.disk) _ _ _ _) p E)
    as (ih & gh & Hl & _ & -> & ->).
  vm_compute in Hl. injection Hl as <- <-. split; vm_compute; reflexivity.
Defined.

(** C6 (as stated) fails: a ground truth stored with its first two axes
    exchanged agrees with the input once both are reoriented, and the
    constructor rejects the pair, because it compares the shapes as
    stored. *)
Lemma shape_check_precedes_reorientation : ¬ reorientation_precedes_shape_check.
Proof.
  intros Hclaim.
  destruct (Hclaim Fixtures.disk ["wide.nii"]%string
              (Some [Some "tall_gt.nii"%string]) None true _ _ eq_refl)
    as [_ Hback].
  assert (returns (Pair.__init__ (H := Fixtures.disk) ["wide.nii"]%string
                     (Some [Some "tall_gt.nii"%string]) None true true)) as Hr.
  { apply Hback. vm_compute. exact I. }
  vm_compute in Hr. exact Hr.
Qed.

(** ** The transform override of [compute_mean_std] *)

Lemma getitem_transform ds i :
  Slices.transform (fst (Slices.__getitem__ ds i)) = Slices.transform ds.
Proof.
  unfold Slices.__getitem__.
  destruct (index (Slices.indexes ds) i) as [[seg roi]|e]; [|done].
  destruct (let? input_tensors := _ in _) as [[a b]|e]; reflexivity.
Qed.

Lemma iterate_transform {S : Type} fuel i ds (acc : S) body :
  Slices.transform (fst (Slices.iterate fuel i ds acc body)) = Slices.transform ds.
Proof.
  revert i ds acc. induction fuel as [|fuel IH]; intros i ds acc; [done|].
  cbn [Slices.iterate]. pose proof (getitem_transform ds i) as Hg.
  destruct (Slices.__getitem__ ds i) as [ds' [smp|e]]; cbn [fst] in Hg.
  - destruct (body smp acc) as [acc'|e]; [|done]. by rewrite IH.
  - by destruct e.
Qed.

(** The body of the [with] block leaves the [transform] attribute alone;
    what the dataset holds afterwards is decided by [__exit__]. *)
Lemma compute_mean_std_transform `{Numpy} ds :
  Slices.transform (fst (Slices.compute_mean_std ds))
  = match Slices.transform ds with
    | Some t => Some t
    | None => Some (Stage (ToTensor true))
    end.
Proof.
  unfold Slices.compute_mean_std, DatasetManager.with_override,
    DatasetManager.__enter__, DatasetManager.__exit__, DatasetManager.__init__.
  cbn [truthy DatasetManager.override_transform DatasetManager._transform_state
       get_transform put_transform Slices.has_transform].
  set (ds1 := Slices.set_transform ds (Some (Stage (ToTensor true)))).
  set (fuel := S (length (Slices.indexes ds1))).
  set (zero := (replicate _ 0%Q, replicate _ 0)).
  pose proof (iterate_transform fuel 0 ds1 zero
                (Slices.accumulate (λ _ a, nd_sum a)
                   (Py.range (Slices.n_contrasts ds)))) as H1.
  change (Slices.transform ds1) with (Some (Stage (ToTensor true))) in H1.
  destruct (Slices.iterate fuel 0 ds1 zero _) as [ds2 [[sums counts]|e]];
    cbn [fst] in H1.
  - match goal with
    | |- context [Slices.iterate fuel 0 ds2 zero ?b] =>
        pose proof (iterate_transform fuel 0 ds2 zero b) as H2;
        destruct (Slices.iterate fuel 0 ds2 zero b) as [ds3 [[v c]|e]]
    end; cbn [fst] in H2 |- *;
      destruct (Slices.transform ds) as [t|]; cbn [truthy]; try reflexivity;
      cbn; congruence.
  - destruct (Slices.transform ds) as [t|]; cbn [truthy]; try reflexivity;
      cbn; congruence.
Qed.

(** C8 (the code does not do what is claimed).  For a dataset whose
    transform is [None], the default, the override of [compute_mean_std]
    is not undone: whether the pass returns or raises, the dataset is left
    with the [ToTensor] transform.  ([__exit__] restores the saved
    transform only when it is true, and [None] is not.) *)
Theorem compute_mean_std_keeps_override `{Numpy} ds :
  Slices.transform (fst (Slices.compute_mean_std (Slices.set_transform ds None)))
  = Some (Stage (ToTensor true))
  ∧ Slices.transform (fst (Slices.compute_mean_std (Slices.set_transform ds None)))
    ≠ Slices.transform (Slices.set_transform ds None).
Proof.
  rewrite compute_mean_std_transform. cbn [Slices.transform Slices.set_transform].
  split; [reflexivity | discriminate].
Qed.

(** A transform that is not [None] is restored on every exit path. *)
Lemma compute_mean_std_restores `{Numpy} ds t :
  Slices.transform ds = Some t →
  Slices.transform (fst (Slices.compute_mean_std ds)) = Some t.
Proof. intros Ht. by rewrite compute_mean_std_transform, Ht. Qed.

(** ** Length of the slice index *)

Lemma with_metadata_id p : Pair.with_metadata p (Pair.metadata p) = p.
Proof. by destruct p. Qed.

Lemma unstamp_truthy md md' :
  unstamp md = unstamp md' → Pair.metadata_truthy md = Pair.metadata_truthy md'.
Proof.
  destruct md as [[|m l]|], md' as [[|m' l']|]; simpl; intros E;
    by simplify_eq.
Qed.

Lemma unstamp_falsy md md' :
  unstamp md = unstamp md' → Pair.metadata_truthy md = false → md = md'.
Proof.
  destruct md as [[|m l]|], md' as [[|m' l']|]; simpl; intros E Hf;
    by simplify_eq.
Qed.

Lemma unstamp_stamp md md' k :
  unstamp md = unstamp md' →
  (λ m : metadict, <["slice_index"%string := MInt k]> m) <$> default [] md
  = (λ m : metadict, <["slice_index"%string := MInt k]> m) <$> default [] md'.
Proof.
  intros E.
  assert (∀ l : list metadict,
            (λ m : metadict, <["slice_index"%string := MInt k]> m) <$> l
            = (λ m : metadict, <["slice_index"%string := MInt k]> m)
              <$> (delete "slice_index"%string <$> l)) as Hl.
  { intros l. rewrite <- list_fmap_compose. apply list_fmap_ext.
    intros i m _. simpl. by rewrite insert_delete_eq. }
  rewrite Hl, (Hl (default [] md')). f_equal.
  destruct md as [l|], md' as [l'|]; simpl in *; by simplify_eq.
Qed.

Lemma unstamp_after_stamp md k :
  unstamp (Some ((λ m : metadict, <["slice_index"%string := MInt k]> m)
                 <$> default [] md))
  = unstamp (Some (default [] md)).
Proof.
  unfold unstamp. simpl. f_equal. rewrite <- list_fmap_compose.
  apply list_fmap_ext. intros i m _. simpl. by rewrite delete_insert_eq.
Qed.

Lemma unstamp_first_gt_filenames p md md' :
  unstamp md = unstamp md' →
  Pair.first_gt_filenames (Pair.with_metadata p md)
  = Pair.first_gt_filenames (Pair.with_metadata p md').
Proof.
  unfold Pair.first_gt_filenames. cbn [Pair.metadata Pair.with_metadata].
  destruct md as [l|], md' as [l'|]; simpl; intros E; simplify_eq; [|done].
  destruct l as [|m l], l' as [|m' l']; simplify_eq; [done|].
  assert (m !! "gt_filenames"%string = m' !! "gt_filenames"%string) as Hm.
  { rewrite <- (lookup_delete_ne m "slice_index"%string "gt_filenames"%string),
      <- (lookup_delete_ne m' "slice_index"%string "gt_filenames"%string) by done.
    by f_equal. }
  assert (index (m :: l) 0 = Ok m) as -> by reflexivity.
  assert (index (m' :: l') 0 = Ok m') as -> by reflexivity.
  cbn [Py.bind]. by rewrite Hm.
Qed.

(** What [get_pair_slice] returns does not depend on the [slice_index]
    stamps earlier calls left in the metadata records. *)
Lemma get_pair_slice_unstamp p md idx axis :
  unstamp md = unstamp (Pair.metadata p) →
  Pair.get_pair_slice (Pair.with_metadata p md) idx axis
  = Pair.get_pair_slice p idx axis.
Proof.
  intros E. rewrite <- (with_metadata_id p) at 2.
  unfold Pair.get_pair_slice, Pair.get_pair_data.
  cbn [Pair.cache Pair.input_handle Pair.gt_handle Pair.metadata
       Pair.with_metadata].
  rewrite (unstamp_first_gt_filenames p md (Pair.metadata p) E).
  rewrite (unstamp_truthy _ _ E), (unstamp_stamp _ _ idx E).
  destruct (Pair.metadata_truthy (Pair.metadata p)) eqn:Ht; [reflexivity|].
  rewrite <- (unstamp_truthy _ _ E) in Ht.
  by rewrite (unstamp_falsy _ _ E Ht).
Qed.

(** A call leaves the records as they were, up to the stamp. *)
Lemma get_pair_slice_metadata p idx axis sl p' :
  Pair.get_pair_slice p idx axis = Ok (sl, p') →
  unstamp (Pair.metadata p') = unstamp (Pair.metadata p)
  ∧ p' = Pair.with_metadata p (Pair.metadata p').
Proof.
  unfold Pair.get_pair_slice. intros Hs.
  apply bind_ok in Hs as ([ins gts] & _ & Hs).
  destruct (negb _); [discriminate|].
  apply bind_ok in Hs as (input_slices & _ & Hs).
  apply bind_ok in Hs as (gt_slices & _ & Hs).
  apply bind_ok in Hs as (gt_meta_dict & _ & Hs).
  destruct (Pair.metadata_truthy (Pair.metadata p)) eqn:Ht.
  - destruct (_ <? _)%nat; [discriminate|]. injection Hs as _ <-.
    cbn [Pair.metadata Pair.with_metadata]. split; [|reflexivity].
    rewrite unstamp_after_stamp.
    destruct (Pair.metadata p) as [l|]; [reflexivity|discriminate].
  - injection Hs as _ <-. split; [reflexivity|]. by rewrite with_metadata_id.
Qed.

(** The length of what the loop over the positions of a group appends:
    the positions whose slice the predicate does not reject. *)
Lemma load_slices_length filter axis seg0 positions :
  ∀ seg roi items,
    seg = Pair.with_metadata seg0 (Pair.metadata seg) →
    unstamp (Pair.metadata seg) = unstamp (Pair.metadata seg0) →
    Slices.load_slices filter axis seg roi positions = Ok items →
    (length items + count_where (rejected filter axis seg0) positions)%nat
    = length positions.
Proof.
  induction positions as [|idx positions IH]; intros seg roi items Hseg Hmd Hl.
  { inversion Hl. reflexivity. }
  cbn [Slices.load_slices] in Hl.
  apply bind_ok in Hl as ([sl seg1] & Hsl & Hl).
  destruct (get_pair_slice_metadata _ _ _ _ _ Hsl) as [Hmd1 Hseg1].
  assert (Pair.get_pair_slice seg0 idx axis = Ok (sl, seg1)) as Hsl0.
  { pose proof (get_pair_slice_unstamp seg0 (Pair.metadata seg) idx axis Hmd)
      as Hu.
    rewrite <- Hseg in Hu. by rewrite <- Hu. }
  assert (Hseg1' : seg1 = Pair.with_metadata seg0 (Pair.metadata seg1)).
  { destruct (get_pair_slice_metadata _ _ _ _ _ Hsl0) as [_ Hs0]. exact Hs0. }
  assert (Hmd1' : unstamp (Pair.metadata seg1) = unstamp (Pair.metadata seg0))
    by congruence.
  unfold count_where in *. cbn [List.filter length].
  unfold rejected at 1. rewrite Hsl0.
  destruct (Slices.skipped filter sl) eqn:Hskip.
  - specialize (IH _ _ _ Hseg1' Hmd1' Hl). cbn [length]. lia.
  - apply bind_ok in Hl as ([slr roi1] & Hroi & Hl).
    apply bind_ok in Hl as (rest & Hrest & [= <-]).
    destruct (get_pair_slice_metadata _ _ _ _ _ Hroi) as [Hmdr _].
    cbn [Pair.metadata Pair.with_metadata] in Hmdr.
    specialize (IH (Pair.with_metadata seg1 (Pair.metadata roi1)) roi1 rest).
    cbn [length]. rewrite <- IH; [lia| | |exact Hrest].
    + rewrite Hseg1' at 1. reflexivity.
    + cbn [Pair.metadata Pair.with_metadata]. congruence.
Qed.

Section SliceIndex.
Context `{Nibabel}.

Lemma load_group_length cache canonical axis filter g items :
  Slices.load_group cache canonical axis filter g = Ok items →
  Z.of_nat (length items)
  = group_extent cache canonical axis g
    - group_excluded cache canonical axis filter g.
Proof.
  unfold Slices.load_group. intros Hg.
  apply bind_ok in Hg as (roi & _ & Hg).
  apply bind_ok in Hg as (seg & Hseg & Hg).
  apply bind_ok in Hg as ([shape gshape] & Hshape & Hg).
  apply bind_ok in Hg as (extent & Hext & Hg).
  unfold group_excluded, group_extent, seg_pair_of.
  rewrite Hseg, Hshape, Hext.
  replace (Py.range (Z.max 0 extent)) with (Py.range extent)
    by (unfold Py.range; f_equal; lia).
  pose proof (load_slices_length filter axis seg (Py.range extent) seg _ items
                (eq_sym (with_metadata_id seg)) eq_refl Hg) as Hlen.
  pose proof (length_range extent). lia.
Qed.

Lemma no_filter_no_exclusion cache canonical axis g :
  group_excluded cache canonical axis None g = 0.
Proof.
  unfold group_excluded. destruct (seg_pair_of cache canonical g); [|done].
  rewrite count_where_none; [done|]. apply Forall_forall. intros idx _.
  unfold rejected. by destruct (Pair.get_pair_slice _ _ _) as [[? ?]|].
Qed.

Lemma load_filenames_length fp cache canonical axis filter items :
  for_each fp (Slices.load_group cache canonical axis filter) = Ok items →
  Z.of_nat (length items)
  = total ((λ g, group_extent cache canonical axis g
                 - group_excluded cache canonical axis filter g) <$> fp).
Proof.
  revert items. induction fp as [|g fp IH]; intros items Hf; simpl in Hf.
  { inversion Hf. reflexivity. }
  apply bind_ok in Hf as (ys & Hys & Hf).
  apply bind_ok in Hf as (rest & Hrest & [= <-]).
  rewrite length_app, Nat2Z.inj_add, (load_group_length _ _ _ _ _ _ Hys),
    (IH _ Hrest). reflexivity.
Qed.

(** The general part of C3. *)
Lemma init_length fp axis cache tr filter canonical ds :
  Slices.__init__ fp axis cache tr filter canonical = Ok ds →
  Slices.__len__ ds
  = total ((λ g, group_extent cache canonical axis g
                 - group_excluded cache canonical axis filter g) <$> fp).
Proof.
  unfold Slices.__init__, Slices._load_filenames. intros Hds.
  apply bind_ok in Hds as (g0 & _ & Hds).
  apply bind_ok in Hds as (items & Hitems & [= <-]).
  cbn [Slices.cache Slices.canonical Slices.slice_axis Slices.slice_filter_fn
       Slices.filename_pairs] in Hitems.
  unfold Slices.__len__. cbn [Slices.indexes Slices.with_indexes app].
  by apply load_filenames_length.
Qed.

End SliceIndex.

Lemma plane_sizes_two smp s1 s2 :
  plane_sizes smp = Some [s1; s2] →
  ∃ a b, input smp = FMany [Img a; Img b] ∧ im_size a = s1 ∧ im_size b = s2.
Proof.
  unfold plane_sizes. destruct (input smp) as [|x|l]; try discriminate.
  destruct l as [|[a|?] [|[b|?] [|[c|?] l]]]; simpl; try discriminate.
  - intros [= <- <-]. by exists a, b.
  - destruct (image_sizes l); discriminate.
Qed.

(** C3.  When the 2D dataset is built, its length is the sum over the
    groups of the extent along the slicing axis minus the number of
    positions whose slice the inclusion predicate rejects; without a
    predicate it is the sum of the extents.  A two-channel group of shape
    (64,64,20), sliced along axis 2 without predicate, gives length 20, and
    item 10 has an input of 2 planes of shape (64,64). *)
Theorem slice_index_length :
  (∀ (N : Nibabel) fp axis cache tr filter canonical ds,
     Slices.__init__ fp axis cache tr filter canonical = Ok ds →
     Slices.__len__ ds
     = total ((λ g, group_extent cache canonical axis g
                    - group_excluded cache canonical axis filter g) <$> fp)
     ∧ (filter = None →
        Slices.__len__ ds = total (group_extent cache canonical axis <$> fp)))
  ∧ (∃ ds,
       Slices.__init__ (H := Fixtures.disk) [Fixtures.two_channels] 2 true None
         None false = Ok ds
       ∧ group_extent (H := Fixtures.disk) true false 2 Fixtures.two_channels = 20
       ∧ Slices.__len__ ds = 20
       ∧ ∃ smp a b,
           snd (Slices.__getitem__ ds 10) = Ok smp
           ∧ input smp = FMany [Img a; Img b]
           ∧ im_size a = (64, 64) ∧ im_size b = (64, 64)).
Proof.
  split.
  - intros N fp axis cache tr filter canonical ds Hds.
    pose proof (init_length _ _ _ _ _ _ _ Hds) as Hlen.
    split; [exact Hlen|]. intros ->. rewrite Hlen. f_equal.
    apply list_fmap_ext. intros i g _. rewrite no_filter_no_exclusion. lia.
  - assert (two_channel_example = Ok (20, Some [(64, 64); (64, 64)])) as Hex
      by (vm_compute; reflexivity).
    unfold two_channel_example in Hex.
    apply bind_ok in Hex as (ds & Hds & Hex).
    apply bind_ok in Hex as (smp & Hsmp & Hex).
    injection Hex as Hlen Hsizes.
    exists ds. split; [exact Hds|]. split; [vm_compute; reflexivity|].
    split; [exact Hlen|].
    destruct (plane_sizes_two _ _ _ Hsizes) as (a & b & Hin & Ha & Hb).
    exists smp, a, b. split; [exact Hsmp|]. split; [exact Hin|].
    split; [exact Ha | exact Hb].
Qed.

Lemma slice_index_length_witness :
  ∃ ds,
    Slices.__init__ (H := Fixtures.disk) [Fixtures.two_channels] 2 true None
      (Some Fixtures.even_slices) false = Ok ds
    ∧ Slices.__len__ ds = 20 - 10.
Proof.
  assert (returns (Slices.__init__ (H := Fixtures.disk) [Fixtures.two_channels]
                     2 true None (Some Fixtures.even_slices) false)) as Hr
    by (vm_compute; exact I).
  destruct (Slices.__init__ (H := Fixtures.disk) [Fixtures.two_channels] 2 true
              None (Some Fixtures.even_slices) false) as [ds|e] eqn:E;
    [|contradiction].
  exists ds. split; [reflexivity|].
  destruct (proj1 slice_index_length Fixtures.disk _ _ _ _ _ _ ds E) as [Hlen _].
  rewrite Hlen. vm_compute. reflexivity.
Defined.

(* ===================================================================== *)
(** * Further properties of the code *)
(* ===================================================================== *)

(** ** Construction of a volume pair *)
Lemma map_each_raises_first {A B} (l : list A) (f : A → result B) x e :
  x ∈ l → f x = Raise e → (∀ y, y ∈ l → f y = Raise e ∨ returns (f y)) →
  map_each l f = Raise e.
Proof.
  induction l as [|y l IH]; intros Hx Hfx Hall; [by apply elem_of_nil in Hx|].
  cbn [map_each].
  destruct (Hall y ltac:(left)) as [Hy|Hy]; [by rewrite Hy|].
  destruct (f y) as [b|e'] eqn:Ey; [|done]. cbn [Py.bind].
  apply elem_of_cons in Hx as [->|Hx]; [congruence|].
  rewrite IH; [done|done|done|]. intros z Hz. apply Hall. by right.
Qed.

Lemma map_each_lookup {A B} (l : list A) (f : A → result B) ys i x :
  map_each l f = Ok ys → l !! i = Some x → ∃ y, ys !! i = Some y ∧ f x = Ok y.
Proof.
  intros Hys Hx. apply map_each_ok in Hys.
  destruct (Forall2_lookup_l _ _ _ _ _ Hys Hx) as (y & Hy & Hfy). eauto.
Qed.

Lemma map_each_total {A B} (l : list A) (f : A → result B) :
  (∀ x, x ∈ l → returns (f x)) → returns (map_each l f).
Proof.
  induction l as [|x l IH]; intros Hf; [done|]. cbn [map_each].
  pose proof (Hf x ltac:(left)) as Hx. destruct (f x); [|done]. cbn [Py.bind].
  destruct (map_each l f) eqn:E; [done|]. apply IH. intros y Hy. apply Hf. by right.
Qed.

Lemma map_each_raises_at {A B} (l : list A) (f : A → result B) x :
  x ∈ l → raises (f x) → raises (map_each l f).
Proof.
  induction l as [|y l IH]; intros Hx Hfx; [by apply elem_of_nil in Hx|].
  cbn [map_each]. destruct (f y) as [b|e] eqn:Ey; [|done]. cbn [Py.bind].
  apply elem_of_cons in Hx as [->|Hx]; [by rewrite Ey in Hfx|].
  specialize (IH Hx Hfx). by destruct (map_each l f).
Qed.

Lemma map_each_complete {A B} (l : list A) (f : A → result B) ys :
  Forall2 (λ x y, f x = Ok y) l ys → map_each l f = Ok ys.
Proof.
  induction 1 as [|x y l ys Hxy _ IH]; [done|].
  cbn [map_each]. by rewrite Hxy, IH.
Qed.

Section PairConstruction.
Context `{Nibabel}.

(** X1.  A pair whose input files all load, one of them as a volume of
    more than three dimensions, is rejected by the constructor with the
    error "4-dimensional volumes not supported.". *)
Theorem four_dimensional_input_rejected ins gts md cache canonical f h :
  (∀ g, g ∈ ins → returns (nib_load g)) →
  f ∈ ins → nib_load f = Ok h → (3 < length (nii_shape h))%nat →
  Pair.__init__ ins gts md cache canonical
  = Raise (RuntimeError "4-dimensional volumes not supported.").
Proof.
  intros Hload Hf Hh Hdim. unfold Pair.__init__, Pair.load_handles.
  rewrite (map_each_raises_first ins _ f
             (RuntimeError "4-dimensional volumes not supported.")); [done|done| |].
  - rewrite Hh. cbn [Py.bind].
    destruct (Z.ltb_spec 3 (Z.of_nat (length (nii_shape h)))); [done|lia].
  - intros g Hg. specialize (Hload g Hg).
    destruct (nib_load g) as [v|e]; [|done]. cbn [Py.bind].
    destruct (_ <? _); [by left | by right].
Qed.

(** X2.  A pair needs an input file: with an empty list of input file
    names the constructor never returns, and without ground truth the
    error is the [IndexError] of [input_shape[0]]. *)
Theorem pair_needs_an_input_file gts md cache canonical :
  raises (Pair.__init__ [] gts md cache canonical)
  ∧ Pair.__init__ [] None md cache canonical = Raise IndexError.
Proof.
  split; [|reflexivity].
  unfold Pair.__init__, Pair.load_handles. cbn [map_each Py.bind].
  destruct (match gts with Some _ => _ | None => _ end) as [gh|e]; [|done].
  cbn [Py.bind]. unfold Pair.sanity_check, Pair.get_pair_shapes.
  cbn [Pair.input_handle Pair.gt_handle Pair.input_shapes Py.bind].
  rewrite gt_shapes_total. done.
Qed.

Lemma load_inputs ins hs :
  Forall2 (λ f h, nib_load f = Ok h ∧ (length (nii_shape h) ≤ 3)%nat) ins hs →
  map_each ins (λ input_file,
      let? input_img := nib_load input_file in
      if 3 <? Z.of_nat (length (nii_shape input_img)) then
        Raise (RuntimeError "4-dimensional volumes not supported.")
      else Ok input_img) = Ok hs.
Proof.
  induction 1 as [|f h ins hs [Hf Hd] _ IH]; [done|].
  cbn [map_each]. rewrite Hf. cbn [Py.bind].
  destruct (Z.ltb_spec 3 (Z.of_nat (length (nii_shape h)))); [lia|].
  cbn [Py.bind]. by rewrite IH.
Qed.

Lemma load_absent_ground_truths n :
  map_each (replicate n (@None string)) (λ gt,
      match gt with
      | Some f => let? h := nib_load f in Ok (Some h)
      | None => Ok None
      end) = Ok (replicate n None).
Proof. induction n as [|n IH]; [done|]. cbn [replicate map_each Py.bind]. by rewrite IH. Qed.

Lemma present_shapes_absent n : present_shapes (replicate n None) = [].
Proof. induction n; [done|]. done. Qed.

(** X3.  Unlabeled data must be given as [gt_filenames=None]: a list of
    ground-truth names that holds only [None] entries makes the
    constructor compare the input shape with [None], a [TypeError], while
    the same inputs with [gt_filenames=None] are accepted. *)
Theorem absent_ground_truths_rejected ins hs n md cache canonical :
  ins ≠ [] →
  Forall2 (λ f h, nib_load f = Ok h ∧ (length (nii_shape h) ≤ 3)%nat) ins hs →
  Pair.__init__ ins (Some (replicate n None)) md cache canonical = Raise TypeError
  ∧ returns (Pair.__init__ ins None md cache canonical).
Proof.
  intros Hne Hload. pose proof (load_inputs _ _ Hload) as Hin.
  destruct hs as [|h hs]; [by inversion Hload; subst|].
  unfold Pair.__init__, Pair.load_handles. rewrite Hin. cbn [Py.bind].
  rewrite load_absent_ground_truths. cbn [Py.bind].
  unfold Pair.sanity_check.
  rewrite !(get_pair_shapes_first _ h hs) by reflexivity.
  cbn [Pair.gt_handle Pair.gt_filenames Py.bind].
  rewrite present_shapes_absent. split; reflexivity.
Qed.

End PairConstruction.

(** ** Slices of a volume pair *)

Lemma first_gt_filenames_falsy p :
  Pair.metadata_truthy (Pair.metadata p) = false →
  raises (Pair.first_gt_filenames p).
Proof.
  unfold Pair.first_gt_filenames. by destruct (Pair.metadata p) as [[|m l]|].
Qed.

(** A ground truth that is present makes [get_pair_slice] read
    [self.metadata[0]]. *)
Lemma labelled_slice_needs_metadata p g k axis :
  Pair.metadata_truthy (Pair.metadata p) = false →
  Some g ∈ Pair.gt_handle p →
  raises (Pair.get_pair_slice p k axis).
Proof.
  intros Hmd Hg. unfold Pair.get_pair_slice.
  destruct (if Pair.cache p then _ else _) as [[ins gts]|e]; [|done].
  cbn [Py.bind]. destruct (negb _); [done|].
  destruct (for_each ins _) as [input_slices|e]; [|done]. cbn [Py.bind].
  destruct (for_each gts _) as [gt_slices|e]; [|done]. cbn [Py.bind].
  apply raises_bind_l. apply (map_each_raises_at _ _ (Some g)); [done|].
  apply raises_bind_l. by apply first_gt_filenames_falsy.
Qed.

Section LabelledGroups.
Context `{Nibabel}.

Lemma loaded_ground_truth ins gts ih gh f :
  Pair.load_handles ins (Some gts) = Ok (ih, gh) → Some f ∈ gts →
  ∃ g, Some g ∈ gh.
Proof.
  unfold Pair.load_handles. intros Hl Hf.
  apply bind_ok in Hl as (ih' & _ & Hl).
  apply bind_ok in Hl as (gh' & Hgh & [= _ <-]).
  apply map_each_ok in Hgh.
  apply list_elem_of_lookup in Hf as [i Hi].
  destruct (Forall2_lookup_l _ _ _ _ _ Hgh Hi) as (y & Hy & Hfy).
  apply bind_ok in Hfy as (h & _ & [= <-]).
  exists h. by eapply list_elem_of_lookup_2.
Qed.

Lemma init_ground_truth ins gts md cache canonical p f :
  Pair.__init__ ins (Some gts) md cache canonical = Ok p → Some f ∈ gts →
  Pair.metadata_truthy md = false →
  Pair.metadata_truthy (Pair.metadata p) = false ∧ ∃ g, Some g ∈ Pair.gt_handle p.
Proof.
  intros Hp Hf Hmd. destruct (init_steps _ _ _ _ _ _ Hp) as (ih & gh & Hl & _ & ->).
  destruct (loaded_ground_truth _ _ _ _ _ Hl Hf) as [g Hg].
  unfold Pair.attach_filenames, Pair.canonicalize.
  cbn [Pair.canonical Pair.metadata Pair.with_handles Pair.gt_filenames
       Pair.input_handle Pair.gt_handle].
  destruct canonical;
    cbn [Pair.canonical Pair.metadata Pair.with_handles Pair.gt_filenames
         Pair.input_handle Pair.gt_handle]; rewrite Hmd;
    cbn [Pair.canonical Pair.metadata Pair.with_handles Pair.gt_filenames
         Pair.input_handle Pair.gt_handle]; (split; [done|]).
  - exists (as_closest_canonical g).
    exact (list_elem_of_fmap_2 (fmap (M := option) as_closest_canonical) _ _ Hg).
  - by exists g.
Qed.

Lemma range_positive n : 0 < n → ∃ rest, Py.range n = 0 :: rest.
Proof.
  intros Hn. unfold Py.range. destruct (Z.to_nat n) eqn:E; [lia|].
  by eexists.
Qed.

(** X4.  A group that names a ground-truth file needs metadata records:
    with [metadata] [None] or empty, and at least one slice position, the
    2D dataset cannot be built, because every slice of a labelled pair
    reads [self.metadata[0]["gt_filenames"]]. *)
Theorem labelled_group_needs_metadata fp axis cache tr filter canonical g gts f :
  g ∈ fp → g_gt g = Some gts → Some f ∈ gts →
  Pair.metadata_truthy (g_metadata g) = false →
  0 < group_extent cache canonical axis g →
  raises (Slices.__init__ fp axis cache tr filter canonical).
Proof.
  intros Hg Hgt Hf Hmd Hext. unfold Slices.__init__.
  destruct (index fp 0) as [g0|e]; [|done]. cbn [Py.bind].
  unfold Slices._load_filenames.
  cbn [Slices.cache Slices.canonical Slices.slice_axis Slices.slice_filter_fn
       Slices.filename_pairs].
  apply raises_bind_l. apply list_elem_of_lookup in Hg as [i Hi].
  apply (for_each_raises_at _ _ i g Hi).
  unfold Slices.load_group.
  destruct (Pair.__init__ (g_input g) (g_roi g) _ _ _) as [roi|e]; [|done].
  cbn [Py.bind]. unfold group_extent, seg_pair_of in Hext.
  destruct (Pair.__init__ (g_input g) (g_gt g) _ _ _) as [seg|e] eqn:Hseg; [|lia].
  cbn [Py.bind].
  destruct (Pair.get_pair_shapes seg) as [[shape gshape]|e]; [|lia].
  cbn [Py.bind]. destruct (index shape axis) as [n|e]; [|lia]. cbn [Py.bind].
  destruct (range_positive n ltac:(lia)) as [rest ->].
  cbn [Slices.load_slices]. apply raises_bind_l.
  rewrite Hgt in Hseg.
  destruct (init_ground_truth _ _ _ _ _ _ _ Hseg Hf Hmd) as [Hmd' [h Hh]].
  by apply (labelled_slice_needs_metadata seg h).
Qed.

End LabelledGroups.

(** X5.  A ground-truth entry that is [None] is handled when the pair
    caches its data, and only then: without the cache every call of
    [get_pair_slice] raises [AttributeError] ([None] has no [dataobj]);
    with the cache, [get_pair_data] returns and puts an all-zero volume
    of the shape of the first input in the place of the missing ground
    truth. *)
Theorem missing_ground_truth_needs_cache p :
  None ∈ Pair.gt_handle p →
  (Pair.cache p = false →
   ∀ k axis, Pair.get_pair_slice p k axis = Raise AttributeError)
  ∧ (∀ h0 hs, Pair.input_handle p = h0 :: hs →
     ∃ gts, Pair.get_pair_data p = Ok (get_fdata <$> (h0 :: hs), gts)
       ∧ ∀ c, Pair.gt_handle p !! c = Some None →
              gts !! c = Some (np_zeros (nii_shape h0))).
Proof.
  intros Hnone. split.
  - intros Hc k axis. unfold Pair.get_pair_slice. rewrite Hc.
    rewrite (map_each_raises_first _ _ None AttributeError); [done|done|done|].
    intros [g|] _; [by right | by left].
  - intros h0 hs Hin. unfold Pair.get_pair_data. rewrite Hin.
    assert (index (h0 :: hs) 0 = Ok h0) as Hfirst by reflexivity.
    destruct (map_each (Pair.gt_handle p) _) as [gts|e] eqn:E.
    + exists gts. split; [done|]. intros c Hc.
      destruct (map_each_lookup _ _ _ _ _ E Hc) as (y & Hy & Hfy).
      rewrite Hfirst in Hfy. by injection Hfy as <-.
    + exfalso.
      assert (returns (map_each (Pair.gt_handle p) (λ gt,
                match gt with
                | Some g => Ok (get_fdata g)
                | None => let? h0 := index (h0 :: hs) 0 in Ok (np_zeros (nii_shape h0))
                end))) as Hr.
      { apply map_each_total. intros [g|] _; [done|]. by rewrite Hfirst. }
      by rewrite E in Hr.
Qed.

Lemma for_each_singletons {A B} (l : list A) (f : A → result (list B))
    (g : A → result B) ys :
  for_each l f = Ok ys →
  (∀ x y, f x = Ok y → ∃ b, y = [b] ∧ g x = Ok b) →
  Forall2 (λ x b, g x = Ok b) l ys.
Proof.
  revert ys. induction l as [|x l IH]; cbn [for_each]; intros ys Hys Hf.
  - injection Hys as <-. constructor.
  - apply bind_ok in Hys as (y & Hy & Hys).
    apply bind_ok in Hys as (rest & Hrest & [= <-]).
    destruct (Hf _ _ Hy) as (b & -> & Hb). cbn [app].
    constructor; [done|]. by apply IH.
Qed.

Lemma slice_inputs p k axis sl p' :
  Pair.get_pair_slice p k axis = Ok (sl, p') →
  (axis = 0 ∨ axis = 1 ∨ axis = 2)
  ∧ for_each (get_fdata <$> Pair.input_handle p) (λ d, Pair.slice_of d k axis)
    = Ok (ps_input sl)
  ∧ ps_input_metadata sl
    = (if Pair.metadata_truthy (Pair.metadata p) then
         imap (λ idx im,
                 match ((λ m : metadict, <["slice_index"%string := MInt k]> m)
                          <$> default [] (Pair.metadata p)) !! idx with
                 | Some m => m ∪ im
                 | None => im
                 end)
       else id)
        ((λ handle, <["data_shape"%string := MInts (take 2 (nii_shape handle))]>
                      (<["zooms"%string := MFloats (take 2 (nii_zooms handle))]>
                         (∅ : metadict))) <$> Pair.input_handle p).
Proof.
  unfold Pair.get_pair_slice. intros Hs.
  apply bind_ok in Hs as ([ins gts] & Hdata & Hs).
  assert (ins = get_fdata <$> Pair.input_handle p) as ->.
  { destruct (Pair.cache p).
    - unfold Pair.get_pair_data in Hdata.
      apply bind_ok in Hdata as (g & _ & [= <- _]). done.
    - apply bind_ok in Hdata as (g & _ & [= <- _]). done. }
  destruct (negb _) eqn:Hax; [discriminate|].
  apply negb_false_iff in Hax. rewrite !orb_true_iff, !Z.eqb_eq in Hax.
  apply bind_ok in Hs as (input_slices & Hin & Hs).
  apply bind_ok in Hs as (gt_slices & _ & Hs).
  apply bind_ok in Hs as (gt_meta_dict & _ & Hs).
  split; [lia|].
  destruct (Pair.metadata_truthy (Pair.metadata p)).
  - destruct (_ <? _)%nat; [discriminate|]. injection Hs as <- _. done.
  - injection Hs as <- _. done.
Qed.

Lemma slice_of_plane d k axis ys :
  (axis = 0 ∨ axis = 1 ∨ axis = 2) → length (nd_shape d) = 3%nat →
  Pair.slice_of d k axis = Ok ys →
  ∃ a, ys = [a] ∧ take_index d (Z.to_nat axis) k = Ok a.
Proof.
  intros Hax Hlen. unfold Pair.slice_of. rewrite Hlen.
  destruct Hax as [-> | [-> | ->]]; cbn [Z.eqb Z.to_nat Pos.to_nat Pos.iter_op Nat.add
                                       Nat.sub];
    intros Hs; apply bind_ok in Hs as (a & Ha & [= <-]); by exists a.
Qed.

Lemma slice_of_single d k axis ys :
  (axis = 0 ∨ axis = 1 ∨ axis = 2) → Pair.slice_of d k axis = Ok ys →
  ∃ a, ys = [a].
Proof.
  intros Hax. unfold Pair.slice_of.
  destruct Hax as [-> | [-> | ->]]; cbn [Z.eqb];
    intros Hs; apply bind_ok in Hs as (a & Ha & [= <-]); by exists a.
Qed.

Lemma lookup_metadata_merge (md : list metadict) (ims : list metadict) c im k :
  ims !! c = Some im →
  (∀ m, m ∈ md → m !! "data_shape"%string = None) →
  ∃ m,
    imap (λ idx im,
            match ((λ m : metadict, <["slice_index"%string := MInt k]> m) <$> md)
                    !! idx with
            | Some m => m ∪ im
            | None => im
            end) ims !! c = Some m
    ∧ m !! "data_shape"%string = im !! "data_shape"%string.
Proof.
  intros Hc Hmd. rewrite list_lookup_imap, Hc. cbn [fmap option_fmap option_map].
  rewrite list_lookup_fmap.
  destruct (md !! c) as [m0|] eqn:Hm0; cbn [fmap option_fmap option_map].
  - eexists. split; [reflexivity|].
    rewrite lookup_union_r; [done|].
    rewrite lookup_insert_ne by done. apply Hmd.
    by eapply list_elem_of_lookup_2.
  - by eexists.
Qed.

(** X6.  What [get_pair_slice] returns for a three-dimensional input
    channel: the plane at position [k] along the slicing axis (a negative
    [k] counts from the end), of the shape of the volume without that
    axis; and, unless a metadata record of the pair carries its own
    [data_shape], the [data_shape] of the channel's metadata is the
    first two entries of the volume's shape whatever the slicing axis. *)
Theorem slice_of_a_volume p k axis sl p' c h s0 s1 s2 :
  Pair.get_pair_slice p k axis = Ok (sl, p') →
  Pair.input_handle p !! c = Some h → nii_shape h = [s0; s1; s2] →
  (∀ m, m ∈ default [] (Pair.metadata p) → m !! "data_shape"%string = None) →
  ∃ a m,
    0 ≤ axis ≤ 2
    ∧ ps_input sl !! c = Some a
    ∧ nd_shape a = delete (Z.to_nat axis) [s0; s1; s2]
    ∧ (let n := entry [s0; s1; s2] (Z.to_nat axis) in
       - n ≤ k < n
       ∧ ∀ i1 i2,
           nd_at a [i1; i2]
           = nii_data h (take (Z.to_nat axis) [i1; i2]
                         ++ (if k <? 0 then k + n else k)
                         :: drop (Z.to_nat axis) [i1; i2]))
    ∧ ps_input_metadata sl !! c = Some m
    ∧ m !! "data_shape"%string = Some (MInts [s0; s1]).
Proof.
  intros Hs Hc Hshape Hmd.
  destruct (slice_inputs _ _ _ _ _ Hs) as (Hax & Hin & Hmeta).
  pose (g := λ d, match Pair.slice_of d k axis with
                  | Ok [b] => Ok b
                  | _ => Raise IndexError
                  end).
  assert (Forall2 (λ d a, g d = Ok a)
            (get_fdata <$> Pair.input_handle p) (ps_input sl)) as HF.
  { apply (for_each_singletons _ _ g _ Hin). intros d y Hy.
    destruct (slice_of_single _ _ _ _ Hax Hy) as [b ->]. exists b.
    split; [done|]. unfold g. by rewrite Hy. }
  assert ((get_fdata <$> Pair.input_handle p) !! c = Some (get_fdata h)) as Hd
    by (by rewrite list_lookup_fmap, Hc).
  destruct (Forall2_lookup_l _ _ _ _ _ HF Hd) as (a & Ha & Hga).
  unfold g in Hga.
  destruct (Pair.slice_of (get_fdata h) k axis) as [[|b [|? ?]]|e] eqn:Hsl;
    try discriminate. injection Hga as ->.
  assert (take_index (get_fdata h) (Z.to_nat axis) k = Ok a) as Htake.
  { unfold Pair.slice_of in Hsl. cbn [get_fdata nd_shape] in Hsl.
    rewrite Hshape in Hsl.
    destruct Hax as [-> | [-> | ->]]; cbn [Z.eqb] in Hsl;
      apply bind_ok in Hsl as (a' & Ha' & [= <-]); exact Ha'. }
  assert (∃ m, ps_input_metadata sl !! c = Some m
               ∧ m !! "data_shape"%string = Some (MInts [s0; s1]))
    as (m & Hm & Hds).
  { rewrite Hmeta.
    set (ims := (λ handle, <["data_shape"%string := MInts (take 2 (nii_shape handle))]>
                      (<["zooms"%string := MFloats (take 2 (nii_zooms handle))]>
                         (∅ : metadict))) <$> Pair.input_handle p).
    assert (ims !! c
            = Some (<["data_shape"%string := MInts [s0; s1]]>
                      (<["zooms"%string := MFloats (take 2 (nii_zooms h))]>
                         (∅ : metadict)))) as Him.
    { unfold ims. rewrite list_lookup_fmap, Hc. simpl. by rewrite Hshape. }
    destruct (Pair.metadata_truthy (Pair.metadata p)).
    - destruct (lookup_metadata_merge (default [] (Pair.metadata p)) ims c _ k
                  Him Hmd) as (m & Hm & Hds).
      exists m. split; [exact Hm|]. rewrite Hds. by rewrite lookup_insert_eq.
    - eexists. split; [exact Him|]. by rewrite lookup_insert_eq. }
  exists a, m. split; [lia|]. split; [exact Ha|].
  unfold take_index in Htake. cbn [get_fdata nd_shape nd_at] in Htake.
  rewrite Hshape in Htake. unfold entry.
  destruct ([s0; s1; s2] !! Z.to_nat axis) as [n|] eqn:Hn;
    [|destruct Hax as [-> | [-> | ->]]; discriminate].
  cbn [default]. cbv zeta in Htake.
  destruct ((0 <=? (if k <? 0 then k + n else k))
            && ((if k <? 0 then k + n else k) <? n)) eqn:Hrange; [|discriminate].
  injection Htake as <-. cbn [nd_shape nd_at].
  apply andb_true_iff in Hrange as [H0 H1].
  apply Z.leb_le in H0. apply Z.ltb_lt in H1.
  split; [reflexivity|]. split; [|done]. cbv zeta. split; [|reflexivity].
  revert H0 H1. unfold id. destruct (Z.ltb_spec k 0); lia.
Qed.

(** ** The entries of the slice index *)

Lemma with_metadata_twice p a b :
  Pair.with_metadata (Pair.with_metadata p a) b = Pair.with_metadata p b.
Proof. reflexivity. Qed.

Lemma load_slices_entries filter axis seg0 roi0 positions :
  ∀ seg roi items,
    seg = Pair.with_metadata seg0 (Pair.metadata seg) →
    unstamp (Pair.metadata seg) = unstamp (Pair.metadata seg0) →
    roi = Pair.with_metadata roi0 (Pair.metadata roi) →
    Slices.load_slices filter axis seg roi positions = Ok items →
    Forall2 (λ idx item,
        slice_at seg0 axis idx = Ok (fst item)
        ∧ slice_at (Pair.with_metadata roi0 (Pair.metadata seg0)) axis idx
          = Ok (snd item))
      (List.filter (λ idx, negb (rejected filter axis seg0 idx)) positions) items.
Proof.
  induction positions as [|idx positions IH]; intros seg roi items Hseg Hmd Hroi Hl.
  { injection Hl as <-. constructor. }
  cbn [Slices.load_slices] in Hl.
  apply bind_ok in Hl as ([sl seg1] & Hsl & Hl).
  destruct (get_pair_slice_metadata _ _ _ _ _ Hsl) as [Hmd1 Hseg1].
  assert (Pair.get_pair_slice seg0 idx axis = Ok (sl, seg1)) as Hsl0.
  { pose proof (get_pair_slice_unstamp seg0 (Pair.metadata seg) idx axis Hmd)
      as Hu.
    rewrite <- Hseg in Hu. by rewrite <- Hu. }
  assert (Hseg1' : seg1 = Pair.with_metadata seg0 (Pair.metadata seg1)).
  { destruct (get_pair_slice_metadata _ _ _ _ _ Hsl0) as [_ Hs0]. exact Hs0. }
  assert (Hmd1' : unstamp (Pair.metadata seg1) = unstamp (Pair.metadata seg0))
    by congruence.
  cbn [List.filter]. unfold rejected at 1. rewrite Hsl0.
  destruct (Slices.skipped filter sl) eqn:Hskip; cbn [negb].
  - eapply IH; [exact Hseg1' | exact Hmd1' | | exact Hl].
    rewrite Hroi at 1. reflexivity.
  - apply bind_ok in Hl as ([slr roi1] & Hslr & Hl).
    apply bind_ok in Hl as (rest & Hrest & [= <-]).
    rewrite Hroi, with_metadata_twice in Hslr.
    pose proof (get_pair_slice_unstamp
                  (Pair.with_metadata roi0 (Pair.metadata seg0))
                  (Pair.metadata seg1) idx axis Hmd1') as Hu.
    rewrite with_metadata_twice in Hu. rewrite Hu in Hslr.
    destruct (get_pair_slice_metadata _ _ _ _ _ Hslr) as [Hmdr Hroi1].
    cbn [Pair.metadata Pair.with_metadata] in Hmdr.
    constructor.
    + cbn [fst snd]. unfold slice_at. by rewrite Hsl0, Hslr.
    + eapply IH; [| | |exact Hrest].
      * rewrite Hseg1' at 1. reflexivity.
      * cbn [Pair.metadata Pair.with_metadata]. congruence.
      * rewrite Hroi1 at 1. reflexivity.
Qed.

Section SliceEntries.
Context `{Nibabel}.

Lemma load_group_entries cache canonical axis filter g items :
  Slices.load_group cache canonical axis filter g = Ok items →
  ∃ seg roi,
    seg_pair_of cache canonical g = Ok seg
    ∧ roi_pair_of cache canonical g = Ok roi
    ∧ Forall2 (λ idx item,
          slice_at seg axis idx = Ok (fst item)
          ∧ slice_at (Pair.with_metadata roi (Pair.metadata seg)) axis idx
            = Ok (snd item))
        (kept_positions cache canonical axis filter seg g) items.
Proof.
  unfold Slices.load_group. intros Hg.
  apply bind_ok in Hg as (roi & Hroi & Hg).
  apply bind_ok in Hg as (seg & Hseg & Hg).
  apply bind_ok in Hg as ([shape gshape] & Hshape & Hg).
  apply bind_ok in Hg as (extent & Hext & Hg).
  exists seg, roi. split; [exact Hseg|]. split; [exact Hroi|].
  unfold kept_positions, group_extent, seg_pair_of. rewrite Hseg, Hshape, Hext.
  replace (Py.range (Z.max 0 extent)) with (Py.range extent)
    by (unfold Py.range; f_equal; lia).
  apply (load_slices_entries filter axis seg roi (Py.range extent) seg
           (Pair.with_metadata roi (Pair.metadata seg)) items);
    [by rewrite with_metadata_id | reflexivity | reflexivity | exact Hg].
Qed.

(** X7.  The index of the 2D dataset, entry by entry: group by group, in
    order, one entry for every slice position of the group that the
    predicate keeps, in increasing order; the entry holds the slice of the
    input/ground-truth pair at that position and the slice of the
    input/region-of-interest pair at the same position (the two pairs
    share their metadata records). *)
Theorem slice_index_entries fp axis cache tr filter canonical ds :
  Slices.__init__ fp axis cache tr filter canonical = Ok ds →
  ∃ per_group,
    Slices.indexes ds = concat per_group
    ∧ Forall2 (λ g items,
          ∃ seg roi,
            seg_pair_of cache canonical g = Ok seg
            ∧ roi_pair_of cache canonical g = Ok roi
            ∧ Forall2 (λ idx item,
                  slice_at seg axis idx = Ok (fst item)
                  ∧ slice_at (Pair.with_metadata roi (Pair.metadata seg)) axis idx
                    = Ok (snd item))
                (kept_positions cache canonical axis filter seg g) items)
        fp per_group.
Proof.
  unfold Slices.__init__, Slices._load_filenames. intros Hds.
  apply bind_ok in Hds as (g0 & _ & Hds).
  apply bind_ok in Hds as (items & Hitems & [= <-]).
  cbn [Slices.cache Slices.canonical Slices.slice_axis Slices.slice_filter_fn
       Slices.filename_pairs Slices.indexes Slices.with_indexes app] in *.
  apply for_each_ok in Hitems as (per_group & HF & ->).
  exists per_group. split; [reflexivity|].
  eapply Forall2_impl; [exact HF|]. intros g its Hg.
  by apply load_group_entries.
Qed.

End SliceEntries.

(** ** Items of the 2D dataset *)

Lemma entry_dict_settled e : entry_dict (settled e) = entry_dict e.
Proof.
  destruct e as [seg roi]. unfold entry_dict, settled.
  destruct (length (ps_gt roi) =? 0)%nat eqn:E; [|by rewrite E].
  cbn [ps_gt ps_gt_metadata]. rewrite E. done.
Qed.

Lemma settled_idem e : settled (settled e) = settled e.
Proof.
  destruct e as [seg roi]. unfold settled.
  destruct (length (ps_gt roi) =? 0)%nat eqn:E; [|by rewrite E].
  cbn [ps_gt]. by rewrite E.
Qed.

Lemma getitem_sample ds i :
  snd (Slices.__getitem__ ds i)
  = let? e := index (Slices.indexes ds) i in entry_sample (Slices.transform ds) e.
Proof.
  unfold Slices.__getitem__, entry_sample, entry_dict.
  destruct (index (Slices.indexes ds) i) as [[seg roi]|e]; [|done].
  cbn [Py.bind].
  destruct (map_each (ps_input seg) _) as [ins|e]; [|done]. cbn [Py.bind].
  destruct (map_each (ps_gt seg) _) as [gts|e]; [|done]. cbn [Py.bind snd].
  destruct (length (ps_gt roi) =? 0)%nat eqn:E; cbn [ps_gt ps_gt_metadata].
  - destruct (map_each (ps_gt roi) _) as [rois|e]; [|done]. done.
  - destruct (map_each (ps_gt roi) _) as [rois|e]; [|done]. done.
Qed.

Lemma getitem_dataset ds i :
  fst (Slices.__getitem__ ds i) = ds
  ∨ ∃ e, index (Slices.indexes ds) i = Ok e
       ∧ fst (Slices.__getitem__ ds i)
         = Slices.with_indexes ds
             (<[Slices.position ds i := settled e]> (Slices.indexes ds)).
Proof.
  unfold Slices.__getitem__.
  destruct (index (Slices.indexes ds) i) as [[seg roi]|e]; [|by left].
  destruct (let? input_tensors := _ in _) as [[ins gts]|e]; [|by left].
  right. exists (seg, roi). split; [done|]. cbn [fst]. done.
Qed.

Lemma index_fmap {A B} (f : A → B) (l : list A) i :
  index (f <$> l) i = let? x := index l i in Ok (f x).
Proof.
  unfold index. rewrite length_fmap, list_lookup_fmap.
  destruct (_ && _); [|done]. by destruct (l !! _).
Qed.

Lemma entry_sample_settled tr e : entry_sample tr (settled e) = entry_sample tr e.
Proof. unfold entry_sample. by rewrite entry_dict_settled. Qed.

Lemma same_items_sample ds ds' j :
  same_items ds ds' →
  snd (Slices.__getitem__ ds j) = snd (Slices.__getitem__ ds' j).
Proof.
  intros [Htr Hix]. rewrite !getitem_sample, <- Htr.
  pose proof (index_fmap settled (Slices.indexes ds) j) as H1.
  pose proof (index_fmap settled (Slices.indexes ds') j) as H2.
  rewrite Hix, H2 in H1.
  destruct (index (Slices.indexes ds) j) as [e|err],
    (index (Slices.indexes ds') j) as [e'|err']; cbn [Py.bind] in *;
    try discriminate.
  - injection H1 as H1. by rewrite <- entry_sample_settled, <- H1, entry_sample_settled.
  - congruence.
Qed.

Lemma index_ok_position {A} (l : list A) i x :
  index l i = Ok x →
  l !! Z.to_nat (if i <? 0 then i + Z.of_nat (length l) else i) = Some x.
Proof.
  unfold index. destruct (_ && _); [|discriminate].
  destruct (l !! _) as [y|]; [|discriminate]. congruence.
Qed.

Lemma getitem_same_items ds i : same_items ds (fst (Slices.__getitem__ ds i)).
Proof.
  split; [by rewrite getitem_transform|].
  destruct (getitem_dataset ds i) as [->|(e & He & ->)]; [done|].
  cbn [Slices.indexes Slices.with_indexes].
  apply index_ok_position in He.
  rewrite list_fmap_insert, settled_idem. symmetry. apply list_insert_id.
  rewrite list_lookup_fmap. unfold Slices.position, Slices.__len__.
  by rewrite He.
Qed.

Lemma same_items_length ds ds' :
  same_items ds ds' → Slices.__len__ ds = Slices.__len__ ds'.
Proof.
  intros [_ Hix]. unfold Slices.__len__.
  by rewrite <- (length_fmap settled), Hix, length_fmap.
Qed.

(** X8.  [__getitem__] writes into the index (an entry without
    region-of-interest planes gets its [gt_metadata] set to [None]), but
    nothing a caller can read changes: the length of the dataset and the
    result of every later access are what they were before. *)
Theorem getitem_leaves_items_unchanged ds i j :
  Slices.__len__ (fst (Slices.__getitem__ ds i)) = Slices.__len__ ds
  ∧ snd (Slices.__getitem__ (fst (Slices.__getitem__ ds i)) j)
    = snd (Slices.__getitem__ ds j).
Proof.
  pose proof (getitem_same_items ds i) as Hs. split.
  - symmetry. by apply same_items_length.
  - symmetry. by apply same_items_sample.
Qed.

(** X9.  Indexing the 2D dataset follows the list it wraps: an index in
    [-len, 0) reads the item [len] positions further, and every index
    outside [-len, len) raises [IndexError] and leaves the dataset as it
    was. *)
Theorem getitem_index_range ds i :
  (- Slices.__len__ ds ≤ i < 0 →
   Slices.__getitem__ ds i = Slices.__getitem__ ds (i + Slices.__len__ ds))
  ∧ (i < - Slices.__len__ ds ∨ Slices.__len__ ds ≤ i →
     Slices.__getitem__ ds i = (ds, Raise IndexError)).
Proof.
  unfold Slices.__getitem__, Slices.position, index, Slices.__len__.
  set (n := Z.of_nat (length (Slices.indexes ds))). split.
  - intros Hi.
    destruct (Z.ltb_spec i 0); [|lia].
    destruct (Z.ltb_spec (i + n) 0); [lia|]. done.
  - intros Hi. cbv zeta.
    destruct (Z.ltb_spec i 0).
    + destruct (Z.leb_spec 0 (i + n)); [lia|]. done.
    + destruct (Z.ltb_spec i n); [lia|]. by rewrite andb_false_r.
Qed.

Lemma to_uint8_binary v : (v == 0 ∨ v == 1)%Q → (to_uint8 v / 255 == v)%Q.
Proof.
  unfold to_uint8. cbv zeta. intros [Hv|Hv].
  - assert (v * 255 == 0)%Q as Hs by (rewrite Hv; reflexivity).
    assert (Qle_bool 0 (v * 255) = true) as ->
      by (apply Qle_bool_iff; rewrite Hs; apply Qle_refl).
    rewrite Hs, Hv. reflexivity.
  - assert (v * 255 == 255)%Q as Hs by (rewrite Hv; reflexivity).
    assert (Qle_bool 0 (v * 255) = true) as ->
      by (apply Qle_bool_iff; rewrite Hs; discriminate).
    rewrite Hs, Hv. reflexivity.
Qed.

(** X10.  With [ToTensor] as the dataset's transform, a ground-truth plane
    comes back as a [1 x h x w] tensor, and where the plane holds 0 or 1
    the tensor holds the same value: the conversion to an 8-bit image
    (times 255) and back (divided by 255) loses nothing on a binary
    mask. *)
Theorem binary_mask_survives_to_tensor ds i seg roi smp c a :
  Slices.transform ds = Some (Stage (ToTensor true)) →
  index (Slices.indexes ds) i = Ok (seg, roi) →
  snd (Slices.__getitem__ ds i) = Ok smp →
  ps_gt seg !! c = Some a →
  ∃ ts t hh ww,
    gt smp = FMany ts ∧ ts !! c = Some (Arr t)
    ∧ nd_shape a = [hh; ww] ∧ nd_shape t = [1; hh; ww]
    ∧ ∀ y x : Z, Qeq (nd_at a [y; x]) 0 ∨ Qeq (nd_at a [y; x]) 1 →
             Qeq (nd_at t [0; y; x]) (nd_at a [y; x]).
Proof.
  intros Htr He Hsmp Ha. rewrite getitem_sample, He, Htr in Hsmp.
  cbn [Py.bind] in Hsmp. unfold entry_sample in Hsmp.
  apply bind_ok in Hsmp as (d & Hd & Hsmp).
  unfold entry_dict in Hd.
  apply bind_ok in Hd as (ins & _ & Hd).
  apply bind_ok in Hd as (gts & Hgts & Hd).
  apply bind_ok in Hd as (rois & _ & [= <-]).
  cbn [apply_transform stage_call ToTensor] in Hsmp.
  unfold ToTensor.call in Hsmp. cbn [input gt] in Hsmp.
  apply bind_ok in Hsmp as (ret_input & _ & Hsmp).
  apply bind_ok in Hsmp as (ts & Hts & [= <-]).
  destruct (map_each_lookup _ _ _ _ _ Hgts Ha) as (g & Hg & Hfa).
  apply bind_ok in Hfa as (im & Him & [= <-]).
  destruct (map_each_lookup _ _ _ _ _ Hts Hg) as (t & Ht & Hft).
  unfold Image_fromarray in Him. cbn [scale_uint8 nd_shape] in Him.
  destruct (nd_shape a) as [|hh [|ww [|? ?]]] eqn:Hshape; try discriminate.
  injection Him as <-. cbn in Hft. injection Hft as <-.
  eexists ts, _, hh, ww. split; [reflexivity|]. split; [exact Ht|].
  split; [reflexivity|]. split; [reflexivity|].
  intros y x Hb. cbn. by apply to_uint8_binary.
Qed.

(** X11.  [CenterCrop2D] cannot be the first transform of the 2D
    dataset: [__getitem__] passes the input as a list of channels, and
    the crop starts by reading [input_data.size].  No access returns, and
    every entry of the index that converts to images fails with
    [AttributeError]. *)
Theorem center_crop_rejects_channel_lists ds size labeled ts i :
  (Slices.transform ds = Some (Stage (CenterCrop2D size labeled))
   ∨ Slices.transform ds = Some (Compose (CenterCrop2D size labeled :: ts))) →
  raises (snd (Slices.__getitem__ ds i))
  ∧ ∀ e d, index (Slices.indexes ds) i = Ok e → entry_dict e = Ok d →
      snd (Slices.__getitem__ ds i) = Raise AttributeError.
Proof.
  intros Htr.
  assert (∀ d e, entry_dict e = Ok d →
            entry_sample (Slices.transform ds) e = Raise AttributeError) as Hcrop.
  { intros d [seg roi] Hd. unfold entry_sample. rewrite Hd. cbn [Py.bind].
    unfold entry_dict in Hd.
    apply bind_ok in Hd as (ins & _ & Hd).
    apply bind_ok in Hd as (gts & _ & Hd).
    apply bind_ok in Hd as (rois & _ & [= <-]).
    by destruct Htr as [-> | ->]. }
  rewrite getitem_sample. split.
  - destruct (index (Slices.indexes ds) i) as [e|err]; [|done]. cbn [Py.bind].
    destruct (entry_dict e) as [d|err] eqn:Hd.
    + by rewrite (Hcrop d e Hd).
    + unfold entry_sample. by rewrite Hd.
  - intros e d -> Hd. cbn [Py.bind]. by apply (Hcrop d).
Qed.

(** ** What [compute_mean_std] computes *)

Lemma same_items_trans a b c : same_items a b → same_items b c → same_items a c.
Proof. intros [? ?] [? ?]. split; congruence. Qed.

Lemma iterate_fold {S : Type} (body : sample → S → result S) ds smps :
  ∀ m i ds' acc,
    same_items ds ds' → (i + m = length (Slices.indexes ds))%nat →
    Forall2 (λ k smp, snd (Slices.__getitem__ ds (Z.of_nat k)) = Ok smp)
      (seq i m) smps →
    snd (Slices.iterate (Datatypes.S m) (Z.of_nat i) ds' acc body)
    = fold_samples body smps acc
    ∧ same_items ds (fst (Slices.iterate (Datatypes.S m) (Z.of_nat i) ds' acc body)).
Proof.
  intros m. revert smps. induction m as [|m IH]; intros smps i ds' acc Hsame Hlen HF.
  - inversion HF; subst. cbn [Slices.iterate fold_samples].
    destruct (getitem_index_range ds' (Z.of_nat i)) as [_ Hout].
    rewrite Hout; [done|].
    right. rewrite <- (same_items_length _ _ Hsame). unfold Slices.__len__. lia.
  - cbn [seq] in HF. inversion HF as [|k smp ks rest Hsmp Hrest]; subst.
    cbn [Slices.iterate fold_samples].
    pose proof (same_items_sample _ _ (Z.of_nat i) Hsame) as Hs.
    rewrite Hsmp in Hs.
    pose proof (getitem_same_items ds' (Z.of_nat i)) as Hnext.
    destruct (Slices.__getitem__ ds' (Z.of_nat i)) as [ds'' r].
    cbn [fst snd] in Hs, Hnext. subst r.
    destruct (body smp acc) as [acc'|e]; cbn [Py.bind fst snd].
    + replace (Z.of_nat i + 1) with (Z.of_nat (Datatypes.S i)) by lia.
      apply IH; [by eapply same_items_trans | lia | done].
    + split; [done | by eapply same_items_trans].
Qed.

Lemma input_channel_row s row (c : nat) :
  input s = FMany (Arr <$> row) → (c < length row)%nat →
  Slices.input_channel s (Z.of_nat c) = Ok (channel c row).
Proof.
  intros Hin Hc. unfold Slices.input_channel. rewrite Hin.
  destruct (lookup_lt_is_Some_2 row c Hc) as [a Ha].
  assert ((Arr <$> row) !! c = Some (Arr a)) as Hl
    by (by rewrite list_lookup_fmap, Ha).
  rewrite (index_lookup _ _ _ Hl). cbn [Py.bind]. unfold channel. by rewrite Ha.
Qed.

(** One pass of the inner loop over the channels [i, i + m). *)
Lemma accumulate_range f s row n :
  input s = FMany (Arr <$> row) → length row = n →
  ∀ m i sums counts,
    (i + m ≤ n)%nat →
    Slices.accumulate f (range_from (Z.of_nat i) 1 m) s (sums, counts)
    = Ok (imap (λ c v, if bool_decide (i ≤ c < i + m)%nat
                       then (v + f (Z.of_nat c) (channel c row))%Q else v) sums,
          imap (λ c k, if bool_decide (i ≤ c < i + m)%nat
                       then k + numel (channel c row) else k) counts).
Proof.
  intros Hin Hrow m. induction m as [|m IH]; intros i sums counts Hle.
  - cbn [range_from Slices.accumulate]. f_equal. f_equal.
    + apply list_eq. intros c. rewrite list_lookup_imap.
      destruct (sums !! c); [|done]. cbn. by rewrite bool_decide_eq_false_2 by lia.
    + apply list_eq. intros c. rewrite list_lookup_imap.
      destruct (counts !! c); [|done]. cbn. by rewrite bool_decide_eq_false_2 by lia.
  - cbn [range_from Slices.accumulate].
    rewrite (input_channel_row s row i Hin) by lia. cbn [Py.bind].
    replace (Z.of_nat i + 1) with (Z.of_nat (S i)) by lia.
    rewrite IH by lia. rewrite Nat2Z.id. f_equal. f_equal.
    + apply list_eq. intros c. rewrite !list_lookup_imap.
      destruct (decide (c = i)) as [->|Hne].
      * rewrite list_lookup_alter_eq. destruct (sums !! i); [|done]. cbn.
        rewrite bool_decide_eq_false_2 by lia.
        by rewrite bool_decide_eq_true_2 by lia.
      * rewrite list_lookup_alter_ne by done. destruct (sums !! c); [|done]. cbn.
        destruct (decide (S i ≤ c < S i + m)%nat).
        -- rewrite !bool_decide_eq_true_2 by lia. done.
        -- rewrite !bool_decide_eq_false_2 by lia. done.
    + apply list_eq. intros c. rewrite !list_lookup_imap.
      destruct (decide (c = i)) as [->|Hne].
      * rewrite list_lookup_alter_eq. destruct (counts !! i); [|done]. cbn.
        rewrite bool_decide_eq_false_2 by lia.
        by rewrite bool_decide_eq_true_2 by lia.
      * rewrite list_lookup_alter_ne by done. destruct (counts !! c); [|done]. cbn.
        destruct (decide (S i ≤ c < S i + m)%nat).
        -- rewrite !bool_decide_eq_true_2 by lia. done.
        -- rewrite !bool_decide_eq_false_2 by lia. done.
Qed.

Lemma accumulate_all f s row n sums counts :
  input s = FMany (Arr <$> row) → length row = n →
  length sums = n → length counts = n →
  Slices.accumulate f (Py.range (Z.of_nat n)) s (sums, counts)
  = Ok (imap (λ c v, (v + f (Z.of_nat c) (channel c row))%Q) sums,
        imap (λ c k, k + numel (channel c row)) counts).
Proof.
  intros Hin Hrow Hs Hc. unfold Py.range. rewrite Nat2Z.id.
  rewrite (accumulate_range f s row n Hin Hrow n 0%nat) by lia.
  f_equal. f_equal.
  - apply imap_ext. intros c v Hv. apply lookup_lt_Some in Hv.
    by rewrite bool_decide_eq_true_2 by lia.
  - apply imap_ext. intros c v Hv. apply lookup_lt_Some in Hv.
    by rewrite bool_decide_eq_true_2 by lia.
Qed.

Lemma imap_imap {A B C} (g : nat → B → C) (h : nat → A → B) (l : list A) :
  imap g (imap h l) = imap (λ c v, g c (h c v)) l.
Proof.
  apply list_eq. intros c. rewrite !list_lookup_imap. by destruct (l !! c).
Qed.

(** The loop over the items, for lists of [n] accumulators. *)
Lemma fold_accumulate f n smps rows :
  Forall2 (λ smp row, input smp = FMany (Arr <$> row) ∧ length row = n) smps rows →
  ∀ sums counts,
    length sums = n → length counts = n →
    fold_samples (Slices.accumulate f (Py.range (Z.of_nat n))) smps (sums, counts)
    = Ok (imap (λ c v, fold_left (λ acc row,
                  (acc + f (Z.of_nat c) (channel c row))%Q) rows v) sums,
          imap (λ c k, fold_left (λ acc row,
                  acc + numel (channel c row)) rows k) counts).
Proof.
  induction 1 as [|smp row smps rows [Hin Hrow] _ IH]; intros sums counts Hs Hc.
  - cbn [fold_samples fold_left]. f_equal. f_equal.
    + apply list_eq. intros c. rewrite list_lookup_imap. by destruct (sums !! c).
    + apply list_eq. intros c. rewrite list_lookup_imap. by destruct (counts !! c).
  - cbn [fold_samples]. rewrite (accumulate_all f smp row n) by done.
    cbn [Py.bind]. rewrite IH by (by rewrite length_imap).
    by rewrite !imap_imap.
Qed.

Lemma imap_replicate {A B} (g : nat → A → B) (x : A) n :
  imap g (replicate n x) = (λ c, g c x) <$> seq 0 n.
Proof.
  apply list_eq. intros c. rewrite list_lookup_imap, list_lookup_fmap.
  destruct (decide (c < n)%nat) as [Hlt|Hge].
  - rewrite lookup_replicate_2 by done. by rewrite lookup_seq_lt by done.
  - rewrite (proj1 (lookup_replicate_None n x c)) by lia.
    by rewrite lookup_seq_ge by lia.
Qed.

Lemma divide_seq (F : nat → Q) (G : nat → Z) n :
  Slices.divide (F <$> seq 0 n) (G <$> seq 0 n)
  = (λ c, (F c / inject_Z (G c))%Q) <$> seq 0 n.
Proof.
  unfold Slices.divide. generalize 0%nat. induction n as [|n IH]; intros b; [done|].
  cbn. by rewrite IH.
Qed.

Lemma Forall2_split {A B C} (P : A → B → Prop) (Q : B → C → Prop) l k :
  Forall2 (λ x z, ∃ y, P x y ∧ Q y z) l k →
  ∃ m, Forall2 P l m ∧ Forall2 Q m k.
Proof.
  induction 1 as [|x z l k (y & HP & HQ) _ (m & HPs & HQs)].
  - exists []. split; constructor.
  - exists (y :: m). split; by constructor.
Qed.

(** X12.  [compute_mean_std] on a dataset of [n] channels whose every
    item, read through [ToTensor], returns [n] tensors that are not
    empty: in exact arithmetic, the mean of a channel is the sum of its
    values over all items divided by their number, and the deviation is
    the root of the sum of the squared differences to that mean divided
    by the same number. *)
Theorem compute_mean_std_value `{Numpy} ds n rows :
  Slices.n_contrasts ds = Z.of_nat n →
  Forall2 (λ k row,
      ∃ smp,
        snd (Slices.__getitem__
               (Slices.set_transform ds (Some (Stage (ToTensor true))))
               (Z.of_nat k)) = Ok smp
        ∧ input smp = FMany (Arr <$> row) ∧ length row = n)
    (seq 0 (length (Slices.indexes ds))) rows →
  (∀ c, (c < n)%nat → 0 < count_over c rows) →
  let mean c := (sum_over nd_sum c rows / inject_Z (count_over c rows))%Q in
  let deviation c :=
    np_sqrt (sum_over (Slices.squared_deviation (mean c)) c rows
             / inject_Z (count_over c rows))%Q in
  snd (Slices.compute_mean_std ds) = Ok (mean <$> seq 0 n, deviation <$> seq 0 n).
Proof.
  intros Hn Hrows _ mean deviation.
  apply Forall2_split in Hrows as (smps & Hsmps & Hrows).
  unfold Slices.compute_mean_std, DatasetManager.with_override,
    DatasetManager.__enter__, DatasetManager.__exit__, DatasetManager.__init__.
  cbn [truthy DatasetManager.override_transform DatasetManager._transform_state
       get_transform put_transform Slices.has_transform].
  set (ds1 := Slices.set_transform ds (Some (Stage (ToTensor true)))) in *.
  change (length (Slices.indexes ds1)) with (length (Slices.indexes ds)).
  rewrite Hn, Nat2Z.id.
  set (len := length (Slices.indexes ds)) in *.
  assert (same_items ds1 ds1) as Hrefl by done.
  destruct (iterate_fold
              (Slices.accumulate (λ _ a, nd_sum a) (Py.range (Z.of_nat n)))
              ds1 smps len 0%nat ds1 (replicate n 0%Q, replicate n 0)
              Hrefl eq_refl Hsmps) as [Hfirst Hsame].
  rewrite (fold_accumulate _ n smps rows Hrows) in Hfirst
    by apply length_replicate.
  rewrite !imap_replicate in Hfirst.
  change (Z.of_nat 0) with 0 in Hfirst, Hsame.
  destruct (Slices.iterate (S len) 0 ds1 _ _) as [ds2 r1]. cbn [fst snd] in *.
  subst r1.
  set (training_mean := Slices.divide _ _).
  assert (training_mean = mean <$> seq 0 n) as Hmean.
  { unfold training_mean. by rewrite divide_seq. }
  destruct (iterate_fold
              (Slices.accumulate
                 (λ i a, Slices.squared_deviation
                           (default 0%Q (training_mean !! Z.to_nat i)) a)
                 (Py.range (Z.of_nat n)))
              ds1 smps len 0%nat ds2 (replicate n 0%Q, replicate n 0)
              Hsame eq_refl Hsmps) as [Hsecond _].
  rewrite (fold_accumulate _ n smps rows Hrows) in Hsecond
    by apply length_replicate.
  rewrite !imap_replicate in Hsecond.
  change (Z.of_nat 0) with 0 in Hsecond.
  destruct (Slices.iterate (S len) 0 ds2 _ _) as [ds3 r2]. cbn [fst snd] in *.
  subst r2. cbn [snd]. f_equal. f_equal; [exact Hmean|].
  rewrite divide_seq, <- list_fmap_compose. apply list_fmap_ext.
  intros i c Hc. apply lookup_seq in Hc as [-> Hlt]. cbn [compose Nat.add].
  unfold deviation, sum_over. do 3 f_equal.
  rewrite Hmean, Nat2Z.id, list_lookup_fmap, lookup_seq_lt by done. done.
Qed.

(** X13.  [DatasetManager] on the 2D dataset: inside the [with] block the
    dataset carries the override; on leaving it, a transform that was not
    [None] is back in place, whatever the block did with the attribute
    and whether it returned or raised.  With no override the manager
    changes nothing. *)
Theorem dataset_manager_restores {A} (ds : Slices.t) (o t : transform_obj)
    (body : Slices.t → Slices.t * result A) :
  (Slices.transform ds = Some t →
   Slices.transform
     (fst (DatasetManager.with_override (H := Slices.has_transform) ds (Some o) body))
   = Some t
   ∧ snd (DatasetManager.with_override (H := Slices.has_transform) ds (Some o) body)
     = snd (body (Slices.set_transform ds (Some o))))
  ∧ DatasetManager.with_override (H := Slices.has_transform) ds None body = body ds.
Proof.
  unfold DatasetManager.with_override, DatasetManager.__enter__,
    DatasetManager.__exit__, DatasetManager.__init__.
  cbn [truthy DatasetManager.override_transform DatasetManager._transform_state
       get_transform put_transform Slices.has_transform].
  split.
  - intros ->. cbn [truthy]. by destruct (body _) as [d r].
  - by destruct (body ds) as [d r].
Qed.

(** ** The dataset of whole volumes *)

Section Volumes.
Context `{Nibabel}.

(** X14.  The dataset of whole volumes holds one handler per entry of
    [filename_pairs], in order: the constructor returns exactly when
    every pair can be constructed, the length of the dataset is the
    number of entries, and an empty list gives an empty dataset. *)
Theorem volume_dataset_length fp cache tr canonical :
  (returns (MRI3DSegmentationDataset.__init__ fp cache tr canonical)
   ↔ Forall (λ g, returns (Pair.__init__ (g_input g) (g_gt g) (g_metadata g)
                               cache canonical)) fp)
  ∧ ∀ ds, MRI3DSegmentationDataset.__init__ fp cache tr canonical = Ok ds →
      MRI3DSegmentationDataset.__len__ ds = Z.of_nat (length fp)
      ∧ Forall2 (λ g h, Pair.__init__ (g_input g) (g_gt g) (g_metadata g)
                          cache canonical = Ok h)
          fp (MRI3DSegmentationDataset.handlers ds)
      ∧ MRI3DSegmentationDataset.transform ds = tr.
Proof.
  unfold MRI3DSegmentationDataset.__init__, MRI3DSegmentationDataset._load_filenames.
  cbn [MRI3DSegmentationDataset.filename_pairs MRI3DSegmentationDataset.cache
       MRI3DSegmentationDataset.canonical MRI3DSegmentationDataset.handlers
       MRI3DSegmentationDataset.indexes MRI3DSegmentationDataset.transform app].
  split.
  - split.
    + intros Hr.
      destruct (map_each fp _) as [hs|e] eqn:E; [|done].
      apply map_each_ok in E. clear Hr.
      induction E as [|g h fp hs Hgh _ IH]; constructor; [by rewrite Hgh | done].
    + intros HF.
      assert (returns (map_each fp (λ g,
                Pair.__init__ (g_input g) (g_gt g) (g_metadata g) cache canonical)))
        as Hr.
      { clear tr. induction HF as [|g fp Hg _ IH]; [done|]. cbn [map_each].
        destruct (Pair.__init__ _ _ _ _ _); [|done]. cbn [Py.bind].
        by destruct (map_each fp _). }
      by destruct (map_each fp _).
  - intros ds Hds. apply bind_ok in Hds as (hs & Hhs & [= <-]).
    apply map_each_ok in Hhs.
    unfold MRI3DSegmentationDataset.__len__.
    cbn [MRI3DSegmentationDataset.handlers MRI3DSegmentationDataset.transform].
    split; [|done]. by rewrite (Forall2_length _ _ _ Hhs).
Qed.

End Volumes.

(** ** Items of the subvolume dataset *)

Lemma index_raises {A} (l : list A) i e : index l i = Raise e → e = IndexError.
Proof.
  unfold index. destruct (_ && _); [|congruence].
  destruct (l !! _); [discriminate | congruence].
Qed.

Lemma elem_of_range_from a l n x :
  x ∈ range_from a l n → ∃ j, (j < n)%nat ∧ x = a + Z.of_nat j * l.
Proof.
  revert a. induction n as [|n IH]; intros a Hx; cbn [range_from] in Hx.
  - by apply elem_of_nil in Hx.
  - apply elem_of_cons in Hx as [-> | Hx].
    + exists 0%nat. split; lia.
    + destruct (IH _ Hx) as (j & Hj & ->). exists (S j). split; lia.
Qed.

Lemma elem_of_axis_positions s l p x :
  0 < l → x ∈ axis_positions s l p → l + p ≤ x ≤ s - p.
Proof.
  intros Hl Hx. unfold axis_positions in Hx.
  apply elem_of_range_from in Hx as (j & Hj & ->).
  unfold range_len in Hj. destruct (Z.ltb_spec 0 l); [|lia].
  destruct (Z.ltb_spec (l + p) (s - p + 1)); [|simpl in Hj; lia].
  assert (Z.of_nat j ≤ (s - p + 1 - 1 - (l + p)) / l) as Hle by lia.
  assert (((s - p + 1 - 1 - (l + p)) / l) * l ≤ s - p + 1 - 1 - (l + p)) as Hd.
  { rewrite Z.mul_comm. apply Z.mul_div_le. lia. }
  split; nia.
Qed.

Lemma elem_of_grid l0 l1 l2 p i xs ys zs w :
  w ∈ grid l0 l1 l2 p i xs ys zs →
  ∃ x y z, x ∈ xs ∧ y ∈ ys ∧ z ∈ zs ∧ w = window l0 l1 l2 p i x y z.
Proof.
  unfold grid. rewrite list_elem_of_In, in_flat_map.
  intros (x & Hx & Hw). apply in_flat_map in Hw as (y & Hy & Hw).
  apply in_flat_map in Hw as (z & Hz & [<- | []]).
  exists x, y, z. by rewrite !list_elem_of_In.
Qed.

(** The windows of a volume lie inside it. *)
Lemma volume_windows_inside shape length p i ws w :
  Sub.volume_indexes shape length p i = Ok ws →
  (∀ k l, (k < 3)%nat → length !! k = Some l → 0 < l) →
  w ∈ ws →
  handler_index w = i
  ∧ 0 ≤ x_min w ∧ x_max w ≤ entry shape 0
  ∧ 0 ≤ y_min w ∧ y_max w ≤ entry shape 1
  ∧ 0 ≤ z_min w ∧ z_max w ≤ entry shape 2.
Proof.
  intros Hws Hpos Hw.
  destruct (volume_indexes_grid _ _ _ _ _ Hws)
    as (s0 & l0 & s1 & l1 & s2 & l2 & H0 & H1 & H2 & ->).
  destruct H0 as (Hs0 & Hl0 & _), H1 as (Hs1 & Hl1 & _), H2 as (Hs2 & Hl2 & _).
  pose proof (Hpos 0%nat l0 ltac:(lia) Hl0).
  pose proof (Hpos 1%nat l1 ltac:(lia) Hl1).
  pose proof (Hpos 2%nat l2 ltac:(lia) Hl2).
  apply elem_of_grid in Hw as (x & y & z & Hx & Hy & Hz & ->).
  apply elem_of_axis_positions in Hx; [|done].
  apply elem_of_axis_positions in Hy; [|done].
  apply elem_of_axis_positions in Hz; [|done].
  unfold entry. rewrite Hs0, Hs1, Hs2. cbn. lia.
Qed.

Lemma volume_windows_span shape length p i ws w :
  Sub.volume_indexes shape length p i = Ok ws → w ∈ ws → has_span length p w.
Proof.
  intros Hws Hw.
  destruct (volume_indexes_grid _ _ _ _ _ Hws)
    as (s0 & l0 & s1 & l1 & s2 & l2 & H0 & H1 & H2 & ->).
  destruct H0 as (_ & Hl0 & _), H1 as (_ & Hl1 & _), H2 as (_ & Hl2 & _).
  apply elem_of_grid in Hw as (x & y & z & _ & _ & _ & ->).
  unfold has_span, entry. rewrite Hl0, Hl1, Hl2. cbn. lia.
Qed.

Lemma index_ok_elem {A} (l : list A) i x : index l i = Ok x → x ∈ l.
Proof.
  unfold index. destruct (_ && _); [|discriminate].
  destruct (l !! _) as [y|] eqn:E; [|discriminate]. intros [= <-].
  by eapply list_elem_of_lookup_2.
Qed.

Lemma elem_of_concat {A} (x : A) (ls : list (list A)) :
  x ∈ concat ls → ∃ l, x ∈ l ∧ l ∈ ls.
Proof.
  induction ls as [|l ls IH]; cbn [concat]; intros Hx.
  - by apply elem_of_nil in Hx.
  - apply elem_of_app in Hx as [Hx | Hx].
    + exists l. split; [done | by left].
    + destruct (IH Hx) as (l' & Hl' & Hin). exists l'. split; [done | by right].
Qed.

Section SubvolumeItems.
Context `{Nibabel}.

Lemma sub_init_handlers fp cache tr canonical length p ds :
  Sub.__init__ fp cache tr canonical length p = Ok ds →
  Forall2 (λ g h, Pair.__init__ (g_input g) (g_gt g) (g_metadata g)
                    cache canonical = Ok h) fp (Sub.handlers ds)
  ∧ Sub.transform ds = tr.
Proof.
  unfold Sub.__init__. intros Hds.
  apply bind_ok in Hds as (b & Hb & Hds).
  unfold Sub._prepare_indexes in Hds.
  apply bind_ok in Hds as (items & _ & [= <-]).
  unfold Sub.handlers, Sub.transform.
  cbn [Sub.base MRI3DSegmentationDataset.handlers
       MRI3DSegmentationDataset.transform].
  unfold MRI3DSegmentationDataset.__init__,
    MRI3DSegmentationDataset._load_filenames in Hb.
  apply bind_ok in Hb as (hs & Hhs & [= <-]).
  cbn [MRI3DSegmentationDataset.handlers MRI3DSegmentationDataset.transform app].
  split; [|done]. by apply map_each_ok in Hhs.
Qed.

(** Every entry of the index is a window of one of the volumes. *)
Lemma sub_index_entry fp cache tr canonical length p ds w :
  Sub.__init__ fp cache tr canonical length p = Ok ds →
  w ∈ Sub.indexes ds →
  ∃ n h shape ws,
    Sub.handlers ds !! n = Some h
    ∧ effective_shape tr h = Ok shape
    ∧ Sub.volume_indexes shape length p (Z.of_nat n) = Ok ws
    ∧ w ∈ ws.
Proof.
  intros Hds Hw. pose proof (sub_init_prepare _ _ _ _ _ _ _ Hds) as Hprep.
  destruct (prepare_ok _ _ _ _ _ Hprep) as (wss & Hidx & Hlen & Hwss).
  rewrite Hidx in Hw. apply elem_of_concat in Hw as (ws & Hw & Hws).
  apply list_elem_of_lookup in Hws as [n Hn].
  destruct (lookup_lt_is_Some_2 (Sub.handlers ds) n) as [h Hh].
  { rewrite <- Hlen. by eapply lookup_lt_Some. }
  destruct (Hwss n h Hh) as (shape & ws' & Hshape & Hn' & Hvi).
  exists n, h, shape, ws. rewrite Hn in Hn'. injection Hn' as <-. done.
Qed.

Lemma unlabelled_pair ins md cache canonical h :
  Pair.__init__ ins None md cache canonical = Ok h → Pair.gt_handle h = [].
Proof.
  intros Hh. destruct (init_steps _ _ _ _ _ _ Hh) as (ih & gh & Hl & _ & ->).
  apply load_gt_without_filenames in Hl as ->.
  unfold Pair.attach_filenames, Pair.canonicalize.
  cbn [Pair.canonical Pair.metadata Pair.with_handles Pair.gt_filenames
       Pair.input_handle Pair.gt_handle].
  destruct canonical;
    cbn [Pair.canonical Pair.metadata Pair.with_handles Pair.gt_filenames
         Pair.input_handle Pair.gt_handle];
    destruct (Pair.metadata_truthy md); reflexivity.
Qed.

(** X15.  A subvolume dataset built without ground truth yields no item:
    [__getitem__] reads [gt_img[0].shape] before anything else is done
    with the volumes, so every access, at whatever index, raises
    [IndexError]. *)
Theorem unlabelled_subvolumes_unreadable fp cache tr canonical length p ds i :
  Sub.__init__ fp cache tr canonical length p = Ok ds →
  Forall (λ g, g_gt g = None) fp →
  snd (Sub.__getitem__ ds i) = Raise IndexError.
Proof.
  intros Hds Hfp. destruct (sub_init_handlers _ _ _ _ _ _ _ Hds) as [Hhs _].
  assert (∀ h, h ∈ Sub.handlers ds → Pair.gt_handle h = []) as Hgt.
  { intros h Hh. apply list_elem_of_lookup in Hh as [n Hn].
    destruct (Forall2_lookup_r _ _ _ _ _ Hhs Hn) as (g & Hg & Hinit).
    rewrite (proj1 (Forall_forall _ _) Hfp g) in Hinit
      by (by eapply list_elem_of_lookup_2).
    by eapply unlabelled_pair. }
  unfold Sub.__getitem__, Sub.data_dict.
  destruct (index (Sub.indexes ds) i) as [coord|e] eqn:Hc;
    [|by rewrite (index_raises _ _ _ Hc)].
  destruct (index (Sub.handlers ds) (handler_index coord)) as [h|e] eqn:Hh;
    cbn [Py.bind]; [|by rewrite (index_raises _ _ _ Hh)].
  unfold Pair.get_pair_data. rewrite (Hgt h (index_ok_elem _ _ _ Hh)).
  reflexivity.
Qed.

(** X16.  Every entry of the index of a subvolume dataset names a volume
    of the dataset and lies inside the shape that was tiled for it: on
    each axis [0 <= min] and [max <= shape[axis]]. *)
Theorem subvolume_windows_inside fp cache tr canonical length p ds w :
  Sub.__init__ fp cache tr canonical length p = Ok ds →
  (∀ k l, (k < 3)%nat → length !! k = Some l → 0 < l) →
  w ∈ Sub.indexes ds →
  ∃ n h,
    handler_index w = Z.of_nat n ∧ Sub.handlers ds !! n = Some h
    ∧ 0 ≤ x_min w ∧ x_max w ≤ entry (shape_of tr h) 0
    ∧ 0 ≤ y_min w ∧ y_max w ≤ entry (shape_of tr h) 1
    ∧ 0 ≤ z_min w ∧ z_max w ≤ entry (shape_of tr h) 2.
Proof.
  intros Hds Hpos Hw.
  destruct (sub_index_entry _ _ _ _ _ _ _ _ Hds Hw)
    as (n & h & shape & ws & Hh & Hshape & Hws & Hin).
  exists n, h. unfold shape_of. rewrite Hshape.
  destruct (volume_windows_inside _ _ _ _ _ _ Hws Hpos Hin) as (Hi & Hb).
  split; [done|]. split; [done|]. exact Hb.
Qed.

Lemma slice_bounds_inside n a b :
  0 ≤ a → a ≤ b → b ≤ n → Sub.slice_bounds n a b = (a, b).
Proof.
  intros Ha Hab Hb. unfold Sub.slice_bounds.
  destruct (Z.ltb_spec a 0); [lia|]. destruct (Z.ltb_spec b 0); [lia|].
  f_equal; lia.
Qed.

(** X17.  An item of the subvolume dataset holds, for every input volume
    that has the shape that was tiled, the window its index entry names:
    an array of span [length[axis] + 2 * padding] on every axis whose
    voxel [(a, b, e)] is the voxel [(x_min + a, y_min + b, z_min + e)]
    of the volume. *)
Theorem subvolume_item fp cache tr canonical length p ds i w d :
  Sub.__init__ fp cache tr canonical length p = Ok ds →
  (∀ k l, (k < 3)%nat → length !! k = Some l → 0 < l) → 0 ≤ p →
  index (Sub.indexes ds) i = Ok w →
  snd (Sub.data_dict ds i) = Ok d →
  ∃ n h subs,
    handler_index w = Z.of_nat n ∧ Sub.handlers ds !! n = Some h
    ∧ input d = FMany (Arr <$> subs)
    ∧ ∀ c vol s0 s1 s2,
        Pair.input_handle h !! c = Some vol →
        nii_shape vol = [s0; s1; s2] → shape_of tr h = [s0; s1; s2] →
        ∃ sub,
          subs !! c = Some sub
          ∧ nd_shape sub
            = [entry length 0 + 2 * p; entry length 1 + 2 * p;
               entry length 2 + 2 * p]
          ∧ ∀ a b e,
              nd_at sub [a; b; e]
              = nii_data vol [x_min w + a; y_min w + b; z_min w + e].
Proof.
  intros Hds Hpos Hp Hw Hd.
  destruct (sub_index_entry _ _ _ _ _ _ _ _ Hds (index_ok_elem _ _ _ Hw))
    as (n & h & shape & ws & Hh & Hshape & Hws & Hin).
  destruct (volume_windows_inside _ _ _ _ _ _ Hws Hpos Hin)
    as (Hi & Hx0 & Hx1 & Hy0 & Hy1 & Hz0 & Hz1).
  destruct (volume_windows_span _ _ _ _ _ _ Hws Hin) as (Hsx & Hsy & Hsz).
  assert (0 < entry length 0 ∧ 0 < entry length 1 ∧ 0 < entry length 2)
    as (Hl0 & Hl1 & Hl2).
  { destruct (volume_indexes_grid _ _ _ _ _ Hws)
      as (? & l0 & ? & l1 & ? & l2 & (_ & E0 & _) & (_ & E1 & _) & (_ & E2 & _) & _).
    unfold entry. rewrite E0, E1, E2. cbn.
    split; [|split]; eapply Hpos; try eassumption; lia. }
  unfold Sub.data_dict in Hd. rewrite Hw, Hi in Hd.
  rewrite (index_lookup _ _ _ Hh) in Hd. cbn [Py.bind] in Hd.
  destruct (Pair.get_pair_data h) as [[ins gts]|e] eqn:Hdata;
    cbn [Py.bind] in Hd; [|discriminate].
  destruct (index gts 0) as [gt0|e]; cbn [Py.bind] in Hd; [|discriminate].
  destruct (Pair.get_pair_slice h (Z.of_nat n) 2) as [[sl h']|e];
    cbn [Py.bind snd] in Hd; [|discriminate].
  apply bind_ok in Hd as (subs & Hsubs & Hd).
  apply bind_ok in Hd as (gsubs & _ & Hd).
  apply bind_ok in Hd as (metas & _ & [= <-]).
  exists n, h, subs. split; [done|]. split; [done|]. split; [done|].
  intros c vol s0 s1 s2 Hvol Hvs Htiled.
  unfold shape_of in Htiled. rewrite Hshape in Htiled. subst shape.
  unfold entry in Hx1, Hy1, Hz1. cbn in Hx1, Hy1, Hz1.
  assert (ins = get_fdata <$> Pair.input_handle h) as ->.
  { unfold Pair.get_pair_data in Hdata.
    by apply bind_ok in Hdata as (g & _ & [= <- _]). }
  assert ((get_fdata <$> Pair.input_handle h) !! c = Some (get_fdata vol)) as Hc
    by (by rewrite list_lookup_fmap, Hvol).
  destruct (map_each_lookup _ _ _ _ _ Hsubs Hc) as (sub & Hsub & Hcrop).
  exists sub. split; [exact Hsub|].
  unfold Sub.crop_to, Sub.slice3 in Hcrop. cbn [get_fdata nd_shape nd_at] in Hcrop.
  rewrite Hvs in Hcrop.
  rewrite !slice_bounds_inside in Hcrop by lia.
  injection Hcrop as <-. cbn [nd_shape nd_at]. split; [|done].
  f_equal; [lia|]. f_equal; [lia|]. f_equal; lia.
Qed.

End SubvolumeItems.

Lemma take_index_out_of_range a (axis : nat) n k :
  nd_shape a !! axis = Some n → n ≤ k → take_index a axis k = Raise IndexError.
Proof.
  intros Hn Hk. unfold take_index. rewrite Hn. cbv zeta.
  destruct (Z.ltb_spec k 0).
  - destruct (Z.leb_spec 0 (k + n)); [lia|]. done.
  - destruct (Z.ltb_spec k n); [lia|]. by rewrite andb_false_r.
Qed.

(** [get_pair_slice] along the last axis needs a position within the
    extent of the first input volume. *)
Lemma get_pair_slice_out_of_range p vol rest s0 s1 s2 k :
  Pair.input_handle p = vol :: rest → nii_shape vol = [s0; s1; s2] → s2 ≤ k →
  raises (Pair.get_pair_slice p k 2).
Proof.
  intros Hin Hshape Hk. unfold Pair.get_pair_slice.
  assert (raises (for_each (get_fdata <$> Pair.input_handle p)
                    (λ d, Pair.slice_of d k 2))) as Hslices.
  { rewrite Hin, fmap_cons. cbn [for_each]. apply raises_bind_l.
    unfold Pair.slice_of. cbn [Z.eqb get_fdata nd_shape]. rewrite Hshape.
    cbn [length Nat.sub].
    rewrite (take_index_out_of_range _ 2 s2 k); [done| |done].
    cbn [get_fdata nd_shape]. by rewrite Hshape. }
  destruct (Pair.cache p).
  - unfold Pair.get_pair_data.
    destruct (map_each (Pair.gt_handle p) _) as [gts|e]; [|done].
    cbn [Py.bind negb Z.eqb orb]. by apply raises_bind_l.
  - destruct (map_each (Pair.gt_handle p) _) as [gts|e]; [|done].
    cbn [Py.bind negb Z.eqb orb]. by apply raises_bind_l.
Qed.

(** X18.  [__getitem__] of the subvolume dataset slices the metadata of
    a window's volume at the position of that volume in the dataset
    ([get_pair_slice(coord['handler_index'])]): a window of a volume
    whose position in the dataset is not below the extent of its first
    input along the last axis cannot be read. *)
Theorem subvolume_item_needs_depth ds i w h vol rest s0 s1 s2 :
  index (Sub.indexes ds) i = Ok w →
  index (Sub.handlers ds) (handler_index w) = Ok h →
  Pair.input_handle h = vol :: rest → nii_shape vol = [s0; s1; s2] →
  s2 ≤ handler_index w →
  raises (snd (Sub.__getitem__ ds i)).
Proof.
  intros Hw Hh Hin Hshape Hk. unfold Sub.__getitem__, Sub.data_dict.
  rewrite Hw, Hh. cbn [Py.bind].
  destruct (Pair.get_pair_data h) as [[ins gts]|e]; cbn [Py.bind]; [|done].
  destruct (index gts 0) as [gt0|e]; cbn [Py.bind]; [|done].
  pose proof (get_pair_slice_out_of_range h vol rest s0 s1 s2 _ Hin Hshape Hk)
    as Hr.
  destruct (Pair.get_pair_slice h (handler_index w) 2) as [[sl h']|e]; done.
Qed.

(** ** Tensors and back *)

Lemma to_pil_of_to_tensor im :
  ∃ t out, F_to_tensor (Img im) = Ok (Arr t)
    ∧ ToPIL.sample_transform (Arr t) = Ok out
    ∧ same_image out (restored im).
Proof.
  eexists _, _. split; [reflexivity|]. split; [reflexivity|].
  split; [reflexivity|]. split; [reflexivity|]. intros x y. reflexivity.
Qed.

(** X19.  [ToPIL] undoes [ToTensor] on a list of image channels: the
    images that come back have the sizes of the originals and are in
    float mode; a float image gets its pixels back unchanged, an 8-bit
    image comes back divided by 255.  The rest of the sample is
    untouched.  With [labeled] set and no ground truth, [ToTensor]
    returns and [ToPIL] then raises [AttributeError]. *)
Theorem to_pil_after_to_tensor s l :
  input s = FMany (Img <$> l) →
  (∃ s1 s2 l',
     ToTensor.call false s = Ok s1 ∧ ToPIL.call false s1 = Ok s2
     ∧ input s2 = FMany (Img <$> l')
     ∧ Forall2 (λ im out, same_image out (restored im)) l l'
     ∧ set_input (input s) s2 = s)
  ∧ (gt s = FNone →
     ∃ s1, ToTensor.call true s = Ok s1
       ∧ ToPIL.call true s1 = Raise AttributeError).
Proof.
  intros Hin.
  assert (∃ ts l', map_each (Img <$> l) F_to_tensor = Ok ts
            ∧ map_each ts (λ x, let? r := ToPIL.sample_transform x in Ok (Img r))
              = Ok (Img <$> l')
            ∧ Forall2 (λ im out, same_image out (restored im)) l l')
    as (ts & l' & Hts & Hl' & HF).
  { clear Hin. induction l as [|im l (ts & l' & Hts & Hl' & HF)].
    - exists [], []. repeat split; constructor.
    - destruct (to_pil_of_to_tensor im) as (t & out & Ht & Hout & Hsame).
      exists (Arr t :: ts), (out :: l'). split; [|split].
      + rewrite fmap_cons. cbn [map_each]. rewrite Ht. cbn [Py.bind].
        by rewrite Hts.
      + rewrite fmap_cons. cbn [map_each]. rewrite Hout. cbn [Py.bind].
        exact (f_equal (λ r, let? rest := r in Ok (Img out :: rest)) Hl').
      + by constructor. }
  split.
  - exists (set_input (FMany ts) s), (set_input (FMany (Img <$> l')) s), l'.
    split; [|split; [|split; [reflexivity|split; [exact HF|]]]].
    + unfold ToTensor.call. by rewrite Hin, Hts.
    + unfold ToPIL.call, ToPIL.transform_field. cbn [input set_input].
      rewrite Hl'. reflexivity.
    + destruct s; cbn in *. by rewrite Hin.
  - intros Hgt. exists (set_input (FMany ts) s). split.
    + unfold ToTensor.call. by rewrite Hin, Hts, Hgt.
    + unfold ToPIL.call, ToPIL.transform_field. cbn [input gt set_input].
      rewrite Hl', Hgt. reflexivity.
Qed.

(** ** UnCenterCrop2D *)

(** X20.  [UnCenterCrop2D] restores nothing: whenever it returns, it
    returns the sample it was given.  It only checks that the input and
    the ground-truth metadata both carry crop parameters, as they do
    after a labeled [CenterCrop2D]. *)
Theorem uncentercrop_returns_its_argument :
  (∀ s s', UnCenterCrop2D.call s = Ok s' → s' = s)
  ∧ (∀ size s s1, CenterCrop2D.call size true s = Ok s1 →
       UnCenterCrop2D.call s1 = Ok s1).
Proof.
  split.
  - intros s s' Hs. unfold UnCenterCrop2D.call in Hs.
    apply bind_ok in Hs as (v & _ & Hs). apply bind_ok in Hs as (u & _ & Hs).
    apply bind_ok in Hs as (v' & _ & Hs). apply bind_ok in Hs as (u' & _ & Hs).
    by injection Hs.
  - intros [th tw] s s1 Hs. unfold CenterCrop2D.call in Hs.
    apply bind_ok in Hs as ([w h] & _ & Hs).
    apply bind_ok in Hs as (sp & Hsp & Hs).
    apply bind_ok in Hs as (cropped & _ & Hs).
    apply bind_ok in Hs as (gt_data & _ & Hs).
    apply bind_ok in Hs as (gm & Hgm & [= <-]).
    unfold Crop2D.propagate_params, meta_setitem in Hsp.
    destruct (input_metadata s) as [|m|?]; try discriminate.
    injection Hsp as <-.
    unfold meta_setitem in Hgm.
    cbn [gt_metadata set_input_metadata] in Hgm.
    destruct (gt_metadata s) as [|g|?]; try discriminate.
    injection Hgm as <-.
    unfold UnCenterCrop2D.call, meta_getitem.
    cbn [input_metadata gt_metadata set_gt set_input set_gt_metadata
         set_input_metadata].
    by rewrite !lookup_insert_eq.
Qed.

(** ** Crops larger than the image *)

Lemma round_half_nonpositive d : d ≤ 0 → d ≤ round_half d ≤ 0.
Proof.
  intros Hd. unfold round_half. cbv zeta.
  destruct (Z.eqb_spec (d mod 2) 0); [Z.div_mod_to_equations; lia|].
  destruct (Z.even (d / 2)) eqn:He; [Z.div_mod_to_equations; lia|].
  assert (d / 2 ≠ -1 → d / 2 + 1 ≤ 0) by (Z.div_mod_to_equations; lia).
  destruct (Z.eq_dec (d / 2) (-1)) as [E|E].
  - rewrite E. Z.div_mod_to_equations; lia.
  - Z.div_mod_to_equations; lia.
Qed.

(** X21.  A centre crop that is at least as large as the image loses
    nothing: the crop pads the image with zeros to the crop size, and the
    inverse, whose paddings are then zero or negative, cuts the borders
    off again; the image that comes back has the original size and the
    original pixels. *)
Theorem oversized_crop_is_lossless th tw labeled s s1 im W H :
  input s = FOne (Img im) → im_size im = (W, H) → W ≤ tw → H ≤ th →
  CenterCrop2D.call (th, tw) labeled s = Ok s1 →
  ∃ s2 out,
    Crop2D.undo_transform (th, tw) s1 = Ok s2
    ∧ input s2 = FOne (Img out)
    ∧ im_size out = (W, H)
    ∧ im_size (F_center_crop im (th, tw)) = (tw, th)
    ∧ ∀ x y, 0 ≤ x < W → 0 ≤ y < H → im_px out x y = im_px im x y.
Proof.
  intros Hin Hsz Hw Hh Hcrop.
  pose proof (round_half_nonpositive (W - tw) ltac:(lia)) as Hleft.
  pose proof (round_half_nonpositive (H - th) ltac:(lia)) as Htop.
  assert (input s1 = FOne (Img (F_center_crop im (th, tw)))
          ∧ Crop2D.get_params s1
            = Ok (round_half (H - th), round_half (W - tw), W, H))
    as [Hin1 Hparams].
  { unfold CenterCrop2D.call in Hcrop. rewrite Hin in Hcrop.
    cbn [pil_size Py.bind] in Hcrop. rewrite Hsz in Hcrop.
    cbn [Py.bind] in Hcrop.
    apply bind_ok in Hcrop as (sp & Hsp & Hcrop).
    unfold Crop2D.propagate_params, meta_setitem in Hsp.
    destruct (input_metadata s) as [|m|?] eqn:Hm; try discriminate.
    injection Hsp as <-. unfold center_crop_field in Hcrop.
    cbn [pil_size pil_image Py.bind] in Hcrop.
    destruct labeled.
    - apply bind_ok in Hcrop as (g & _ & Hcrop).
      apply bind_ok in Hcrop as (gm & _ & [= <-]).
      split; [reflexivity|].
      unfold Crop2D.get_params, meta_getitem.
      cbn [input_metadata set_gt set_input set_gt_metadata set_input_metadata].
      by rewrite lookup_insert_eq.
    - injection Hcrop as <-. split; [reflexivity|].
      unfold Crop2D.get_params, meta_getitem.
      cbn [input_metadata set_gt set_input set_gt_metadata set_input_metadata].
      by rewrite lookup_insert_eq. }
  set (top := round_half (H - th)) in *.
  set (left := round_half (W - tw)) in *.
  set (cropped := F_center_crop im (th, tw)) in *.
  assert (Hcs : im_size cropped = (tw, th)) by apply F_center_crop_size.
  eexists _, _. split.
  { unfold Crop2D.undo_transform. rewrite Hparams. cbn [Py.bind].
    rewrite Hin1. cbn [pil_image Py.bind]. reflexivity. }
  split; [reflexivity|]. split.
  { rewrite F_pad_size. unfold width, height. rewrite Hcs. cbn [fst snd].
    f_equal; lia. }
  split; [exact Hcs|].
  intros x y Hx Hy. cbn [F_pad im_px].
  assert (inside cropped (x - left) (y - top) = true) as ->.
  { apply inside_spec. unfold width, height. rewrite Hcs. cbn [fst snd]. lia. }
  unfold cropped, F_center_crop. rewrite Hsz. cbn [F_crop Image_crop im_px].
  fold top left.
  replace (left + (x - left)) with x by lia.
  replace (top + (y - top)) with y by lia.
  assert (inside im x y = true) as ->; [|done].
  apply inside_spec. unfold width, height. rewrite Hsz. cbn [fst snd]. lia.
Qed.

(** ** HistogramClipping *)

Section Clipping.
Context `{Percentile}.

(** X22.  [HistogramClipping] keeps the shape and clamps: when the lower
    percentile value does not exceed the upper one, every value at most
    the lower becomes the lower, every value at least the upper becomes
    the upper, and the values strictly between are kept.  When the lower
    exceeds the upper, the whole array becomes the upper value. *)
Theorem histogram_clipping_clamps lo hi a idx :
  let p1 := np_percentile a lo in
  let p2 := np_percentile a hi in
  let out := HistogramClipping.call lo hi a in
  let v := nd_at a idx in
  nd_shape out = nd_shape a
  ∧ ((p1 <= p2)%Q →
     ((v <= p1)%Q → Qeq (nd_at out idx) p1)
     ∧ ((p2 <= v)%Q → Qeq (nd_at out idx) p2)
     ∧ ((p1 < v)%Q → (v < p2)%Q → nd_at out idx = v)
     ∧ (p1 <= nd_at out idx)%Q ∧ (nd_at out idx <= p2)%Q)
  ∧ ((p2 < p1)%Q → nd_at out idx = p2).
Proof.
  cbv zeta. unfold HistogramClipping.call, assign_where. cbn [nd_shape nd_at].
  set (p1 := np_percentile a lo). set (p2 := np_percentile a hi).
  set (v := nd_at a idx). split; [reflexivity|].
  destruct (Qle_bool v p1) eqn:E1.
  - apply Qle_bool_iff in E1. split.
    + intros H12. assert (Qle_bool p2 p1 = true ↔ (p2 <= p1)%Q) as Hb
        by apply Qle_bool_iff.
      destruct (Qle_bool p2 p1) eqn:E2.
      * assert (p2 <= p1)%Q by (by apply Hb).
        assert (Qeq p1 p2) by (by apply Qle_antisym).
        repeat split; intros; try reflexivity.
        -- by symmetry.
        -- exfalso. apply (Qlt_irrefl v). eapply Qle_lt_trans; eassumption.
        -- done.
        -- apply Qle_refl.
      * repeat split; intros; try reflexivity.
        -- assert (Qeq v p1) by (apply Qle_antisym; [done|];
             eapply Qle_trans; eassumption).
           assert (Qeq p1 p2).
           { apply Qle_antisym; [done|]. eapply Qle_trans; [eassumption|].
             by apply Qle_lteq; right. }
           done.
        -- exfalso. apply (Qlt_irrefl v). eapply Qle_lt_trans; eassumption.
        -- apply Qle_refl.
        -- done.
    + intros H21. assert (Qle_bool p2 p1 = true) as ->; [|done].
      apply Qle_bool_iff. by apply Qlt_le_weak.
  - assert (p1 < v)%Q as Hlt.
    { apply Qnot_le_lt. intros Hle. apply Qle_bool_iff in Hle. congruence. }
    split.
    + intros H12. destruct (Qle_bool p2 v) eqn:E2.
      * apply Qle_bool_iff in E2. repeat split; intros; try reflexivity.
        -- exfalso. apply (Qlt_irrefl v). eapply Qle_lt_trans; eassumption.
        -- exfalso. apply (Qlt_irrefl v). eapply Qlt_le_trans; eassumption.
        -- done.
        -- apply Qle_refl.
      * assert (v < p2)%Q as Hlt2.
        { apply Qnot_le_lt. intros Hle. apply Qle_bool_iff in Hle. congruence. }
        repeat split; intros; try reflexivity.
        -- exfalso. apply (Qlt_irrefl v). eapply Qle_lt_trans; eassumption.
        -- exfalso. apply (Qlt_irrefl v). eapply Qlt_le_trans; eassumption.
        -- by apply Qlt_le_weak.
        -- by apply Qlt_le_weak.
    + intros H21. assert (Qle_bool p2 v = true) as ->; [|done].
      apply Qle_bool_iff. apply Qlt_le_weak. by eapply Qlt_trans.
Qed.

End Clipping.

(** ** AdditiveGaussianNoise *)

(** X23.  [AdditiveGaussianNoise] draws its noise with the image's
    [size], which is [(width, height)], and adds it to the pixel array,
    whose shape is [(height, width)]: on a float image that is not square
    the addition fails with [ValueError]; on a square one every pixel
    gets the noise drawn at its array position and the size is kept.  A
    list of channels, as the 2D dataset passes, has no [size]:
    [AttributeError]. *)
Theorem gaussian_noise_needs_square_images on_array noise s :
  (∀ im w h,
     input s = FOne (Img im) → im_mode im = ModeF → im_size im = (w, h) →
     0 ≤ w → 0 ≤ h →
     (w ≠ h → AdditiveGaussianNoise.call on_array noise s = Raise ValueError)
     ∧ (w = h →
        ∃ s' out,
          AdditiveGaussianNoise.call on_array noise s = Ok s'
          ∧ input s' = FOne (Img out) ∧ im_size out = (w, h)
          ∧ ∀ x y, im_px out x y = (im_px im x y + noise [y; x])%Q))
  ∧ (∀ l, input s = FMany l →
       AdditiveGaussianNoise.call on_array noise s = Raise AttributeError).
Proof.
  split.
  - intros im w h Hin Hmode Hsz Hw Hh. unfold AdditiveGaussianNoise.call.
    rewrite Hin, Hsz, Hmode.
    destruct (Z.ltb_spec w 0); [lia|]. destruct (Z.ltb_spec h 0); [lia|].
    cbn [orb]. unfold np_iadd2, np_array, width, height. rewrite Hsz.
    cbn [fst snd nd_shape nd_at]. split.
    + intros Hne.
      destruct (Z.eqb_spec w h); [done|]. destruct (Z.eqb_spec h w); [lia|].
      cbn [orb]. destruct (Z.eqb_spec w 1), (Z.eqb_spec h 1); try done. lia.
    + intros <-. rewrite Z.eqb_refl. cbn [orb andb Py.bind].
      eexists _, _. split; [reflexivity|]. split; [reflexivity|].
      split; [reflexivity|]. intros x y. reflexivity.
  - intros l Hin. unfold AdditiveGaussianNoise.call. by rewrite Hin.
Qed.

(** ** RandomReverse3D *)

Section Reverse.
Context `{Stacking}.

(** X24.  [RandomReverse3D] on a volume and its ground truth of the same
    shape: three draws decide, axis by axis, whether the axis is
    reversed; the shape is kept, and the ground truth is reversed along
    exactly the axes along which the input is, so labels stay on their
    voxels. *)
Theorem reverse_keeps_labels_aligned draw0 draw1 draw2 s a g s0 s1 s2 :
  input s = FOne (Arr a) → gt s = FOne (Arr g) →
  nd_shape a = [s0; s1; s2] → nd_shape g = [s0; s1; s2] →
  ∃ s' a' g',
    RandomReverse3D.call true draw0 draw1 draw2 s = Ok s'
    ∧ input s' = FOne (Arr a') ∧ gt s' = FOne (Arr g')
    ∧ nd_shape a' = [s0; s1; s2] ∧ nd_shape g' = [s0; s1; s2]
    ∧ ∀ x y z,
        nd_at a' [x; y; z]
        = nd_at a [mirrored draw0 s0 x; mirrored draw1 s1 y; mirrored draw2 s2 z]
        ∧ nd_at g' [x; y; z]
          = nd_at g [mirrored draw0 s0 x; mirrored draw1 s1 y; mirrored draw2 s2 z].
Proof.
  intros Hin Hgt Ha Hg. destruct a as [sa fa], g as [sg fg]. cbn in Ha, Hg.
  subst sa sg.
  unfold RandomReverse3D.call, RandomReverse3D.step, RandomReverse3D.flip,
    mirrored.
  rewrite Hin, Hgt.
  destruct (draw0 =? 1), (draw1 =? 1), (draw2 =? 1); cbn;
    eexists _, _, _; (split; [reflexivity|]); cbn;
    (split; [reflexivity|]); (split; [reflexivity|]);
    (split; [reflexivity|]); (split; [reflexivity|]);
    intros x y z; split; reflexivity.
Qed.

Lemma one_shape_same (vols : list ndarray) shape :
  Forall (λ a, nd_shape a = shape) vols → one_shape vols = true.
Proof.
  destruct 1 as [|a vols Ha Hrest]; [done|]. cbn [one_shape].
  apply forallb_forall. intros b Hb. apply bool_decide_eq_true.
  rewrite Ha. apply (proj1 (List.Forall_forall _ _) Hrest b Hb).
Qed.

Lemma asarray_channel_list (vols : list ndarray) shape :
  Forall (λ a, nd_shape a = shape) vols →
  np_asarray (FMany (Arr <$> vols)) = Ok (np_stack vols).
Proof.
  intros Hvols. unfold np_asarray.
  assert (item_array <$> (Arr <$> vols) = vols) as ->.
  { rewrite <- list_fmap_compose. apply list_fmap_id. }
  by rewrite (one_shape_same vols shape).
Qed.

(** X25.  [RandomReverse3D] on an item of the 3D datasets, whose input is
    a list of channel volumes of one shape: the list is stacked into one
    array with the channels as its first axis, so the first draw reverses
    the order of the channels, the second and third reverse the first
    two spatial axes, and the last spatial axis is never reversed.  When
    no draw is 1 the sample is returned as it is. *)
Theorem reverse_on_channel_list draw0 draw1 draw2 s vols s0 s1 s2 :
  input s = FMany (Arr <$> vols) → vols ≠ [] →
  Forall (λ a, nd_shape a = [s0; s1; s2]) vols →
  (draw0 = 1 ∨ draw1 = 1 ∨ draw2 = 1 →
   ∃ s' out,
     RandomReverse3D.call false draw0 draw1 draw2 s = Ok s'
     ∧ input s' = FOne (Arr out)
     ∧ nd_shape out = [Z.of_nat (length vols); s0; s1; s2]
     ∧ ∀ c x y z,
         nd_at out [c; x; y; z]
         = nd_at (np_stack vols)
             [mirrored draw0 (Z.of_nat (length vols)) c; mirrored draw1 s0 x;
              mirrored draw2 s1 y; z])
  ∧ (draw0 ≠ 1 → draw1 ≠ 1 → draw2 ≠ 1 →
     RandomReverse3D.call false draw0 draw1 draw2 s = Ok s).
Proof.
  intros Hin Hne Hvols.
  pose proof (asarray_channel_list vols _ Hvols) as Hstack.
  assert (nd_shape (np_stack vols) = [Z.of_nat (length vols); s0; s1; s2])
    as Hshape.
  { destruct Hvols as [|a vols Ha _]; [done|]. cbn. by rewrite Ha. }
  unfold RandomReverse3D.call, RandomReverse3D.step, RandomReverse3D.flip,
    mirrored.
  rewrite Hin.
  destruct (np_stack vols) as [sh at_] eqn:Estack. cbn in Hshape. subst sh.
  split.
  - intros Hdraw.
    destruct (Z.eqb_spec draw0 1), (Z.eqb_spec draw1 1), (Z.eqb_spec draw2 1);
      try lia; cbn [Py.bind]; rewrite ?Hstack; cbn;
      eexists _, _; (split; [reflexivity|]); cbn;
      (split; [reflexivity|]); (split; [reflexivity|]);
      intros c x y z; reflexivity.
  - intros H0 H1 H2.
    destruct (Z.eqb_spec draw0 1), (Z.eqb_spec draw1 1), (Z.eqb_spec draw2 1);
      try lia. cbn. destruct s; cbn in *. by subst.
Qed.

End Reverse.

(** ** SampleMetadata *)

(** X26.  A [SampleMetadata] built without a dictionary holds [None],
    not an empty dictionary ([{} or d] is [d]): storing, reading,
    membership tests and [keys()] all raise on it. *)
Theorem default_sample_metadata_unusable key value :
  let md := SampleMetadata.__init__ None in
  SampleMetadata.metadata md = None
  ∧ SampleMetadata.__setitem__ md key value = Raise TypeError
  ∧ SampleMetadata.__getitem__ md key = Raise TypeError
  ∧ SampleMetadata.__contains__ md key = Raise TypeError
  ∧ SampleMetadata.keys md = Raise AttributeError.
Proof. cbv zeta. repeat split. Qed.

(** X27.  A [SampleMetadata] built over a dictionary wraps that very
    dictionary, also when it is empty; a stored value is read back under
    its key, the key is then a member, and the other keys read as
    before (a missing one raising [KeyError]). *)
Theorem sample_metadata_store_and_read d key value :
  let md := SampleMetadata.__init__ (Some d) in
  SampleMetadata.metadata md = Some d
  ∧ ∃ md',
      SampleMetadata.__setitem__ md key value = Ok md'
      ∧ SampleMetadata.__getitem__ md' key = Ok value
      ∧ SampleMetadata.__contains__ md' key = Ok true
      ∧ SampleMetadata.keys md' = Ok ({[key]} ∪ dom d)
      ∧ ∀ other, other ≠ key →
          SampleMetadata.__getitem__ md' other = SampleMetadata.__getitem__ md other
          ∧ (d !! other = None →
             SampleMetadata.__getitem__ md' other = Raise KeyError).
Proof.
  cbv zeta. split; [reflexivity|]. eexists. split; [reflexivity|].
  unfold SampleMetadata.__getitem__, SampleMetadata.__contains__,
    SampleMetadata.keys. cbn [SampleMetadata.metadata SampleMetadata.__init__
                              SampleMetadata.py_or SampleMetadata.dict_truthy].
  rewrite lookup_insert_eq. split; [reflexivity|]. split.
  { by rewrite bool_decide_eq_true_2 by eauto. }
  split; [by rewrite dom_insert_L|].
  intros other Hne. rewrite lookup_insert_ne by done.
  split; [reflexivity|]. by intros ->.
Qed.

(** ** BatchSplit *)

Section Split.
Context {V : Type}.

Lemma row_ok (batch : gmap string (list V)) (i : nat) :
  map_Forall (λ _ w, (i < length w)%nat) batch →
  ∃ r, BatchSplit.row batch i = Ok r
    ∧ ∀ k, r !! k = (batch !! k) ≫= (λ w, w !! i).
Proof.
  intros Hall. unfold BatchSplit.row. rewrite bool_decide_eq_true_2 by done.
  eexists. split; [reflexivity|]. intros k. by rewrite lookup_omap.
Qed.

Lemma yields_ok (batch : gmap string (list V)) n :
  ∀ m a, (a + m ≤ n)%nat →
    map_Forall (λ _ w, (n ≤ length w)%nat) batch →
    ∃ samples,
      BatchSplit.yields batch (seq a m)
      = (samples, BatchSplit.RaisedStopIteration)
      ∧ length samples = m
      ∧ ∀ i smp, samples !! i = Some smp →
          smp !! "index"%string = Some (BatchSplit.Position (Z.of_nat (a + i)))
          ∧ ∀ k, k ≠ "index"%string →
              smp !! k
              = (batch !! k) ≫= (λ w, BatchSplit.Component <$> w !! (a + i)%nat).
Proof.
  induction m as [|m IH]; intros a Hle Hall.
  - exists []. split; [reflexivity|]. split; [reflexivity|]. intros i smp [=].
  - cbn [seq BatchSplit.yields].
    destruct (row_ok batch a) as (r & -> & Hr).
    { eapply map_Forall_impl; [exact Hall|]. intros k w Hw. cbn in *. lia. }
    destruct (IH (S a) ltac:(lia) Hall) as (later & -> & Hlen & Hlater).
    eexists. split; [reflexivity|]. split; [cbn; by rewrite Hlen|].
    intros [|i] smp Hsmp.
    + injection Hsmp as <-. rewrite Nat.add_0_r. split.
      * by rewrite lookup_insert_eq.
      * intros k Hk. rewrite lookup_insert_ne by done.
        rewrite lookup_fmap, Hr. by destruct (batch !! k).
    + cbn in Hsmp. destruct (Hlater i smp Hsmp) as [Hidx Hk].
      replace (a + S i)%nat with (S a + i)%nat by lia. by split.
Qed.

(** X28.  [BatchSplit] takes a batch apart again: for a batch whose
    values all have at least as many elements as the one under
    ['input'], the generator yields one sample per element of
    ['input'], in order, and then reaches its closing
    [raise StopIteration]; sample [i] holds under every key the [i]-th
    element of the batch value, except that ['index'] holds [i] (a batch
    value under that key is overwritten).  Without an ['input'] key
    nothing is yielded and the body fails with [KeyError]. *)
Theorem batch_split_samples (batch : gmap string (list V)) :
  (∀ v, batch !! "input"%string = Some v →
     map_Forall (λ _ w, (length v ≤ length w)%nat) batch →
     ∃ samples,
       BatchSplit.__iter__ batch = (samples, BatchSplit.RaisedStopIteration)
       ∧ length samples = length v
       ∧ ∀ i smp, samples !! i = Some smp →
           smp !! "index"%string = Some (BatchSplit.Position (Z.of_nat i))
           ∧ ∀ k, k ≠ "index"%string →
               smp !! k
               = (batch !! k) ≫= (λ w, BatchSplit.Component <$> w !! i))
  ∧ (batch !! "input"%string = None →
     BatchSplit.__iter__ batch = ([], BatchSplit.Failed KeyError)).
Proof.
  unfold BatchSplit.__iter__. split.
  - intros v Hv Hall. rewrite Hv.
    destruct (yields_ok batch (length v) (length v) 0%nat ltac:(lia) Hall)
      as (samples & Hy & Hlen & Hs).
    exists samples. split; [exact Hy|]. split; [exact Hlen|]. exact Hs.
  - by intros ->.
Qed.

End Split.

(** ** The challenge datasets *)

Lemma ids_or_cons ids lo hi : lo < hi → ∃ i rest, ids_or ids lo hi = i :: rest.
Proof.
  intros Hlt. unfold ids_or.
  assert (∃ i rest, range_from lo 1 (Z.to_nat (range_len lo hi 1)) = i :: rest)
    as Hrange.
  { unfold range_len. cbn [Z.ltb Z.compare].
    destruct (Z.ltb_spec lo hi); [|lia].
    destruct (Z.to_nat (1 + (hi - 1 - lo) / 1)) eqn:E.
    - rewrite Z.div_1_r in E. lia.
    - cbn [range_from]. eauto. }
  destruct ids as [[|i rest]|]; eauto.
Qed.

Lemma init_on_pairs_raises loop_body p ps :
  init_on_pairs loop_body (p :: ps) = Raise ValueError.
Proof. reflexivity. Qed.

(** X29.  Neither challenge dataset can be constructed.  Both build their
    list of files as pairs [(input_filename, gt_filename)] and hand it to
    the constructor of the 2D dataset, whose loop unpacks every entry
    into four names: the training class raises [ValueError] for every
    argument; the test class raises too, a [ValueError] when all its
    input files exist (and the error about the first missing file
    otherwise). *)
Theorem challenge_datasets_cannot_be_built loop_body root_dir site_ids subj_ids :
  (∀ rater_ids labeled,
     SCGMChallenge2DTrain.__init__ loop_body root_dir site_ids subj_ids rater_ids
       labeled = Raise ValueError)
  ∧ (∀ F : Filesystem,
       raises (SCGMChallenge2DTest.__init__ loop_body root_dir site_ids subj_ids)
       ∧ ((∀ path, path_exists path = true) →
          SCGMChallenge2DTest.__init__ loop_body root_dir site_ids subj_ids
          = Raise ValueError)).
Proof.
  split.
  - intros rater_ids labeled. unfold SCGMChallenge2DTrain.__init__.
    destruct (ids_or_cons site_ids 1 (SCGMChallenge2DTrain.NUM_SITES + 1))
      as (a & sites & ->); [done|].
    destruct (ids_or_cons subj_ids 1 (SCGMChallenge2DTrain.NUM_SUBJECTS + 1))
      as (b & subjs & ->); [done|].
    destruct (ids_or_cons rater_ids 1 (SCGMChallenge2DTrain.NUM_RATERS + 1))
      as (c & raters & ->); [done|].
    reflexivity.
  - intros F. unfold SCGMChallenge2DTest.__init__.
    destruct (ids_or_cons site_ids 1 (SCGMChallenge2DTest.NUM_SITES + 1))
      as (a & sites & ->); [done|].
    destruct (ids_or_cons subj_ids 11 (10 + SCGMChallenge2DTest.NUM_SUBJECTS + 1))
      as (b & subjs & ->); [done|].
    split.
    + destruct (SCGMChallenge2DTest.filename_pairs _ _ _) as [[|p ps]|e]; done.
    + intros Hex. unfold SCGMChallenge2DTest.filename_pairs.
      erewrite (for_each_pure (a :: sites) _
                  (λ site_id, flat_map (λ subj_id,
                     [(path_join root_dir
                         (SCGMChallenge2DTest._build_train_input_filename site_id
                            subj_id None), @None string)]) (b :: subjs))).
      * reflexivity.
      * intros site_id _. apply for_each_pure. intros subj_id _. by rewrite Hex.
Qed.
